(** * SHEIN_SEN: the storefront automation agent and its order store

    A shallow embedding of [shein_bot.py] (class [SheinBot]), of the part of
    [data_manager.py] (class [DataManager]) that the batch processor uses,
    and of [Config.validate_config].

    The Playwright browser, the event loop, the wall clock and the two files
    on disk are the environment.  The browser is a deterministic oracle whose
    answers may depend on the whole history of calls made so far; every call
    the Python code makes is appended to a chronological trace.  Python
    exceptions are explicit: a computation returns or raises,
    [except Exception] catches the exceptions that derive from [Exception], a
    bare [except:] catches all.  [asyncio.sleep] returns, or raises
    [CancelledError] when the task is cancelled while it sleeps.

    Python values are typed as the code meets them: a cell of the workbook
    is read by [pandas] as text, as a number, or as NaN when it is empty, and
    an argument that the caller leaves out is [None].  Strings are sequences
    of bytes, the UTF-8 encoding of the Python text; a substring test on the
    encodings is the substring test on the texts.

    Two library functions are taken as given and kept abstract in the
    environment: the Unicode case mappings [str.lower] and [str.upper], and
    the type that [pandas] infers for a column when it re-reads a sheet in
    which a text was written that it may take for a number, a boolean or a
    missing value.

    Left out, because they do not change what the code computes: the calls to
    the [loguru] logger, and [_format_excel_file], which only styles cells
    and catches every [Exception].  [json.dump] followed by [json.load] is
    taken as the identity on cookie lists. *)

From Stdlib Require Import String Ascii List ZArith NArith Bool Lia QArith.
From Stdlib Require Import DecimalString.
Import ListNotations.

Local Open Scope list_scope.
Local Open Scope string_scope.

(** ** Python strings *)

Module PyStr.

(** The double-quote character, used inside CSS selectors. *)
Definition dq : string :=
  String (Ascii false true false false false true false false) EmptyString.

(** [needle in hay] *)
Fixpoint contains (needle hay : string) : bool :=
  if String.prefix needle hay then true
  else match hay with
       | EmptyString => false
       | String _ rest => contains needle rest
       end.

(** Whether some character of the string satisfies [p]. *)
Fixpoint any_char (p : ascii -> bool) (s : string) : bool :=
  match s with
  | EmptyString => false
  | String c rest => p c || any_char p rest
  end.

Definition lower_ascii (c : ascii) : ascii :=
  let n := nat_of_ascii c in
  if (65 <=? n)%nat && (n <=? 90)%nat then ascii_of_nat (n + 32) else c.

Definition upper_ascii (c : ascii) : ascii :=
  let n := nat_of_ascii c in
  if (97 <=? n)%nat && (n <=? 122)%nat then ascii_of_nat (n - 32) else c.

Fixpoint map_chars (f : ascii -> ascii) (s : string) : string :=
  match s with
  | EmptyString => EmptyString
  | String c rest => String (f c) (map_chars f rest)
  end.

(** The case mappings of the 26 ASCII letters.  On a text made of ASCII
    characters they are [str.lower] and [str.upper]; on other texts the
    mappings of Python change more (the environment holds them). *)
Definition ascii_lower : string -> string := map_chars lower_ascii.
Definition ascii_upper : string -> string := map_chars upper_ascii.

(** Truth value of a string: only the empty string is false. *)
Definition truthy (s : string) : bool :=
  match s with EmptyString => false | _ => true end.

(** Truth value of an [Optional[str]]: [None] and the empty string are false. *)
Definition truthy_opt (o : option string) : bool :=
  match o with Some s => truthy s | None => false end.

(** [o or ''] *)
Definition or_empty (o : option string) : string :=
  match o with
  | Some s => if truthy s then s else EmptyString
  | None => EmptyString
  end.

(** [str(n)] for an integer. *)
Definition str_of_Z (n : Z) : string := NilZero.string_of_int (Z.to_int n).

End PyStr.

(** ** Python values *)

(** The values that reach the code where its annotations say [str]: [None]
    (an argument left out), NaN (an empty cell of the workbook, a [float]), a
    text, an integer, or a finite [float], which is given by its [repr]
    ("38.0" for the size 38 of a column that has empty cells). *)
Inductive pyval :=
| VNone
| VNaN
| VStr (s : string)
| VInt (n : Z)
| VFloat (repr : string).

(** A text is written as the text itself where a cell or an argument is
    expected. *)
Coercion VStr : string >-> pyval.

(** [str(v)], also what an f-string makes of [v]. *)
Definition py_str (v : pyval) : string :=
  match v with
  | VNone => "None"
  | VNaN => "nan"
  | VStr s => s
  | VInt n => PyStr.str_of_Z n
  | VFloat repr => repr
  end.

(** Truth value: [None], the empty text and zero are false; NaN is true. *)
Definition truth (v : pyval) : bool :=
  match v with
  | VNone => false
  | VNaN => true
  | VStr s => PyStr.truthy s
  | VInt n => negb (n =? 0)%Z
  | VFloat repr => negb (String.eqb repr "0.0" || String.eqb repr "-0.0")
  end.

(** [type(v).__name__] *)
Definition type_name (v : pyval) : string :=
  match v with
  | VNone => "NoneType"
  | VNaN | VFloat _ => "float"
  | VStr _ => "str"
  | VInt _ => "int"
  end.

(** ** Exceptions and outcomes *)

(** An exception object: whether it is an instance of [Exception] (as opposed
    to a bare [BaseException] such as [KeyboardInterrupt] or
    [asyncio.CancelledError]) and its [str()]. *)
Record exn := mk_exn { exn_is_Exception : bool; exn_str : string }.

Inductive outcome (A : Type) : Type :=
| Ret (a : A)
| Raise (e : exn).
Arguments Ret {A} a.
Arguments Raise {A} e.

(** An exception raised by the interpreter or a library. *)
Definition py_error (msg : string) : exn := mk_exn true msg.

(** [asyncio.CancelledError()], which derives from [BaseException] only. *)
Definition cancelled_error : exn := mk_exn false EmptyString.

(** The [AttributeError] of a method of [str] called on a value that is not
    a text. *)
Definition no_attribute (v : pyval) (name : string) : exn :=
  py_error ("'" ++ type_name v ++ "' object has no attribute '" ++ name ++ "'").

(** ** Data *)

(** An element handle returned by the browser. *)
Definition handle := nat.

(** One cookie descriptor, as returned by [context.cookies()]. *)
Record Cookie := mk_cookie {
  c_name : string;
  c_value : string;
  c_domain : string;
  c_path : string;
  c_expires : Q;
  c_httpOnly : bool;
  c_secure : bool;
  c_sameSite : string
}.

(** One row of the sheet [Commandes], as [pd.read_excel] returns it; the
    columns are those of [_create_orders_excel], in that order.  The
    identifier, the user name and the product URL are texts and the quantity
    and the price whole numbers in every row that [add_order] files; the
    other columns hold what [pandas] reads in the cell: the phone number a
    number when it is written in digits, the size and the colour NaN when
    the order names none, [processed_at] and [notes] NaN until the order is
    processed. *)
Record OrderRow := mk_row {
  order_id : string;
  user_phone : pyval;
  user_name : string;
  product_url : string;
  size : pyval;
  color : pyval;
  quantity : Z;
  estimated_price : Z;
  status : pyval;
  created_at : pyval;
  processed_at : pyval;
  notes : pyval
}.

Definition DataFrame := list OrderRow.

(** What [Config.COOKIES_FILE] holds when it exists: text that [json.load]
    rejects, or the JSON encoding of a cookie list. *)
Inductive CookieFile :=
| NotJson
| JsonCookies (cookies : list Cookie).

(** ** The environment *)

(** Every call made to the outside world. Durations are in milliseconds.
    [EUpdateStatus] is the rewriting of the sheet [Commandes] by
    [update_order_status], with the arguments of the call. *)
Inductive event :=
| EGoto (url : string)
| EWaitForSelector (selector : string) (timeout : Z)
| EQuerySelectorAll (selector : string)
| EClick (element : handle)
| EFill (element : handle) (text : string)
| EType (element : handle) (text : string)
| EGetAttribute (element : handle) (name : string)
| ETextContent (element : handle)
| ESleep (ms : Z)
| EContextCookies
| EAddCookies (cookies : list Cookie)
| EUpdateStatus (oid new_status new_notes : string).

Definition trace_t := list event.

(** The browser and the page it shows, the event loop, the clock, and the
    two library functions kept abstract.  Each answer of the browser, of the
    loop and of the clock is a function of the calls made so far and of the
    call's arguments.
    - [env_cancelled]: whether the task is cancelled during the sleep that
      starts after these calls.
    - [env_now]: [datetime.now().isoformat()], a text such as
      "2024-05-01T10:00:00.000123", which a cell keeps as it is.
    - [env_lower], [env_upper]: [str.lower] and [str.upper].
    - [env_infer]: the cells that [pandas] returns for a column of a sheet
      that was just rewritten, when nothing in the column tells that it will
      be read back as it was written. *)
Record Env := mk_env {
  env_goto : trace_t -> string -> outcome unit;
  env_wait_for_selector : trace_t -> string -> Z -> outcome (option handle);
  env_query_selector_all : trace_t -> string -> outcome (list handle);
  env_click : trace_t -> handle -> outcome unit;
  env_fill : trace_t -> handle -> string -> outcome unit;
  env_type : trace_t -> handle -> string -> outcome unit;
  env_get_attribute : trace_t -> handle -> string -> outcome (option string);
  env_text_content : trace_t -> handle -> outcome (option string);
  env_url : trace_t -> outcome string;
  env_context_cookies : trace_t -> outcome (list Cookie);
  env_add_cookies : trace_t -> list Cookie -> outcome unit;
  env_now : trace_t -> string;
  env_cancelled : trace_t -> bool;
  env_lower : string -> string;
  env_upper : string -> string;
  env_infer : list pyval -> list pyval
}.

(** The program-visible state: the trace of calls, the sheet [Commandes] as
    [pd.read_excel] returns it ([None]: the workbook cannot be read), the
    cookie file, and whether [self.context] is set. *)
Record State := mk_state {
  trace : trace_t;
  orders_file : option DataFrame;
  cookies_file : option CookieFile;
  has_context : bool
}.

Definition add_event (ev : event) (st : State) : State :=
  mk_state (trace st ++ [ev])%list (orders_file st) (cookies_file st) (has_context st).

Definition set_orders_file (df : DataFrame) (st : State) : State :=
  mk_state (trace st) (Some df) (cookies_file st) (has_context st).

Definition set_cookies_file (f : CookieFile) (st : State) : State :=
  mk_state (trace st) (orders_file st) (Some f) (has_context st).

(** ** The monad of Python computations *)

Definition M (A : Type) : Type := State -> outcome A * State.

Definition ret {A} (a : A) : M A := fun st => (Ret a, st).

Definition raise {A} (e : exn) : M A := fun st => (Raise e, st).

Definition bind {A B} (m : M A) (k : A -> M B) : M B :=
  fun st =>
    match m st with
    | (Ret a, st') => k a st'
    | (Raise e, st') => (Raise e, st')
    end.

Notation "x <- m ;; k" := (bind m (fun x => k))
  (at level 61, m at next level, right associativity).
Notation "m ;;; k" := (bind m (fun _ => k))
  (at level 61, right associativity).

(** [try: body  except Exception as e: handler e] *)
Definition try_except_Exception {A} (body : M A) (handler : exn -> M A) : M A :=
  fun st =>
    match body st with
    | (Ret a, st') => (Ret a, st')
    | (Raise e, st') =>
        if exn_is_Exception e then handler e st' else (Raise e, st')
    end.

(** [try: body  except: handler] *)
Definition try_except_all {A} (body : M A) (handler : M A) : M A :=
  fun st =>
    match body st with
    | (Ret a, st') => (Ret a, st')
    | (Raise _, st') => handler st'
    end.

(** [for x in xs: body x], where the body either falls through to the next
    iteration ([None]) or executes a [return v] ([Some v]). *)
Fixpoint for_return {X R} (body : X -> M (option R)) (xs : list X)
  : M (option R) :=
  match xs with
  | [] => ret None
  | x :: rest =>
      r <- body x ;;
      match r with
      | Some v => ret (Some v)
      | None => for_return body rest
      end
  end.

(** [for _ in range(n): body] *)
Fixpoint repeat_m (n : nat) (body : M unit) : M unit :=
  match n with
  | O => ret tt
  | S n' => body ;;; repeat_m n' body
  end.

(** A call to the environment: the answer is read at the current trace, and
    the call is recorded. *)
Definition call {A} (ev : event) (answer : trace_t -> outcome A) : M A :=
  fun st => (answer (trace st), add_event ev st).


(** ** data_manager.py: class DataManager *)

Module DataManager.

(** [pd.read_excel(Config.ORDERS_FILE, sheet_name='Commandes')]: raises when
    the workbook cannot be read. *)
Definition read_excel : M DataFrame :=
  fun st =>
    match orders_file st with
    | Some df => (Ret df, st)
    | None => (Raise (py_error "FileNotFoundError"), st)
    end.

(** [cell == s] for a [str] [s]: only a text equals a text. *)
Definition cell_is (cell : pyval) (s : string) : bool :=
  match cell with
  | VStr t => String.eqb t s
  | _ => false
  end.

(** [get_all_orders(status)] *)
Definition get_all_orders (status_filter : option string) : M DataFrame :=
  try_except_Exception
    (df <- read_excel ;;
     match status_filter with
     | Some s =>
         if PyStr.truthy s
         then ret (filter (fun r => cell_is (status r) s) df)
         else ret df
     | None => ret df
     end)
    (fun _ => ret []).

(** *** What a cell keeps of a text *)

(** A byte that continues a character of a UTF-8 text. *)
Definition is_continuation (c : ascii) : bool :=
  let n := N_of_ascii c in ((128 <=? n) && (n <? 192))%N.

(** [s[:n]], counted in characters. *)
Fixpoint take_chars (n : N) (s : string) : string :=
  match s with
  | EmptyString => EmptyString
  | String c rest =>
      if is_continuation c then String c (take_chars n rest)
      else if (n =? 0)%N then EmptyString
      else String c (take_chars (N.pred n) rest)
  end.

(** [openpyxl] cuts the text of a cell at 32767 characters
    ([Cell.check_string]). *)
Definition excel_text (s : string) : string := take_chars 32767 s.

(** The control characters of [ILLEGAL_CHARACTERS_RE]: all of them but the
    tabulation, the line feed and the carriage return. *)
Definition illegal_char (c : ascii) : bool :=
  let n := N_of_ascii c in
  ((n <=? 8) || ((11 <=? n) && (n <=? 12)) || ((14 <=? n) && (n <=? 31)))%N.

(** Whether [openpyxl] raises [IllegalCharacterError] for the text; the
    test is made on the text as cut. *)
Definition refused (s : string) : bool :=
  PyStr.any_char illegal_char (excel_text s).

Definition illegal_character (s : string) : exn :=
  py_error (excel_text s ++ " cannot be used in worksheets.").

(** The characters of which the texts are made that [pandas] does not read
    back as texts when they begin with a letter: the missing-value markers
    ("NA", "N/A", "NaN", "null", "None", ...), the booleans ("True",
    "false", ...) and the numbers ("inf", "Infinity", "nan"), with the
    digits, signs and blanks that may come with them. *)
Definition marker_char (c : ascii) : bool :=
  let n := N_of_ascii c in
  ((48 <=? n) && (n <=? 57))%N
  || ((9 <=? n) && (n <=? 13))%N || (n =? 32)%N
  || ((43 <=? n) && (n <=? 47))%N || (n =? 95)%N
  || PyStr.any_char (Ascii.eqb (PyStr.lower_ascii c)) "aefilnorstuy".

Definition is_letter (c : ascii) : bool :=
  let n := N_of_ascii (PyStr.lower_ascii c) in ((97 <=? n) && (n <=? 122))%N.

(** A text that is read back as the text it is, in whatever column: it
    begins with a letter (so it is no formula, no error code and no signed
    or unsigned number) and has a character that no marker, boolean or
    number has.  The test is sufficient, not necessary. *)
Definition plain (s : string) : bool :=
  match s with
  | EmptyString => false
  | String c _ =>
      is_letter c && PyStr.any_char (fun c' => negb (marker_char c')) s
  end.

(** A text that a cell stores whole and that is read back as it is. *)
Definition keeps (s : string) : bool :=
  negb (refused s) && String.eqb (excel_text s) s && plain s.

(** *** Columns *)

Definition set_status (cell : pyval) (r : OrderRow) : OrderRow :=
  mk_row (order_id r) (user_phone r) (user_name r) (product_url r)
         (size r) (color r) (quantity r) (estimated_price r)
         cell (created_at r) (processed_at r) (notes r).

Definition set_created_at (cell : pyval) (r : OrderRow) : OrderRow :=
  mk_row (order_id r) (user_phone r) (user_name r) (product_url r)
         (size r) (color r) (quantity r) (estimated_price r)
         (status r) cell (processed_at r) (notes r).

Definition set_processed_at (cell : pyval) (r : OrderRow) : OrderRow :=
  mk_row (order_id r) (user_phone r) (user_name r) (product_url r)
         (size r) (color r) (quantity r) (estimated_price r)
         (status r) (created_at r) cell (notes r).

Definition set_notes (cell : pyval) (r : OrderRow) : OrderRow :=
  mk_row (order_id r) (user_phone r) (user_name r) (product_url r)
         (size r) (color r) (quantity r) (estimated_price r)
         (status r) (created_at r) (processed_at r) cell.

(** The frame with one column replaced, cell by cell. *)
Fixpoint put_column (set : pyval -> OrderRow -> OrderRow) (col : list pyval)
    (df : DataFrame) : DataFrame :=
  match df with
  | [] => []
  | r :: rest => set (hd VNaN col) r :: put_column set (tl col) rest
  end.

Definition is_nan (cell : pyval) : bool :=
  match cell with VNaN => true | _ => false end.

Definition is_plain (cell : pyval) : bool :=
  match cell with VStr s => plain s | _ => false end.

(** A column that is read back as it is: one of its cells is a plain text,
    which makes [pandas] keep the column as objects, or it is empty. *)
Definition settled (col : list pyval) : bool :=
  existsb is_plain col || forallb is_nan col.

(** The column as the next [pd.read_excel] returns it. *)
Definition reread (env : Env) (as_written : bool) (col : list pyval)
  : list pyval :=
  if as_written then col else env_infer env col.

(** The column with the cells from row [i0] on left empty. *)
Definition cut_column (i0 : nat) (col : list pyval) : list pyval :=
  (firstn i0 col ++ repeat VNaN (length col - i0))%list.

(** *** update_order_status *)

(** The three [df.loc[mask, ...] = ...] assignments on one row. *)
Definition update_row (oid new_status now new_notes : string) (r : OrderRow)
  : OrderRow :=
  if String.eqb (order_id r) oid then
    mk_row (order_id r) (user_phone r) (user_name r) (product_url r)
           (size r) (color r) (quantity r) (estimated_price r)
           new_status (created_at r) now
           (if PyStr.truthy new_notes then VStr new_notes else notes r)
  else r.

(** The index of the first row of the mask. *)
Fixpoint first_match (oid : string) (df : DataFrame) : nat :=
  match df with
  | [] => O
  | r :: rest =>
      if String.eqb (order_id r) oid then O else S (first_match oid rest)
  end.

(** What the sheet stores of the texts just assigned to a row: each is cut
    at 32767 characters. *)
Definition cut_row (oid new_status new_notes : string) (r : OrderRow)
  : OrderRow :=
  if String.eqb (order_id r) oid then
    set_notes (if PyStr.truthy new_notes then VStr (excel_text new_notes)
               else notes r)
              (set_status (VStr (excel_text new_status)) r)
  else r.

(** Whether [df.to_excel] raises [IllegalCharacterError]. *)
Definition write_fails (new_status new_notes : string) : bool :=
  refused new_status || (PyStr.truthy new_notes && refused new_notes).

(** The sheet that [df.to_excel] leaves, as the next [pd.read_excel] returns
    it, for the frame [df1] in which [new_status] and [new_notes] were
    assigned to the rows of [oid].

    [to_excel] replaces the sheet and writes the header, then the cells
    column after column, each column from the top; [ExcelWriter.__exit__]
    saves the workbook even when a cell has raised.  So a refused text cuts
    the sheet at the first cell that holds it: the columns before are
    written, that column is written above the first row of the mask, and the
    rest of the sheet is empty.  The status is the ninth column and the
    notes are the last one, after [created_at] and [processed_at]. *)
Definition sheet_after (env : Env) (oid new_status new_notes : string)
    (df1 : DataFrame) : DataFrame :=
  let i0 := first_match oid df1 in
  if refused new_status then
    let kept := cut_column i0 (map status df1) in
    put_column set_status (reread env (settled kept) kept)
      (map (fun r =>
              set_notes VNaN (set_processed_at VNaN (set_created_at VNaN r)))
           df1)
  else
    let cut := map (cut_row oid new_status new_notes) df1 in
    let df2 :=
      put_column set_status
        (reread env (plain (excel_text new_status)) (map status cut)) cut in
    if PyStr.truthy new_notes then
      if refused new_notes then
        let kept := cut_column i0 (map notes df1) in
        put_column set_notes (reread env (settled kept) kept) df2
      else
        put_column set_notes
          (reread env (plain (excel_text new_notes)) (map notes df2)) df2
    else df2.

(** [with pd.ExcelWriter(...) as writer: df.to_excel(writer, ...)] *)
Definition to_excel (env : Env) (ev : event)
    (oid new_status new_notes : string) (df1 : DataFrame) : M unit :=
  fun st =>
    (if write_fails new_status new_notes
     then Raise (illegal_character
                   (if refused new_status then new_status else new_notes))
     else Ret tt,
     add_event ev
       (set_orders_file (sheet_after env oid new_status new_notes df1) st)).

(** [update_order_status(order_id, status, notes)] *)
Definition update_order_status (env : Env)
    (oid new_status new_notes : string) : M bool :=
  try_except_Exception
    (df <- read_excel ;;
     if existsb (fun r => String.eqb (order_id r) oid) df then
       now <- (fun st => (Ret (env_now env (trace st)), st)) ;;
       to_excel env (EUpdateStatus oid new_status new_notes)
                oid new_status new_notes
                (map (update_row oid new_status now new_notes) df) ;;;
       ret true
     else ret false)
    (fun _ => ret false).

(** *** _get_user_name *)

(** What [json.load] gives for [Config.USERS_FILE]: the object under the key
    ['users'], when that key is present, maps a phone number to the user's
    record, of which only the key ['name'] is read (absent: [None]). *)
Record UsersJson := mk_users_json {
  uj_users : option (list (string * option string))
}.

(** [user_phone[-4:]], on a string of one-byte characters. *)
Definition last4 (s : string) : string :=
  substring (String.length s - 4) 4 s.

(** [_get_user_name(user_phone)], given the content of the users file
    ([None] when it cannot be opened or parsed). *)
Definition _get_user_name (users_file : option UsersJson) (phone : string)
  : string :=
  match users_file with
  | Some data =>
      let users :=
        match uj_users data with Some u => u | None => [] end in
      let user_info :=
        match find (fun p => String.eqb (fst p) phone) users with
        | Some p => snd p
        | None => None
        end in
      match user_info with
      | Some name => name
      | None => "Utilisateur_" ++ last4 phone
      end
  | None =>
      "Utilisateur_" ++ (if PyStr.truthy phone then last4 phone
                         else "Unknown")
  end.

End DataManager.

(** ** shein_bot.py: class SheinBot *)

Module SheinBot.

Import PyStr.

Section Browser.

Variable env : Env.

(** [await asyncio.sleep(seconds)]: the call returns, or raises
    [CancelledError] when the task is cancelled meanwhile. *)
Definition sleep (ms : Z) : M unit :=
  call (ESleep ms)
       (fun tr => if env_cancelled env tr then Raise cancelled_error
                  else Ret tt).

(** [v.lower()] and [v.upper()]: an [AttributeError] when [v] is not a
    text. *)
Definition str_lower (v : pyval) : M string :=
  match v with
  | VStr s => ret (env_lower env s)
  | _ => raise (no_attribute v "lower")
  end.

Definition str_upper (v : pyval) : M string :=
  match v with
  | VStr s => ret (env_upper env s)
  | _ => raise (no_attribute v "upper")
  end.

(** *** Playwright calls on [self.page], [self.context] and element handles *)

Definition goto (url : string) : M unit :=
  call (EGoto url) (fun tr => env_goto env tr url).

Definition wait_for_selector (selector : string) (timeout : Z)
  : M (option handle) :=
  call (EWaitForSelector selector timeout)
       (fun tr => env_wait_for_selector env tr selector timeout).

Definition query_selector_all (selector : string) : M (list handle) :=
  call (EQuerySelectorAll selector)
       (fun tr => env_query_selector_all env tr selector).

Definition click (element : handle) : M unit :=
  call (EClick element) (fun tr => env_click env tr element).

Definition fill (element : handle) (text : string) : M unit :=
  call (EFill element text) (fun tr => env_fill env tr element text).

Definition type_text (element : handle) (text : string) : M unit :=
  call (EType element text) (fun tr => env_type env tr element text).

Definition get_attribute (element : handle) (name : string)
  : M (option string) :=
  call (EGetAttribute element name)
       (fun tr => env_get_attribute env tr element name).

Definition text_content (element : handle) : M (option string) :=
  call (ETextContent element) (fun tr => env_text_content env tr element).

(** [self.page.url] *)
Definition page_url : M string :=
  fun st => (env_url env (trace st), st).

(** *** _load_cookies and _save_cookies *)

(** [self.context.cookies()]; an [AttributeError] when [self.context] is
    [None]. *)
Definition context_cookies : M (list Cookie) :=
  fun st =>
    if has_context st
    then call EContextCookies (env_context_cookies env) st
    else (Raise (py_error "'NoneType' object has no attribute 'cookies'"), st).

(** [self.context.add_cookies(cookies)] *)
Definition context_add_cookies (cookies : list Cookie) : M unit :=
  fun st =>
    if has_context st
    then call (EAddCookies cookies)
              (fun tr => env_add_cookies env tr cookies) st
    else (Raise (py_error "'NoneType' object has no attribute 'add_cookies'"),
          st).

(** [json.load] on the opened cookie file. *)
Definition json_load_cookies (f : CookieFile) : M (list Cookie) :=
  match f with
  | JsonCookies cookies => ret cookies
  | NotJson => raise (py_error "JSONDecodeError")
  end.

Definition _load_cookies : M unit :=
  try_except_Exception
    (fun st =>
       match cookies_file st with
       | Some f =>
           (cookies <- json_load_cookies f ;;
            context_add_cookies cookies) st
       | None => (Ret tt, st)
       end)
    (fun _ => ret tt).

(** [json.dump(cookies, f, indent=2)] into [Config.COOKIES_FILE]. *)
Definition json_dump_cookies (cookies : list Cookie) : M unit :=
  fun st => (Ret tt, set_cookies_file (JsonCookies cookies) st).

Definition _save_cookies : M unit :=
  try_except_Exception
    (fun st =>
       if has_context st then
         (cookies <- context_cookies ;;
          json_dump_cookies cookies) st
       else (Ret tt, st))
    (fun _ => ret tt).

(** *** _is_valid_product_page *)

Definition product_indicators : list string :=
  [ "[data-testid=" ++ dq ++ "product-title" ++ dq ++ "]";
    ".product-intro__head-name";
    ".goods-title";
    "h1[class*=" ++ dq ++ "product" ++ dq ++ "]";
    ".product-name" ].

(** One iteration of a loop of the shape
    [try: element = wait_for_selector(s, timeout); if element: return True
     except: continue]. *)
Definition probe (timeout : Z) (selector : string) : M (option bool) :=
  try_except_all
    (element <- wait_for_selector selector timeout ;;
     match element with
     | Some _ => ret (Some true)
     | None => ret None
     end)
    (ret None).

Definition _is_valid_product_page : M bool :=
  try_except_Exception
    (r <- for_return (probe 5000) product_indicators ;;
     match r with
     | Some b => ret b
     | None =>
         current_url <- page_url ;;
         if contains "/item" current_url || contains "/product" current_url
         then ret true
         else ret false
     end)
    (fun _ => ret false).

(** *** _select_size *)

Definition size_selectors (target_size : string) : list string :=
  [ "[data-testid=" ++ dq ++ "size-" ++ target_size ++ dq ++ "]";
    "button[title=" ++ dq ++ target_size ++ dq ++ "]";
    "span:has-text(" ++ dq ++ target_size ++ dq ++ "):not([class*="
      ++ dq ++ "disabled" ++ dq ++ "])";
    ".size-item:has-text(" ++ dq ++ target_size ++ dq ++ "):not(.disabled)";
    "[class*=" ++ dq ++ "size" ++ dq ++ "]:has-text(" ++ dq ++ target_size
      ++ dq ++ "):not([class*=" ++ dq ++ "disabled" ++ dq ++ "])";
    "button:has-text(" ++ dq ++ target_size ++ dq ++ "):not([disabled])" ].

Definition all_size_elements_selector : string :=
  "[class*=" ++ dq ++ "size" ++ dq ++ "], [data-testid*=" ++ dq ++ "size"
    ++ dq ++ "], button, span".

(** One iteration of the first loop of [_select_size]. *)
Definition try_size_selector (selector : string) : M (option bool) :=
  try_except_all
    (element <- wait_for_selector selector 3000 ;;
     match element with
     | Some el =>
         click el ;;;
         sleep 1000 ;;;
         ret (Some true)
     | None => ret None
     end)
    (ret None).

(** One iteration of the second loop of [_select_size]. *)
Definition try_size_element (target_size : pyval) (element : handle)
  : M (option bool) :=
  try_except_all
    (text <- text_content element ;;
     found <-
       (if truthy_opt text then
          target_upper <- str_upper target_size ;;
          ret (contains target_upper (env_upper env (or_empty text)))
        else ret false) ;;
     if found then
       is_disabled <- get_attribute element "disabled" ;;
       class_attr <- get_attribute element "class" ;;
       let class_name := or_empty class_attr in
       if negb (truthy_opt is_disabled)
          && negb (contains "disabled" (env_lower env class_name))
       then
         click element ;;;
         sleep 1000 ;;;
         ret (Some true)
       else ret None
     else ret None)
    (ret None).

Definition _select_size (target_size : pyval) : M bool :=
  try_except_Exception
    (r <- for_return try_size_selector
                     (size_selectors (py_str target_size)) ;;
     match r with
     | Some b => ret b
     | None =>
         all_size_elements <- query_selector_all all_size_elements_selector ;;
         r2 <- for_return (try_size_element target_size) all_size_elements ;;
         match r2 with
         | Some b => ret b
         | None => ret false
         end
     end)
    (fun _ => ret false).

(** *** _select_color *)

Definition color_selectors (target_color : string) : list string :=
  [ "[data-testid=" ++ dq ++ "color-" ++ target_color ++ dq ++ "]";
    "[title*=" ++ dq ++ target_color ++ dq ++ "]";
    "[alt*=" ++ dq ++ target_color ++ dq ++ "]";
    ".color-item:has-text(" ++ dq ++ target_color ++ dq ++ ")";
    "[class*=" ++ dq ++ "color" ++ dq ++ "], [data-testid*=" ++ dq ++ "color"
      ++ dq ++ "], [class*=" ++ dq ++ "swatch" ++ dq ++ "]" ].

(** The body of the inner loop over the elements a selector matched. *)
Definition try_color_element (target_color_lower : string) (element : handle)
  : M (option bool) :=
  title_attr <- get_attribute element "title" ;;
  alt_attr <- get_attribute element "alt" ;;
  text_attr <- text_content element ;;
  let title := or_empty title_attr in
  let alt := or_empty alt_attr in
  let text := or_empty text_attr in
  if contains target_color_lower (env_lower env title)
     || contains target_color_lower (env_lower env alt)
     || contains target_color_lower (env_lower env text)
  then
    click element ;;;
    sleep 1000 ;;;
    ret (Some true)
  else ret None.

(** One iteration of the outer loop: the [try] block spans the inner loop. *)
Definition try_color_selector (target_color_lower selector : string)
  : M (option bool) :=
  try_except_all
    (elements <- query_selector_all selector ;;
     for_return (try_color_element target_color_lower) elements)
    (ret None).

Definition _select_color (target_color : pyval) : M bool :=
  try_except_Exception
    (target_color_lower <- str_lower target_color ;;
     r <- for_return (try_color_selector target_color_lower)
                     (color_selectors (py_str target_color)) ;;
     match r with
     | Some b => ret b
     | None => ret false
     end)
    (fun _ => ret false).

(** *** _set_quantity *)

Definition qty_selectors : list string :=
  [ "[data-testid=" ++ dq ++ "quantity-input" ++ dq ++ "]";
    "input[name=" ++ dq ++ "quantity" ++ dq ++ "]";
    "input[class*=" ++ dq ++ "quantity" ++ dq ++ "]";
    ".quantity-input input";
    "[class*=" ++ dq ++ "qty" ++ dq ++ "] input" ].

Definition plus_button_selectors : list string :=
  [ "[data-testid=" ++ dq ++ "quantity-plus" ++ dq ++ "]";
    "button[class*=" ++ dq ++ "plus" ++ dq ++ "]";
    "button:has-text(" ++ dq ++ "+" ++ dq ++ ")";
    ".quantity-plus" ].

(** One iteration of the loop over the quantity inputs. *)
Definition try_qty_selector (quantity : Z) (selector : string)
  : M (option bool) :=
  try_except_all
    (element <- wait_for_selector selector 3000 ;;
     match element with
     | Some el =>
         click el ;;;
         fill el EmptyString ;;;
         type_text el (str_of_Z quantity) ;;;
         sleep 1000 ;;;
         ret (Some true)
     | None => ret None
     end)
    (ret None).

(** One iteration of the loop over the [+] buttons. *)
Definition try_plus_selector (quantity : Z) (selector : string)
  : M (option bool) :=
  try_except_all
    (plus_button <- wait_for_selector selector 3000 ;;
     match plus_button with
     | Some button =>
         repeat_m (Z.to_nat (quantity - 1)) (click button ;;; sleep 500) ;;;
         ret (Some true)
     | None => ret None
     end)
    (ret None).

Definition _set_quantity (quantity : Z) : M bool :=
  try_except_Exception
    (r <- for_return (try_qty_selector quantity) qty_selectors ;;
     match r with
     | Some b => ret b
     | None =>
         r2 <- for_return (try_plus_selector quantity) plus_button_selectors ;;
         match r2 with
         | Some b => ret b
         | None => ret false
         end
     end)
    (fun _ => ret false).

(** *** _click_add_to_cart *)

Definition add_to_cart_selectors : list string :=
  [ "[data-testid=" ++ dq ++ "add-to-cart" ++ dq ++ "]";
    "button:has-text(" ++ dq ++ "Ajouter au panier" ++ dq ++ ")";
    "button:has-text(" ++ dq ++ "Add to cart" ++ dq ++ ")";
    "button:has-text(" ++ dq ++ "AJOUTER" ++ dq ++ ")";
    ".add-to-cart-btn";
    "[class*=" ++ dq ++ "add-cart" ++ dq ++ "]";
    "button[class*=" ++ dq ++ "cart" ++ dq ++ "]" ].

(** One iteration of the loop over the add-to-cart buttons. *)
Definition try_add_selector (selector : string) : M (option bool) :=
  try_except_all
    (element <- wait_for_selector selector 5000 ;;
     match element with
     | Some el =>
         is_disabled <- get_attribute el "disabled" ;;
         if negb (truthy_opt is_disabled) then
           click el ;;;
           sleep 2000 ;;;
           ret (Some true)
         else ret None
     | None => ret None
     end)
    (ret None).

Definition _click_add_to_cart : M bool :=
  try_except_Exception
    (r <- for_return try_add_selector add_to_cart_selectors ;;
     match r with
     | Some b => ret b
     | None => ret false
     end)
    (fun _ => ret false).

(** *** _confirm_cart_addition *)

Definition success_indicators : list string :=
  [ "text=Ajouté au panier";
    "text=Added to cart";
    "text=Produit ajouté";
    "[data-testid=" ++ dq ++ "cart-success" ++ dq ++ "]";
    ".success-message";
    "[class*=" ++ dq ++ "success" ++ dq ++ "]" ].

Definition modal_selectors : list string :=
  [ "[role=" ++ dq ++ "dialog" ++ dq ++ "]";
    ".modal";
    ".popup";
    "[class*=" ++ dq ++ "overlay" ++ dq ++ "]" ].

Definition _confirm_cart_addition : M bool :=
  try_except_Exception
    (r <- for_return (probe 5000) success_indicators ;;
     match r with
     | Some b => ret b
     | None =>
         r2 <- for_return (probe 3000) modal_selectors ;;
         match r2 with
         | Some b => ret b
         | None =>
             sleep 3000 ;;;
             ret true
         end
     end)
    (fun _ => ret false).

(** *** add_product_to_cart *)

(** The statements of [add_product_to_cart] that follow the size selection:
    colour, quantity, the add-to-cart click and its confirmation. *)
Definition configure_and_commit (color : pyval) (quantity : Z)
  : M (bool * string) :=
  (if truth color
   then color_selected <- _select_color color ;; ret tt
   else ret tt) ;;;
  (if (quantity >? 1)%Z
   then quantity_set <- _set_quantity quantity ;; ret tt
   else ret tt) ;;;
  add_success <- _click_add_to_cart ;;
  if negb add_success
  then ret (false, "Échec ajout au panier - bouton non trouvé ou non cliquable")
  else
    success_confirmed <- _confirm_cart_addition ;;
    if success_confirmed
    then ret (true, "Produit ajouté avec succès")
    else ret (false, "Ajout au panier non confirmé").

Definition add_product_to_cart (url : string) (size color : pyval)
    (quantity : Z) : M (bool * string) :=
  try_except_Exception
    (goto url ;;;
     sleep 2000 ;;;
     valid <- _is_valid_product_page ;;
     if negb valid
     then ret (false, "Page produit invalide ou produit non trouvé")
     else
       if truth size then
         size_selected <- _select_size size ;;
         if negb size_selected
         then ret (false, "Taille '" ++ py_str size
                            ++ "' non trouvée ou non sélectionnable")
         else configure_and_commit color quantity
       else configure_and_commit color quantity)
    (fun e => ret (false, "Erreur ajout produit: " ++ exn_str e)).

(** *** check_login_status *)

(** [Config.SHEIN_BASE_URL] *)
Definition SHEIN_BASE_URL : string := "https://www.shein.com/fr/".

Definition login_indicators : list string :=
  [ "[data-testid=" ++ dq ++ "user-menu" ++ dq ++ "]";
    ".user-info";
    "[class*=" ++ dq ++ "user" ++ dq ++ "][class*=" ++ dq ++ "avatar" ++ dq
      ++ "]";
    "text=Mon compte";
    "text=Profil" ].

Definition check_login_status : M bool :=
  try_except_Exception
    (goto SHEIN_BASE_URL ;;;
     sleep 3000 ;;;
     r <- for_return (probe 5000) login_indicators ;;
     match r with
     | Some b => ret b
     | None =>
         current_url <- page_url ;;
         if contains "login" (env_lower env current_url)
         then ret false
         else ret false
     end)
    (fun _ => ret false).

End Browser.

(** *** process_pending_orders *)

(** The dictionary [{'success': .., 'failed': .., 'total': ..}]. *)
Record Results := mk_results { r_success : Z; r_failed : Z; r_total : Z }.

Definition no_results : Results := mk_results 0 0 0.

Definition incr_success (r : Results) : Results :=
  mk_results (r_success r + 1) (r_failed r) (r_total r).

Definition incr_failed (r : Results) : Results :=
  mk_results (r_success r) (r_failed r + 1) (r_total r).

(** [Config.RATE_LIMIT_DELAY], two seconds. *)
Definition RATE_LIMIT_DELAY : Z := 2000.

(** The batch loop, over the three methods it calls. *)
Section Batch.

Variable env : Env.
Variable get_all_orders : option string -> M DataFrame.
Variable update_order_status : string -> string -> string -> M bool.
Variable add_to_cart : string -> pyval -> pyval -> Z -> M (bool * string).

(** The body of [for order in pending_orders].  After an update of
    [results] comes only the sleep, which raises nothing that the handler
    catches, so the handler sees the dictionary as it was when the iteration
    began. *)
Definition process_order (order : OrderRow) (results : Results) : M Results :=
  try_except_Exception
    (r <- add_to_cart (product_url order) (size order) (color order)
                      (quantity order) ;;
     let (success, message) := r in
     results' <-
       (if success then
          update_order_status (order_id order) "completed"
                              "Ajouté automatiquement au panier" ;;;
          ret (incr_success results)
        else
          update_order_status (order_id order) "failed"
                              ("Erreur: " ++ message) ;;;
          ret (incr_failed results)) ;;
     sleep env RATE_LIMIT_DELAY ;;;
     ret results')
    (fun _ => ret (incr_failed results)).

Fixpoint process_orders (orders : list OrderRow) (results : Results)
  : M Results :=
  match orders with
  | [] => ret results
  | order :: rest =>
      results' <- process_order order results ;;
      process_orders rest results'
  end.

Definition process_pending_orders_with : M Results :=
  try_except_Exception
    (pending_orders <- get_all_orders (Some "pending") ;;
     match pending_orders with
     | [] => ret no_results
     | _ :: _ =>
         process_orders pending_orders
           (mk_results 0 0 (Z.of_nat (length pending_orders)))
     end)
    (fun _ => ret no_results).

End Batch.

(** [SheinBot.process_pending_orders], with [self.data_manager] and
    [self.add_product_to_cart]. *)
Definition process_pending_orders (env : Env) : M Results :=
  process_pending_orders_with env
    DataManager.get_all_orders
    (DataManager.update_order_status env)
    (add_product_to_cart env).

End SheinBot.

(** ** config.py: class Config *)

Module Config.

(** The three keys that [validate_config] requires, as read from the
    environment (an unset variable is the empty string). *)
Record Keys := mk_keys {
  OPENAI_API_KEY : string;
  TWILIO_ACCOUNT_SID : string;
  TWILIO_AUTH_TOKEN : string
}.

Definition required_keys (cfg : Keys) : list (string * string) :=
  [ ("OPENAI_API_KEY", OPENAI_API_KEY cfg);
    ("TWILIO_ACCOUNT_SID", TWILIO_ACCOUNT_SID cfg);
    ("TWILIO_AUTH_TOKEN", TWILIO_AUTH_TOKEN cfg) ].

(** The loop that collects the keys whose value is falsy. *)
Definition missing_keys (cfg : Keys) : list string :=
  map fst (filter (fun kv => negb (PyStr.truthy (snd kv))) (required_keys cfg)).

(** [validate_config()]: [True], or a [ValueError]. *)
Definition validate_config (cfg : Keys) : outcome bool :=
  match missing_keys cfg with
  | [] => Ret true
  | missing =>
      Raise (py_error ("Clés de configuration manquantes: "
                         ++ String.concat ", " missing))
  end.

End Config.

(** ** Page fixtures

    A static page: what each selector matches and what each element carries
    does not change with the calls made.  A selector that matches nothing
    makes [wait_for_selector] time out.  No sleep is cancelled.  The texts
    of the fixtures are ASCII texts, on which the case mappings of Python are
    those of the ASCII letters, and the sheets hold plain texts only, so the
    inference of [pandas] is never consulted. *)

Module Fixture.

Import PyStr.

Record Page := mk_page {
  pg_wait : string -> option handle;
  pg_all : string -> list handle;
  pg_attr : handle -> string -> option string;
  pg_text : handle -> option string;
  pg_url : string
}.

Definition timeout_error : exn :=
  mk_exn true "Timeout 3000ms exceeded.".

Definition static_env (pg : Page) : Env :=
  mk_env
    (fun _ _ => Ret tt)
    (fun _ s _ =>
       match pg_wait pg s with
       | Some h => Ret (Some h)
       | None => Raise timeout_error
       end)
    (fun _ s => Ret (pg_all pg s))
    (fun _ _ => Ret tt)
    (fun _ _ _ => Ret tt)
    (fun _ _ _ => Ret tt)
    (fun _ h n => Ret (pg_attr pg h n))
    (fun _ h => Ret (pg_text pg h))
    (fun _ => Ret (pg_url pg))
    (fun _ => Ret [])
    (fun _ _ => Ret tt)
    (fun _ => "2024-05-01T10:00:00")
    (fun _ => false) ascii_lower ascii_upper (fun col => col).

(** A page on which the selectors listed in [matches] resolve to the given
    handles, with no attribute and no text on any element. *)
Definition lookup (matches : list (string * handle)) (s : string)
  : option handle :=
  match find (fun p => String.eqb (fst p) s) matches with
  | Some p => Some (snd p)
  | None => None
  end.


Definition bare_page (matches : list (string * handle)) : Page :=
  mk_page (lookup matches) (fun _ => []) (fun _ _ => None) (fun _ => None)
          "https://www.shein.com/fr/item12345".

Definition empty_state : State := mk_state [] None None false.

(** A page that shows a product title and a success toast after the click. *)
Definition toast_page : Page :=
  bare_page [ (".goods-title", 1%nat); (".success-message", 2%nat) ].

(** A page that opens a modal and shows no success text. *)
Definition modal_page : Page :=
  bare_page [ (".goods-title", 1%nat); (".popup", 3%nat) ].

(** A page that shows neither. *)
Definition silent_page : Page := bare_page [ (".goods-title", 1%nat) ].

(** A product page offering size M, with a working add-to-cart button that
    renders a success message; no colour swatch, no quantity control. *)
Definition shop_page : Page :=
  bare_page [ (".goods-title", 1%nat);
              ("[data-testid=" ++ dq ++ "size-M" ++ dq ++ "]", 10%nat);
              (".add-to-cart-btn", 20%nat);
              (".success-message", 2%nat) ].

Definition shop : Env := static_env shop_page.

(** A pending order as [add_order] files it. *)
Definition pending_order (oid url : string) (size color : pyval)
    (quantity : Z) : OrderRow :=
  mk_row oid (VInt 221770000000) "Awa" url size color quantity 0
         "pending" "2024-05-01T09:00:00" VNaN VNaN.

Definition order_A1 : OrderRow :=
  pending_order "SHEIN_20240501_aaaa0001" "https://www.shein.com/fr/item1"
                "M" "Rouge" 1.
Definition order_A2 : OrderRow :=
  pending_order "SHEIN_20240501_aaaa0002" "https://www.shein.com/fr/item2"
                "XXL" VNaN 1.
Definition order_A3 : OrderRow :=
  pending_order "SHEIN_20240501_aaaa0003" "https://www.shein.com/fr/item3"
                "M" VNaN 1.

(** An order already completed by an earlier run. *)
Definition order_A0 : OrderRow :=
  mk_row "SHEIN_20240430_aaaa0000" (VInt 221770000000) "Awa"
         "https://www.shein.com/fr/item0" VNaN VNaN 1 0
         "completed" "2024-04-30T09:00:00" "2024-04-30T10:00:00"
         "Ajouté automatiquement au panier".

Definition three_pending : State :=
  mk_state [] (Some [order_A0; order_A1; order_A2; order_A3]) None true.

(** Cookies of a logged-in session. *)
Definition session_cookie : Cookie :=
  mk_cookie "sessionID" "abc123" ".shein.com" "/" (-1) true true "Lax".
Definition locale_cookie : Cookie :=
  mk_cookie "language" "fr" ".shein.com" "/" (1746093600 # 1) false false
            "None".

(** A browser whose context holds the two cookies. *)
Definition logged_in : Env :=
  mk_env (fun _ _ => Ret tt) (fun _ _ _ => Raise timeout_error)
         (fun _ _ => Ret []) (fun _ _ => Ret tt) (fun _ _ _ => Ret tt)
         (fun _ _ _ => Ret tt) (fun _ _ _ => Ret None) (fun _ _ => Ret None)
         (fun _ => Ret "https://www.shein.com/fr/")
         (fun _ => Ret [session_cookie; locale_cookie])
         (fun _ _ => Ret tt)
         (fun _ => "2024-05-01T10:00:00")
         (fun _ => false) ascii_lower ascii_upper (fun col => col).

Definition first_run : State := mk_state [] None None true.




(** A browser whose process has died: every call raises Playwright's
    [Error], which derives from [Exception]. *)
Definition target_closed : exn :=
  mk_exn true "Target page, context or browser has been closed".

Definition crashed : Env :=
  mk_env (fun _ _ => Raise target_closed) (fun _ _ _ => Raise target_closed)
         (fun _ _ => Raise target_closed) (fun _ _ => Raise target_closed)
         (fun _ _ _ => Raise target_closed) (fun _ _ _ => Raise target_closed)
         (fun _ _ _ => Raise target_closed) (fun _ _ => Raise target_closed)
         (fun _ => Raise target_closed) (fun _ => Raise target_closed)
         (fun _ _ => Raise target_closed)
         (fun _ => "2024-05-01T10:00:00")
         (fun _ => false) ascii_lower ascii_upper (fun col => col).

(** A browser that shows the page [pg] until [n] calls have been made (the
    sleeps of the task count as calls) and whose process is dead from then
    on. *)
Definition dies_after (n : nat) (pg : Page) : Env :=
  let dead (tr : trace_t) := (n <=? length tr)%nat in
  mk_env
    (fun tr _ => if dead tr then Raise target_closed else Ret tt)
    (fun tr s _ =>
       if dead tr then Raise target_closed
       else match pg_wait pg s with
            | Some h => Ret (Some h)
            | None => Raise timeout_error
            end)
    (fun tr s => if dead tr then Raise target_closed else Ret (pg_all pg s))
    (fun tr _ => if dead tr then Raise target_closed else Ret tt)
    (fun tr _ _ => if dead tr then Raise target_closed else Ret tt)
    (fun tr _ _ => if dead tr then Raise target_closed else Ret tt)
    (fun tr h n =>
       if dead tr then Raise target_closed else Ret (pg_attr pg h n))
    (fun tr h => if dead tr then Raise target_closed else Ret (pg_text pg h))
    (fun tr => if dead tr then Raise target_closed else Ret (pg_url pg))
    (fun tr => if dead tr then Raise target_closed else Ret [])
    (fun tr _ => if dead tr then Raise target_closed else Ret tt)
    (fun _ => "2024-05-01T10:00:00")
    (fun _ => false) ascii_lower ascii_upper (fun col => col).

(** An error page: no product indicator, and a URL that names no item. *)
Definition error_page : Page :=
  mk_page (fun _ => None) (fun _ => []) (fun _ _ => None) (fun _ => None)
          "https://www.shein.com/fr/404".

(** A page with none of the product indicators under a URL that names an
    item. *)
Definition blank_item_page : Page := bare_page [].


(** An order for three items of size M. *)
Definition bulk_order : OrderRow :=
  pending_order "SHEIN_20240501_aaaa0005" "https://www.shein.com/fr/item5"
                "M" "Rouge" 3.


(** The home page of a logged-in user, and of a visitor sent to the login
    form. *)
Definition account_page : Page :=
  mk_page (lookup [ (".user-info", 40%nat) ]) (fun _ => [])
          (fun _ _ => None) (fun _ => None) "https://www.shein.com/fr/".

Definition login_form_page : Page :=
  mk_page (fun _ => None) (fun _ => []) (fun _ _ => None) (fun _ => None)
          "https://www.shein.com/fr/user/login".

(** A browser whose context cannot list its cookies. *)
Definition no_cookie_access : Env :=
  mk_env (fun _ _ => Ret tt) (fun _ _ _ => Raise timeout_error)
         (fun _ _ => Ret []) (fun _ _ => Ret tt) (fun _ _ _ => Ret tt)
         (fun _ _ _ => Ret tt) (fun _ _ _ => Ret None) (fun _ _ => Ret None)
         (fun _ => Ret "https://www.shein.com/fr/")
         (fun _ => Raise target_closed)
         (fun _ _ => Ret tt)
         (fun _ => "2024-05-01T10:00:00")
         (fun _ => false) ascii_lower ascii_upper (fun col => col).

(** A run that starts with a saved session on disk. *)
Definition saved_session : State :=
  mk_state [] None (Some (JsonCookies [session_cookie])) true.

(** A configuration with the Twilio token missing. *)
Definition partial_keys : Config.Keys :=
  Config.mk_keys "sk-test" "AC0123" EmptyString.

(** A product page whose size controls answer to none of the size
    selectors and are only found by the scan of all buttons and spans: XS is
    sold out (style class), then come XS again, enabled, and S. *)
Definition scanned_page : Page :=
  mk_page
    (lookup [ (".goods-title", 1%nat) ])
    (fun s => if String.eqb s SheinBot.all_size_elements_selector
              then [50; 51; 52]%nat else [])
    (fun h n =>
       if Nat.eqb h 50 && String.eqb n "class" then Some "sz sz-disabled"
       else None)
    (fun h =>
       if Nat.eqb h 50 then Some "XS"
       else if Nat.eqb h 51 then Some "xs"
       else if Nat.eqb h 52 then Some "S"
       else None)
    "https://www.shein.com/fr/item12345".

(** A product page with two colour swatches, found by the last colour
    selector only. *)
Definition swatch_page : Page :=
  mk_page
    (lookup [ (".goods-title", 1%nat) ])
    (fun s => if String.eqb s (last (SheinBot.color_selectors "Rouge")
                                    EmptyString)
              then [60; 61]%nat else [])
    (fun h n =>
       if Nat.eqb h 60 && String.eqb n "title" then Some "Bleu marine"
       else if Nat.eqb h 61 && String.eqb n "title" then Some "ROUGE vif"
       else None)
    (fun _ => None)
    "https://www.shein.com/fr/item12345".

(** The users file with one registered user. *)
Definition one_user : DataManager.UsersJson :=
  DataManager.mk_users_json (Some [ ("+221770000000", Some "Awa") ]).

(** An order that is pending again, filed before an order that an earlier
    run completed. *)
Definition order_B1 : OrderRow :=
  mk_row "SHEIN_20240429_bbbb0001" (VInt 221770000000) "Awa"
         "https://www.shein.com/fr/item7" "M" VNaN 1 0
         "pending" "2024-04-29T08:00:00" VNaN VNaN.

Definition two_orders : State :=
  mk_state [] (Some [order_B1; order_A0]) None true.

(** The text of an error that carries an escape character, as the colour
    codes of a terminal do. *)
Definition escape_char : string := String (ascii_of_nat 27) EmptyString.

Definition coloured_error : string :=
  "Timeout 30000ms exceeded." ++ escape_char ++ "[2m navigating" ++ escape_char
    ++ "[22m".

(** A task that is cancelled at its first call: every call of the browser
    and every sleep raises [CancelledError], which is not an instance of
    [Exception]. *)
Definition interrupted : Env :=
  mk_env (fun _ _ => Raise cancelled_error)
         (fun _ _ _ => Raise cancelled_error)
         (fun _ _ => Raise cancelled_error)
         (fun _ _ => Raise cancelled_error)
         (fun _ _ _ => Raise cancelled_error)
         (fun _ _ _ => Raise cancelled_error)
         (fun _ _ _ => Raise cancelled_error)
         (fun _ _ => Raise cancelled_error)
         (fun _ => Raise cancelled_error) (fun _ => Raise cancelled_error)
         (fun _ _ => Raise cancelled_error)
         (fun _ => "2024-05-01T10:00:00")
         (fun _ => true) ascii_lower ascii_upper (fun col => col).




End Fixture.

(** * Properties *)

Import SheinBot.

(** ** Vocabulary of the statements *)

(** [st_app st evs]: the state [st] after the calls [evs], files untouched. *)
Definition st_app (st : State) (evs : list event) : State :=
  mk_state (trace st ++ evs)%list (orders_file st) (cookies_file st)
           (has_context st).

(** [st'] is [st] after some calls that all satisfy [P]. *)
Definition extends (P : event -> bool) (st st' : State) : Prop :=
  exists evs, forallb P evs = true /\ st' = st_app st evs.

(** A computation that only makes calls satisfying [P]. *)
Definition only_adds {A} (P : event -> bool) (m : M A) : Prop :=
  forall st, extends P st (snd (m st)).

(** A computation that raises nothing but instances of [Exception]. *)
Definition catchable {A} (o : outcome A) : Prop :=
  match o with
  | Ret _ => True
  | Raise e => exn_is_Exception e = true
  end.

Definition safe {A} (m : M A) : Prop := forall st, catchable (fst (m st)).

(** A computation that never raises. *)
Definition total {A} (m : M A) : Prop := forall st, exists a, fst (m st) = Ret a.

(** No sleep of the task is cancelled. *)
Definition uninterrupted (env : Env) : Prop :=
  forall tr, env_cancelled env tr = false.

(** A run in which nothing is raised but instances of [Exception]: the
    browser raises no other error, and no sleep is cancelled. *)
Record env_safe (env : Env) : Prop := mk_env_safe {
  safe_goto : forall tr u, catchable (env_goto env tr u);
  safe_wait : forall tr s t, catchable (env_wait_for_selector env tr s t);
  safe_query : forall tr s, catchable (env_query_selector_all env tr s);
  safe_click : forall tr h, catchable (env_click env tr h);
  safe_fill : forall tr h s, catchable (env_fill env tr h s);
  safe_type : forall tr h s, catchable (env_type env tr h s);
  safe_attr : forall tr h n, catchable (env_get_attribute env tr h n);
  safe_text : forall tr h, catchable (env_text_content env tr h);
  safe_url : forall tr, catchable (env_url env tr);
  safe_sleep : uninterrupted env
}.

(** Whether [wait_for_selector] finds an element, at a given trace. *)
Definition hit (env : Env) (tr : trace_t) (selector : string) (timeout : Z)
  : bool :=
  match env_wait_for_selector env tr selector timeout with
  | Ret (Some _) => true
  | _ => false
  end.

(** The selector never resolves on the page, whatever happened before. *)
Definition absent (env : Env) (timeout : Z) (selector : string) : Prop :=
  forall tr, hit env tr selector timeout = false.

(** The selector always resolves to some element. *)
Definition present (env : Env) (timeout : Z) (selector : string) : Prop :=
  forall tr, hit env tr selector timeout = true.

(** The selector always resolves to the element [h]. *)
Definition present_as (env : Env) (timeout : Z) (selector : string)
    (h : handle) : Prop :=
  forall tr, env_wait_for_selector env tr selector timeout = Ret (Some h).

(** The calls [wait_for_selector(s, timeout)] for the selectors [sels]. *)
Definition waits (timeout : Z) (sels : list string) : list event :=
  map (fun s => EWaitForSelector s timeout) sels.

(** The columns that [update_order_status] never writes. *)
Definition same_other_columns (r r' : OrderRow) : Prop :=
  order_id r' = order_id r /\ user_phone r' = user_phone r
  /\ user_name r' = user_name r /\ product_url r' = product_url r
  /\ size r' = size r /\ color r' = color r /\ quantity r' = quantity r
  /\ estimated_price r' = estimated_price r /\ created_at r' = created_at r.

(** How [update_order_status(oid, new_status, new_notes)] at time [now]
    relates a row before to the row after, when the write goes through and
    the texts are kept. *)
Definition row_updated (oid new_status now new_notes : string)
    (r r' : OrderRow) : Prop :=
  if String.eqb (order_id r) oid then
    same_other_columns r r'
    /\ status r' = new_status
    /\ processed_at r' = now
    /\ notes r' = (if PyStr.truthy new_notes then VStr new_notes else notes r)
  else r' = r.

(** The columns that no write of [update_order_status] reaches, whether it
    goes through or not: those that come before the status. *)
Definition same_first_columns (r r' : OrderRow) : Prop :=
  order_id r' = order_id r /\ user_phone r' = user_phone r
  /\ user_name r' = user_name r /\ product_url r' = product_url r
  /\ size r' = size r /\ color r' = color r /\ quantity r' = quantity r
  /\ estimated_price r' = estimated_price r.

(** A write whose status is a text that the sheet keeps leaves, whatever
    becomes of the notes, every row with its other columns and with the
    status of the order set. *)
Definition status_written (oid new_status : string) (r r' : OrderRow) : Prop :=
  same_other_columns r r'
  /\ status r' = (if String.eqb (order_id r) oid then VStr new_status
                  else status r).

(** *** The calls each step of an order can make *)

Definition mem (s : string) (l : list string) : bool :=
  existsb (String.eqb s) l.

Definition validity_event (ev : event) : bool :=
  match ev with
  | EWaitForSelector s t => (t =? 5000)%Z && mem s product_indicators
  | _ => false
  end.

Definition size_event (target_size : string) (ev : event) : bool :=
  match ev with
  | EWaitForSelector s t =>
      (t =? 3000)%Z && mem s (size_selectors target_size)
  | EQuerySelectorAll s => String.eqb s all_size_elements_selector
  | EClick _ | ETextContent _ => true
  | EGetAttribute _ n => mem n ["disabled"; "class"]
  | ESleep ms => (ms =? 1000)%Z
  | _ => false
  end.

Definition color_event (target_color : string) (ev : event) : bool :=
  match ev with
  | EQuerySelectorAll s => mem s (color_selectors target_color)
  | EClick _ | ETextContent _ => true
  | EGetAttribute _ n => mem n ["title"; "alt"]
  | ESleep ms => (ms =? 1000)%Z
  | _ => false
  end.



Definition add_to_cart_event (ev : event) : bool :=
  match ev with
  | EWaitForSelector s t => (t =? 5000)%Z && mem s add_to_cart_selectors
  | EGetAttribute _ n => String.eqb n "disabled"
  | EClick _ => true
  | ESleep ms => (ms =? 2000)%Z
  | _ => false
  end.

Definition confirm_event (ev : event) : bool :=
  match ev with
  | EWaitForSelector s t =>
      ((t =? 5000)%Z && mem s success_indicators)
      || ((t =? 3000)%Z && mem s modal_selectors)
  | ESleep ms => (ms =? 3000)%Z
  | _ => false
  end.

Definition set_quantity_event (ev : event) : bool :=
  match ev with
  | EWaitForSelector s t =>
      (t =? 3000)%Z && mem s (qty_selectors ++ plus_button_selectors)
  | EClick _ | EFill _ _ | EType _ _ => true
  | ESleep ms => (ms =? 1000)%Z || (ms =? 500)%Z
  | _ => false
  end.

(** A navigation or a write to the order store. *)
Definition nav_or_write (ev : event) : bool :=
  match ev with
  | EGoto _ | EUpdateStatus _ _ _ => true
  | _ => false
  end.

(** A call made on the product page once it is loaded. *)
Definition page_event (ev : event) : bool :=
  match ev with
  | EGoto _ | EUpdateStatus _ _ _ | EContextCookies | EAddCookies _ => false
  | _ => true
  end.

Definition is_click (ev : event) : bool :=
  match ev with EClick _ => true | _ => false end.

(** *** The outcome of a batch *)

(** The loop body of [process_pending_orders] for this bot. *)
Definition run_order (env : Env) : OrderRow -> Results -> M Results :=
  process_order env (DataManager.update_order_status env)
                (add_product_to_cart env).

Definition run_orders (env : Env) : list OrderRow -> Results -> M Results :=
  process_orders env (DataManager.update_order_status env)
                 (add_product_to_cart env).

(** [add_product_to_cart] for an order of the store. *)
Definition attempt (env : Env) (o : OrderRow) : M (bool * string) :=
  add_product_to_cart env (product_url o) (size o) (color o) (quantity o).

(** What [add_product_to_cart] does once the navigation has returned. *)
Definition on_page (env : Env) (size color : pyval) (quantity : Z)
  : M (bool * string) :=
  sleep env 2000 ;;;
  valid <- _is_valid_product_page env ;;
  if negb valid
  then ret (false, "Page produit invalide ou produit non trouvé")
  else
    if truth size then
      size_selected <- _select_size env size ;;
      if negb size_selected
      then ret (false, "Taille '" ++ py_str size
                         ++ "' non trouvée ou non sélectionnable")
      else configure_and_commit env color quantity
    else configure_and_commit env color quantity.

(** The four answers of [add_product_to_cart] that are not an error text. *)
Definition page_answer (size : pyval) (r : bool * string) : Prop :=
  r = (true, "Produit ajouté avec succès")
  \/ r = (false, "Page produit invalide ou produit non trouvé")
  \/ (truth size = true
      /\ r = (false, "Taille '" ++ py_str size
                       ++ "' non trouvée ou non sélectionnable"))
  \/ r = (false, "Échec ajout au panier - bouton non trouvé ou non cliquable").

(** The status and the note the loop body writes for a result
    [(success, message)] of [add_product_to_cart]. *)
Definition status_of (success : bool) : string :=
  if success then "completed" else "failed".

Definition note_of (out : bool * string) : string :=
  if fst out then "Ajouté automatiquement au panier"
  else "Erreur: " ++ snd out.

(** The counters after the results [outs], one per order. *)
Definition tally (results : Results) (outs : list (bool * string))
  : Results :=
  fold_left
    (fun r (out : bool * string) =>
       if fst out then incr_success r else incr_failed r)
    outs results.

(** The navigation and the store write made for one order. *)
Definition writes_of (p : OrderRow * (bool * string)) : list event :=
  [ EGoto (product_url (fst p));
    EUpdateStatus (order_id (fst p)) (status_of (fst (snd p)))
                  (note_of (snd p)) ].

(** The status of the rows with identifier [oid] after the runs [runs]. *)
Definition last_status (oid : string)
    (runs : list (OrderRow * (bool * string))) (initial : pyval) : pyval :=
  fold_left
    (fun acc (p : OrderRow * (bool * string)) =>
       if String.eqb (order_id (fst p)) oid
       then VStr (status_of (fst (snd p))) else acc)
    runs initial.

Definition is_pending (r : OrderRow) : bool :=
  DataManager.cell_is (status r) "pending".

(** The orders that [get_all_orders(status='pending')] returns. *)
Definition pending_of (st : State) : list OrderRow :=
  match orders_file st with
  | Some df => filter is_pending df
  | None => []
  end.

(** The state after the loop body, given what [add_product_to_cart]
    returned in state [s1]. *)
Definition after_order (env : Env) (o : OrderRow) (out : bool * string)
    (df : DataFrame) (s1 : State) : State :=
  add_event (ESleep RATE_LIMIT_DELAY)
    (add_event (EUpdateStatus (order_id o) (status_of (fst out)) (note_of out))
       (set_orders_file
          (DataManager.sheet_after env (order_id o) (status_of (fst out))
             (note_of out)
             (map (DataManager.update_row (order_id o) (status_of (fst out))
                     (env_now env (trace s1)) (note_of out)) df))
          s1)).

Definition is_goto (ev : event) : bool :=
  match ev with EGoto _ => true | _ => false end.

(** In the trace [tr], the status of order [o] is set to 'processing' before
    the first navigation to its product page. *)
Definition sets_processing_before_navigation (tr : trace_t) (o : OrderRow)
  : Prop :=
  exists before after n,
    tr = (before ++ EUpdateStatus (order_id o) "processing" n :: after)%list
    /\ ~ In (EGoto (product_url o)) before
    /\ In (EGoto (product_url o)) after.

Definition is_query (ev : event) : bool :=
  match ev with EQuerySelectorAll _ => true | _ => false end.

(** The calls [query_selector_all(s)] for the selectors [sels]. *)
Definition queries (sels : list string) : list event :=
  map EQuerySelectorAll sels.

Definition is_wait (ev : event) : bool :=
  match ev with EWaitForSelector _ _ => true | _ => false end.

(** *** What a page offers to a fallback chain *)



(** Clicking the element always succeeds. *)
Definition clickable (env : Env) (h : handle) : Prop :=
  forall tr, env_click env tr h = Ret tt.












(** *** Vocabulary of the further properties *)

(** The calls made for one order of a batch: the navigation, the calls on
    the page, the write of the status and the pause that follows it. *)
Definition order_segment (p : OrderRow * (bool * string) * list event)
  : list event :=
  let '(o, out, on_page) := p in
  (EGoto (product_url o) :: on_page
     ++ [EUpdateStatus (order_id o) (status_of (fst out)) (note_of out);
         ESleep RATE_LIMIT_DELAY])%list.

(** What the scan of [_select_size] reads of an element, at any time. *)
Definition element_shows (env : Env) (h : handle)
    (text disabled class : option string) : Prop :=
  (forall tr, env_text_content env tr h = Ret text)
  /\ (forall tr, env_get_attribute env tr h "disabled" = Ret disabled)
  /\ (forall tr, env_get_attribute env tr h "class" = Ret class).

(** The test of the scan, for a size that is a text: the text of the
    element, put in upper case, contains the size put in upper case; its
    [disabled] attribute is absent or empty; its class, put in lower case,
    does not contain "disabled".  A size that is not a text has no
    [upper()]: the test raises and the element is skipped. *)
Definition size_scan_accepts (env : Env) (target_size : pyval)
    (text disabled class : option string) : bool :=
  match target_size with
  | VStr s =>
      PyStr.truthy_opt text
      && PyStr.contains (env_upper env s) (env_upper env (PyStr.or_empty text))
      && negb (PyStr.truthy_opt disabled)
      && negb (PyStr.contains "disabled"
                 (env_lower env (PyStr.or_empty class)))
  | _ => false
  end.

Definition scan_accepts (env : Env) (target_size : pyval) (h : handle)
  : Prop :=
  exists text disabled class,
    element_shows env h text disabled class
    /\ size_scan_accepts env target_size text disabled class = true.


Definition scan_rejects (env : Env) (target_size : pyval) (h : handle)
  : Prop :=
  exists text disabled class,
    element_shows env h text disabled class
    /\ size_scan_accepts env target_size text disabled class = false.

(** What [_select_color] reads of an element, at any time. *)
Definition element_says (env : Env) (h : handle)
    (title alt text : option string) : Prop :=
  (forall tr, env_get_attribute env tr h "title" = Ret title)
  /\ (forall tr, env_get_attribute env tr h "alt" = Ret alt)
  /\ (forall tr, env_text_content env tr h = Ret text).

(** The test of [_select_color]: the title, the alt or the text of the
    element, put in lower case, contains the colour put in lower case. *)
Definition color_test (env : Env) (target_color : string)
    (title alt text : option string) : bool :=
  PyStr.contains (env_lower env target_color)
                 (env_lower env (PyStr.or_empty title))
  || PyStr.contains (env_lower env target_color)
                    (env_lower env (PyStr.or_empty alt))
  || PyStr.contains (env_lower env target_color)
                    (env_lower env (PyStr.or_empty text)).

Definition names_color (env : Env) (target_color : string) (h : handle)
  : Prop :=
  exists title alt text,
    element_says env h title alt text
    /\ color_test env target_color title alt text = true.

Definition lacks_color (env : Env) (target_color : string) (h : handle)
  : Prop :=
  exists title alt text,
    element_says env h title alt text
    /\ color_test env target_color title alt text = false.

(** The selector always matches the elements [hs], in this order. *)
Definition query_gives (env : Env) (selector : string) (hs : list handle)
  : Prop :=
  forall tr, env_query_selector_all env tr selector = Ret hs.

(** A colour selector none of whose matches names the colour. *)
Definition barren (env : Env) (target_color selector : string) : Prop :=
  exists hs, query_gives env selector hs
             /\ Forall (lacks_color env target_color) hs.

(** The call fails every time it is made. *)
Definition click_fails (env : Env) (h : handle) : Prop :=
  forall tr, exists e, env_click env tr h = Raise e.

Definition fill_fails (env : Env) (h : handle) : Prop :=
  forall tr, exists e, env_fill env tr h EmptyString = Raise e.

Definition type_fails (env : Env) (h : handle) (quantity : Z) : Prop :=
  forall tr, exists e, env_type env tr h (PyStr.str_of_Z quantity) = Raise e.

(** A quantity input that [_set_quantity] leaves for the next candidate,
    with the calls it makes on it: the selector is not found, or the element
    found raises at the click, at the [fill] or at the [type]. *)
Definition input_gives_up (env : Env) (quantity : Z) (s : string)
    (evs : list event) : Prop :=
  (absent env 3000 s /\ evs = [EWaitForSelector s 3000])
  \/ exists h,
       present_as env 3000 s h
       /\ ((click_fails env h
            /\ evs = [EWaitForSelector s 3000; EClick h])
           \/ (clickable env h /\ fill_fails env h
               /\ evs = [EWaitForSelector s 3000; EClick h;
                         EFill h EmptyString])
           \/ (clickable env h
               /\ (forall tr, env_fill env tr h EmptyString = Ret tt)
               /\ type_fails env h quantity
               /\ evs = [EWaitForSelector s 3000; EClick h;
                         EFill h EmptyString;
                         EType h (PyStr.str_of_Z quantity)])).


(** *** What a page offers to an order *)





(** * Proofs *)


(** ** How computations extend the state *)

Lemma st_app_nil st : st_app st [] = st.
Proof. destruct st; unfold st_app; simpl. now rewrite app_nil_r. Qed.

Lemma st_app_app st evs1 evs2 :
  st_app (st_app st evs1) evs2 = st_app st (evs1 ++ evs2).
Proof. unfold st_app; simpl. now rewrite app_assoc. Qed.


Lemma add_event_st_app ev st : add_event ev st = st_app st [ev].
Proof. reflexivity. Qed.

Lemma st_app_add_event ev st evs :
  st_app (add_event ev st) evs = st_app st (ev :: evs).
Proof. rewrite add_event_st_app, st_app_app. reflexivity. Qed.

Lemma extends_refl P st : extends P st st.
Proof. exists []. split; [reflexivity | now rewrite st_app_nil]. Qed.

Lemma extends_trans P st1 st2 st3 :
  extends P st1 st2 -> extends P st2 st3 -> extends P st1 st3.
Proof.
  intros (e1 & H1 & ->) (e2 & H2 & ->). exists (e1 ++ e2)%list. split.
  - rewrite forallb_app, H1, H2. reflexivity.
  - apply st_app_app.
Qed.

Lemma extends_event (P : event -> bool) ev st :
  P ev = true -> extends P st (add_event ev st).
Proof. intros H. exists [ev]. simpl. rewrite H. split; reflexivity. Qed.

Lemma extends_weaken (P Q : event -> bool) st st' :
  (forall ev, P ev = true -> Q ev = true) ->
  extends P st st' -> extends Q st st'.
Proof.
  intros HPQ (evs & H & ->). exists evs. split; [|reflexivity].
  rewrite forallb_forall in *. auto.
Qed.

Section OnlyAdds.

Variable P : event -> bool.

Lemma only_adds_ret {A} (a : A) : only_adds P (ret a).
Proof. intros st. apply extends_refl. Qed.

Lemma only_adds_raise {A} e : only_adds P (@raise A e).
Proof. intros st. apply extends_refl. Qed.

Lemma only_adds_bind {A B} (m : M A) (k : A -> M B) :
  only_adds P m -> (forall a, only_adds P (k a)) -> only_adds P (bind m k).
Proof.
  intros Hm Hk st. unfold bind. specialize (Hm st).
  destruct (m st) as [[a|e] st1]; simpl in *; [|exact Hm].
  eapply extends_trans; [exact Hm | apply Hk].
Qed.

Lemma only_adds_try_all {A} (m h : M A) :
  only_adds P m -> only_adds P h -> only_adds P (try_except_all m h).
Proof.
  intros Hm Hh st. unfold try_except_all. specialize (Hm st).
  destruct (m st) as [[a|e] st1]; simpl in *; [exact Hm|].
  eapply extends_trans; [exact Hm | apply Hh].
Qed.

Lemma only_adds_try_Exception {A} (m : M A) (h : exn -> M A) :
  only_adds P m -> (forall e, only_adds P (h e)) ->
  only_adds P (try_except_Exception m h).
Proof.
  intros Hm Hh st. unfold try_except_Exception. specialize (Hm st).
  destruct (m st) as [[a|e] st1]; simpl in *; [exact Hm|].
  destruct (exn_is_Exception e); [|exact Hm].
  eapply extends_trans; [exact Hm | apply Hh].
Qed.

Lemma only_adds_for_return_in {X R} (body : X -> M (option R)) xs :
  (forall x, In x xs -> only_adds P (body x)) ->
  only_adds P (for_return body xs).
Proof.
  induction xs as [|x xs IH]; intros H; simpl.
  - apply only_adds_ret.
  - apply only_adds_bind; [apply H; now left|].
    intros [v|]; [apply only_adds_ret|]. apply IH. intros y Hy. apply H. now right.
Qed.

Lemma only_adds_for_return {X R} (body : X -> M (option R)) xs :
  (forall x, only_adds P (body x)) -> only_adds P (for_return body xs).
Proof. intros H. apply only_adds_for_return_in. auto. Qed.

Lemma only_adds_repeat n (body : M unit) :
  only_adds P body -> only_adds P (repeat_m n body).
Proof.
  intros H. induction n; simpl; [apply only_adds_ret|].
  apply only_adds_bind; auto.
Qed.

Lemma only_adds_call {A} ev (answer : trace_t -> outcome A) :
  P ev = true -> only_adds P (call ev answer).
Proof. intros H st. unfold call; simpl. now apply extends_event. Qed.

Lemma only_adds_page_url env : only_adds P (page_url env).
Proof. intros st. apply extends_refl. Qed.

End OnlyAdds.

(** Structural decomposition of an [only_adds] goal; what is left are the
    facts [P ev = true] about the calls made. *)
Ltac only_adds_step :=
  first
    [ apply only_adds_ret
    | apply only_adds_raise
    | apply only_adds_page_url
    | apply only_adds_bind; [|intros ?]
    | apply only_adds_try_all
    | apply only_adds_try_Exception; [|intros ?]
    | apply only_adds_repeat
    | apply only_adds_call
    | match goal with
      | |- only_adds _ (match ?x with _ => _ end) => destruct x
      end ].

Section Safe.

Lemma safe_ret {A} (a : A) : safe (ret a).
Proof. intros st; exact I. Qed.

Lemma safe_bind {A B} (m : M A) (k : A -> M B) :
  safe m -> (forall a, safe (k a)) -> safe (bind m k).
Proof.
  intros Hm Hk st. unfold bind. specialize (Hm st).
  destruct (m st) as [[a|e] st1]; simpl in *; [apply Hk | exact Hm].
Qed.

Lemma total_safe {A} (m : M A) : total m -> safe m.
Proof. intros H st. destruct (H st) as [a ->]. exact I. Qed.

Lemma total_ret {A} (a : A) : total (ret a).
Proof. intros st. now exists a. Qed.

Lemma total_bind {A B} (m : M A) (k : A -> M B) :
  total m -> (forall a, total (k a)) -> total (bind m k).
Proof.
  intros Hm Hk st. unfold bind. destruct (Hm st) as [a Ha].
  destruct (m st) as [[a'|e] st1]; simpl in *; [apply Hk | discriminate].
Qed.

Lemma total_try_all {A} (m h : M A) : total h -> total (try_except_all m h).
Proof.
  intros Hh st. unfold try_except_all.
  destruct (m st) as [[a|e] st1]; simpl; [now exists a | apply Hh].
Qed.

Lemma total_try_Exception {A} (m : M A) (h : exn -> M A) :
  safe m -> (forall e, total (h e)) -> total (try_except_Exception m h).
Proof.
  intros Hm Hh st. unfold try_except_Exception. specialize (Hm st).
  destruct (m st) as [[a|e] st1]; simpl in *; [now exists a|].
  rewrite Hm. apply Hh.
Qed.

Lemma total_for_return {X R} (body : X -> M (option R)) xs :
  (forall x, total (body x)) -> total (for_return body xs).
Proof.
  intros H. induction xs as [|x xs IH]; simpl; [apply total_ret|].
  apply total_bind; [apply H|]. intros [v|]; [apply total_ret | exact IH].
Qed.

Lemma sleep_returns env ms st :
  uninterrupted env -> sleep env ms st = (Ret tt, add_event (ESleep ms) st).
Proof. intros H. unfold sleep, call. now rewrite H. Qed.

Lemma total_sleep env ms : uninterrupted env -> total (sleep env ms).
Proof. intros H st. exists tt. now rewrite sleep_returns. Qed.


Lemma safe_call {A} ev (answer : trace_t -> outcome A) :
  (forall tr, catchable (answer tr)) -> safe (call ev answer).
Proof. intros H st. apply H. Qed.

End Safe.

(** ** Chains of presence probes *)

Lemma probe_spec env t sel st :
  probe env t sel st =
  (Ret (if hit env (trace st) sel t then Some true else None),
   add_event (EWaitForSelector sel t) st).
Proof.
  unfold probe, try_except_all, bind, wait_for_selector, call, hit, ret.
  destruct (env_wait_for_selector env (trace st) sel t) as [[h|]|e];
    reflexivity.
Qed.

Lemma probe_chain_miss env t sels st :
  Forall (absent env t) sels ->
  for_return (probe env t) sels st = (Ret None, st_app st (waits t sels)).
Proof.
  intros H. revert st. induction H as [|s sels Hs _ IH]; intros st; simpl.
  - unfold ret. now rewrite st_app_nil.
  - unfold bind. rewrite probe_spec, Hs. rewrite IH.
    rewrite add_event_st_app, st_app_app. reflexivity.
Qed.

Lemma probe_chain_hit env t pre s post st :
  Forall (absent env t) pre -> present env t s ->
  for_return (probe env t) (pre ++ s :: post) st =
  (Ret (Some true), st_app st (waits t (pre ++ [s]))).
Proof.
  intros H Hs. revert st. induction H as [|x pre Hx _ IH]; intros st; simpl.
  - unfold bind. rewrite probe_spec, Hs. reflexivity.
  - unfold bind. rewrite probe_spec, Hx. rewrite IH.
    rewrite add_event_st_app, st_app_app. reflexivity.
Qed.

Lemma probe_total env t sel : total (probe env t sel).
Proof. intros st. rewrite probe_spec. eexists. reflexivity. Qed.

Lemma probe_returns_true env t sels st v :
  fst (for_return (probe env t) sels st) = Ret (Some v) -> v = true.
Proof.
  revert st. induction sels as [|s sels IH]; intros st; simpl.
  - discriminate.
  - unfold bind. rewrite probe_spec.
    destruct (hit env (trace st) s t); simpl; [congruence | apply IH].
Qed.

Lemma probe_chain_total env t sels : total (for_return (probe env t) sels).
Proof. apply total_for_return. intros x. apply probe_total. Qed.

(** ** C7: the confirmation of an add-to-cart click *)

Lemma confirm_never_false env st :
  fst (_confirm_cart_addition env st) = Ret true
  \/ fst (_confirm_cart_addition env st) = Raise cancelled_error.
Proof.
  unfold _confirm_cart_addition, try_except_Exception, bind.
  destruct (probe_chain_total env 5000 success_indicators st) as [r Hr].
  pose proof (probe_returns_true env 5000 success_indicators st) as Ht.
  destruct (for_return (probe env 5000) success_indicators st) as [o st1].
  simpl in Hr. subst o. destruct r as [v|].
  - simpl. rewrite (Ht v eq_refl). now left.
  - destruct (probe_chain_total env 3000 modal_selectors st1) as [r2 Hr2].
    pose proof (probe_returns_true env 3000 modal_selectors st1) as Ht2.
    destruct (for_return (probe env 3000) modal_selectors st1) as [o2 st2].
    simpl in Hr2. subst o2. destruct r2 as [v|].
    + simpl. rewrite (Ht2 v eq_refl). now left.
    + unfold sleep, call. destruct (env_cancelled env (trace st2)); simpl.
      * now right.
      * now left.
Qed.

Lemma confirm_always_true env st :
  uninterrupted env -> fst (_confirm_cart_addition env st) = Ret true.
Proof.
  intros Hu.
  unfold _confirm_cart_addition, try_except_Exception, bind.
  destruct (probe_chain_total env 5000 success_indicators st) as [r Hr].
  pose proof (probe_returns_true env 5000 success_indicators st) as Ht.
  destruct (for_return (probe env 5000) success_indicators st) as [o st1].
  simpl in Hr. subst o. destruct r as [v|].
  - simpl. rewrite (Ht v eq_refl). reflexivity.
  - destruct (probe_chain_total env 3000 modal_selectors st1) as [r2 Hr2].
    pose proof (probe_returns_true env 3000 modal_selectors st1) as Ht2.
    destruct (for_return (probe env 3000) modal_selectors st1) as [o2 st2].
    simpl in Hr2. subst o2. destruct r2 as [v|].
    + simpl. rewrite (Ht2 v eq_refl). reflexivity.
    + rewrite sleep_returns by exact Hu. reflexivity.
Qed.

(** C7. [_confirm_cart_addition] classifies the click by three ordered tiers
    and every tier answers [True]: the success indicators are probed first,
    in order, and the first one present ends the check; the modal selectors
    are probed only when no success indicator is present, and the first one
    present ends the check; when neither is present the check sleeps three
    seconds and still answers [True].  No page makes it answer [False]: it
    answers [True] unless the task is cancelled during that sleep, an error
    that the check lets through. *)
Theorem confirm_cart_addition_three_tiers env st :
  (fst (_confirm_cart_addition env st) = Ret true
   \/ fst (_confirm_cart_addition env st) = Raise cancelled_error)
  /\ (uninterrupted env -> fst (_confirm_cart_addition env st) = Ret true)
  /\ (forall pre s post,
        success_indicators = (pre ++ s :: post)%list ->
        Forall (absent env 5000) pre -> present env 5000 s ->
        _confirm_cart_addition env st
        = (Ret true, st_app st (waits 5000 (pre ++ [s]))))
  /\ (forall pre s post,
        Forall (absent env 5000) success_indicators ->
        modal_selectors = (pre ++ s :: post)%list ->
        Forall (absent env 3000) pre -> present env 3000 s ->
        _confirm_cart_addition env st
        = (Ret true,
           st_app st (waits 5000 success_indicators
                        ++ waits 3000 (pre ++ [s]))))
  /\ (Forall (absent env 5000) success_indicators ->
      Forall (absent env 3000) modal_selectors ->
      let probes :=
        (waits 5000 success_indicators ++ waits 3000 modal_selectors)%list in
      snd (_confirm_cart_addition env st)
      = st_app st (probes ++ [ESleep 3000])
      /\ fst (_confirm_cart_addition env st)
         = if env_cancelled env (trace st ++ probes)%list
           then Raise cancelled_error else Ret true).
Proof.
  split; [apply confirm_never_false|].
  split; [apply confirm_always_true|]. repeat split.
  - intros pre s post E Hpre Hs.
    unfold _confirm_cart_addition, try_except_Exception, bind.
    rewrite E, (probe_chain_hit env 5000 pre s post st Hpre Hs). reflexivity.
  - intros pre s post Hno E Hpre Hs.
    unfold _confirm_cart_addition, try_except_Exception, bind.
    rewrite (probe_chain_miss env 5000 _ st Hno).
    rewrite E, (probe_chain_hit env 3000 pre s post _ Hpre Hs).
    simpl. now rewrite st_app_app.
  - unfold _confirm_cart_addition, try_except_Exception, bind.
    rewrite (probe_chain_miss env 5000 _ st H).
    rewrite (probe_chain_miss env 3000 _ _ H0).
    unfold sleep, call. rewrite !st_app_app. cbn [st_app trace].
    destruct (env_cancelled env _); simpl;
      rewrite add_event_st_app, !st_app_app; reflexivity.
  - unfold _confirm_cart_addition, try_except_Exception, bind.
    rewrite (probe_chain_miss env 5000 _ st H).
    rewrite (probe_chain_miss env 3000 _ _ H0).
    unfold sleep, call. rewrite !st_app_app. cbn [st_app trace].
    destruct (env_cancelled env _); reflexivity.
Qed.

Lemma confirm_cart_addition_three_tiers_witness :
  let st := Fixture.empty_state in
  _confirm_cart_addition (Fixture.static_env Fixture.toast_page) st
  = (Ret true, st_app st (waits 5000 (firstn 5 success_indicators)))
  /\ _confirm_cart_addition (Fixture.static_env Fixture.modal_page) st
     = (Ret true,
        st_app st (waits 5000 success_indicators
                     ++ waits 3000 (firstn 3 modal_selectors)))
  /\ _confirm_cart_addition (Fixture.static_env Fixture.silent_page) st
     = (Ret true,
        st_app st (waits 5000 success_indicators
                     ++ waits 3000 modal_selectors ++ [ESleep 3000])).
Proof.
  intros st. split; [|split].
  - destruct (confirm_cart_addition_three_tiers
                (Fixture.static_env Fixture.toast_page) st)
      as (_ & _ & H & _).
    rewrite (H (firstn 4 success_indicators) ".success-message"
               (skipn 5 success_indicators)).
    + reflexivity.
    + reflexivity.
    + repeat constructor.
    + intros tr. reflexivity.
  - destruct (confirm_cart_addition_three_tiers
                (Fixture.static_env Fixture.modal_page) st)
      as (_ & _ & _ & H & _).
    rewrite (H (firstn 2 modal_selectors) ".popup" (skipn 3 modal_selectors)).
    + reflexivity.
    + repeat constructor.
    + reflexivity.
    + repeat constructor.
    + intros tr. reflexivity.
  - destruct (confirm_cart_addition_three_tiers
                (Fixture.static_env Fixture.silent_page) st)
      as (_ & Ht & _ & _ & H).
    destruct H as [Hs _]; [repeat constructor | repeat constructor |].
    rewrite (surjective_pairing (_confirm_cart_addition _ st)).
    rewrite Hs, Ht by (intros tr; reflexivity).
    rewrite <- app_assoc. reflexivity.
Defined.

(** ** The sheet after a write *)

Lemma Forall2_map_r {A B} (R : A -> B -> Prop) (f : A -> B) l :
  (forall x, R x (f x)) -> Forall2 R l (map f l).
Proof. intros H. induction l; simpl; constructor; auto. Qed.

Lemma Forall2_refl_on {A} (R : A -> A -> Prop) l :
  (forall x, R x x) -> Forall2 R l l.
Proof. intros H. induction l; constructor; auto. Qed.

Lemma put_column_preserves {A} (R : A -> OrderRow -> Prop) set :
  (forall a x c, R a x -> R a (set c x)) ->
  forall l df col,
    Forall2 R l df -> Forall2 R l (DataManager.put_column set col df).
Proof.
  intros Hset l df col H. revert col.
  induction H as [|a x l df Hax _ IH]; intros col; simpl; constructor; auto.
Qed.

Lemma put_column_status_same df :
  DataManager.put_column DataManager.set_status (map status df) df = df.
Proof.
  induction df as [|r df IH]; simpl; [reflexivity|].
  rewrite IH. destruct r; reflexivity.
Qed.

Lemma put_column_notes_same df :
  DataManager.put_column DataManager.set_notes (map notes df) df = df.
Proof.
  induction df as [|r df IH]; simpl; [reflexivity|].
  rewrite IH. destruct r; reflexivity.
Qed.

Lemma excel_text_truthy s :
  PyStr.truthy (DataManager.excel_text s) = PyStr.truthy s.
Proof.
  destruct s as [|c s]; [reflexivity|].
  unfold DataManager.excel_text. cbn [DataManager.take_chars].
  destruct (DataManager.is_continuation c); reflexivity.
Qed.

(** What [update_order_status] does on a readable workbook: it returns
    whether the write went through, and the sheet is rewritten in both
    cases. *)
Lemma update_order_status_spec env oid new_status new_notes st df :
  orders_file st = Some df ->
  DataManager.update_order_status env oid new_status new_notes st =
  if existsb (fun r => String.eqb (order_id r) oid) df then
    (Ret (negb (DataManager.write_fails new_status new_notes)),
     add_event (EUpdateStatus oid new_status new_notes)
       (set_orders_file
          (DataManager.sheet_after env oid new_status new_notes
             (map (DataManager.update_row oid new_status
                     (env_now env (trace st)) new_notes) df)) st))
  else (Ret false, st).
Proof.
  intros H.
  unfold DataManager.update_order_status, try_except_Exception, bind,
    DataManager.read_excel, DataManager.to_excel.
  rewrite H.
  destruct (existsb (fun r => String.eqb (order_id r) oid) df);
    [|reflexivity].
  destruct (DataManager.write_fails new_status new_notes); reflexivity.
Qed.

Lemma update_order_status_unreadable env oid new_status new_notes st :
  orders_file st = None ->
  DataManager.update_order_status env oid new_status new_notes st
  = (Ret false, st).
Proof.
  intros E.
  unfold DataManager.update_order_status, try_except_Exception, bind,
    DataManager.read_excel.
  rewrite E. reflexivity.
Qed.

Lemma status_written_set_notes oid s r x c :
  status_written oid s r x -> status_written oid s r (DataManager.set_notes c x).
Proof.
  unfold status_written, same_other_columns. simpl. tauto.
Qed.

Lemma cut_update_row oid s now n r :
  DataManager.excel_text s = s ->
  status_written oid s r
    (DataManager.cut_row oid s n (DataManager.update_row oid s now n r)).
Proof.
  intros Hs. unfold status_written, DataManager.cut_row, DataManager.update_row.
  destruct (String.eqb (order_id r) oid) eqn:E.
  - cbn [order_id]. rewrite E. unfold same_other_columns. simpl.
    rewrite Hs. repeat split; reflexivity.
  - rewrite E. unfold same_other_columns. repeat split; reflexivity.
Qed.

Lemma sheet_after_status env oid s now n df :
  DataManager.refused s = false ->
  DataManager.excel_text s = s ->
  DataManager.plain s = true ->
  Forall2 (status_written oid s) df
    (DataManager.sheet_after env oid s n
       (map (DataManager.update_row oid s now n) df)).
Proof.
  intros Hr Hs Hp. unfold DataManager.sheet_after.
  rewrite Hr, Hs, Hp.
  cbv beta iota zeta delta [DataManager.reread].
  rewrite put_column_status_same.
  assert (H0 : Forall2 (status_written oid s) df
                 (map (DataManager.cut_row oid s n)
                    (map (DataManager.update_row oid s now n) df))).
  { rewrite map_map. apply Forall2_map_r. intros r.
    now apply cut_update_row. }
  destruct (PyStr.truthy n); [|exact H0].
  destruct (DataManager.refused n);
    (apply put_column_preserves;
     [intros a x c; apply status_written_set_notes | exact H0]).
Qed.

Lemma keeps_spec s :
  DataManager.keeps s = true ->
  DataManager.refused s = false /\ DataManager.excel_text s = s
  /\ DataManager.plain s = true.
Proof.
  unfold DataManager.keeps. intros H.
  apply andb_prop in H. destruct H as [H Hp].
  apply andb_prop in H. destruct H as [Hr He].
  apply negb_true_iff in Hr. apply String.eqb_eq in He. auto.
Qed.

Lemma cut_update_row_kept oid s now n r :
  DataManager.excel_text s = s ->
  (PyStr.truthy n = true -> DataManager.excel_text n = n) ->
  DataManager.cut_row oid s n (DataManager.update_row oid s now n r)
  = DataManager.update_row oid s now n r.
Proof.
  intros Hs Hn. unfold DataManager.cut_row, DataManager.update_row.
  destruct (String.eqb (order_id r) oid) eqn:E.
  - cbn [order_id]. rewrite E.
    unfold DataManager.set_notes, DataManager.set_status. simpl.
    rewrite Hs. destruct (PyStr.truthy n).
    + now rewrite Hn.
    + reflexivity.
  - now rewrite E.
Qed.

(** A write of texts that the sheet keeps leaves exactly the frame that was
    assigned. *)
Lemma sheet_after_kept env oid s now n df :
  DataManager.keeps s = true ->
  (n = EmptyString \/ DataManager.keeps n = true) ->
  DataManager.sheet_after env oid s n
    (map (DataManager.update_row oid s now n) df)
  = map (DataManager.update_row oid s now n) df.
Proof.
  intros Hs Hn. apply keeps_spec in Hs. destruct Hs as (Hr & He & Hp).
  unfold DataManager.sheet_after. rewrite Hr, He, Hp.
  cbv beta iota zeta delta [DataManager.reread].
  rewrite put_column_status_same.
  assert (Hcut : map (DataManager.cut_row oid s n)
                   (map (DataManager.update_row oid s now n) df)
                 = map (DataManager.update_row oid s now n) df).
  { rewrite map_map. apply map_ext. intros r. apply cut_update_row_kept.
    - exact He.
    - intros Ht. destruct Hn as [-> | Hk]; [discriminate|].
      now apply keeps_spec in Hk. }
  rewrite Hcut. destruct Hn as [-> | Hk]; [reflexivity|].
  apply keeps_spec in Hk. destruct Hk as (Hrn & Hen & Hpn).
  rewrite Hrn, Hen, Hpn. rewrite put_column_notes_same.
  destruct (PyStr.truthy n); reflexivity.
Qed.

Lemma write_fails_kept s n :
  DataManager.keeps s = true ->
  (n = EmptyString \/ DataManager.keeps n = true) ->
  DataManager.write_fails s n = false.
Proof.
  intros Hs Hn. apply keeps_spec in Hs. destruct Hs as (Hr & _ & _).
  unfold DataManager.write_fails. rewrite Hr.
  destruct Hn as [-> | Hk]; [reflexivity|].
  apply keeps_spec in Hk. destruct Hk as (Hrn & _ & _). rewrite Hrn.
  now rewrite andb_false_r.
Qed.

Lemma update_row_updated oid new_status now new_notes r :
  row_updated oid new_status now new_notes r
    (DataManager.update_row oid new_status now new_notes r).
Proof.
  unfold row_updated, DataManager.update_row.
  destruct (String.eqb (order_id r) oid); [|reflexivity].
  unfold same_other_columns; simpl. repeat split; reflexivity.
Qed.

(** ** C10: the frame of update_order_status *)

(** C10 on the code.  The note that the batch writes for an order whose
    navigation timed out quotes the error of the browser, which carries the
    escape character of a terminal colour code.  The cell refuses the note:
    [update_order_status] answers [False] although the order is in the
    store, after the sheet has been saved as far as it was written: the row
    of the order has its new status and its new [processed_at] and no note,
    and the note of the other order, which an earlier run had completed, is
    gone. *)
Theorem refused_note_spoils_other_rows :
  let note := "Erreur: Erreur ajout produit: " ++ Fixture.coloured_error in
  let out :=
    DataManager.update_order_status Fixture.shop (order_id Fixture.order_B1)
      "failed" note Fixture.two_orders in
  orders_file Fixture.two_orders = Some [Fixture.order_B1; Fixture.order_A0]
  /\ DataManager.refused note = true
  /\ fst out = Ret false
  /\ orders_file (snd out)
     = Some [ DataManager.set_processed_at "2024-05-01T10:00:00"
                (DataManager.set_status "failed" Fixture.order_B1);
              DataManager.set_notes VNaN Fixture.order_A0 ]
  /\ notes Fixture.order_A0 = "Ajouté automatiquement au panier"
  /\ order_id Fixture.order_A0 <> order_id Fixture.order_B1.
Proof.
  intros note out.
  split; [reflexivity|]. split; [vm_compute; reflexivity|].
  split; [vm_compute; reflexivity|]. split; [vm_compute; reflexivity|].
  split; [reflexivity|]. discriminate.
Qed.

(** ** C9: the counters of a batch *)

Section BatchCounts.

Variable env : Env.
Variable get_all_orders : option string -> M DataFrame.
Variable update_order_status : string -> string -> string -> M bool.
Variable add_to_cart : string -> pyval -> pyval -> Z -> M (bool * string).

Lemma process_order_increments order results st results' st' :
  process_order env update_order_status add_to_cart order results st
  = (Ret results', st') ->
  results' = incr_success results \/ results' = incr_failed results.
Proof.
  unfold process_order, try_except_Exception, bind, sleep, call, ret.
  destruct (add_to_cart _ _ _ _ st) as [[[b msg]|e] s1].
  - destruct b;
      destruct (update_order_status _ _ _ s1) as [[u|e] s2]; simpl;
      try destruct (exn_is_Exception e);
      try destruct (env_cancelled env (trace s2));
      intros H; inversion H; auto.
  - destruct (exn_is_Exception e); intros H; inversion H; auto.
Qed.

Lemma process_orders_counts orders : forall results st results' st',
  process_orders env update_order_status add_to_cart orders results st
  = (Ret results', st') ->
  (r_success results' + r_failed results'
   = r_success results + r_failed results + Z.of_nat (length orders))%Z
  /\ (r_success results <= r_success results')%Z
  /\ (r_failed results <= r_failed results')%Z
  /\ r_total results' = r_total results.
Proof.
  induction orders as [|o orders IH]; intros results st results' st'.
  - simpl. unfold ret. intros H. inversion H. subst. lia.
  - cbn [process_orders]. unfold bind.
    destruct (process_order env update_order_status add_to_cart o results st)
      as [[r1|e] s1] eqn:E; [|discriminate].
    intros H. apply IH in H. apply process_order_increments in E.
    cbn [length]. rewrite Nat2Z.inj_succ.
    destruct E as [-> | ->]; simpl in H; lia.
Qed.

(** The loop body catches every instance of [Exception]: what the loop lets
    through is not one. *)
Lemma process_order_raises order results st e st' :
  process_order env update_order_status add_to_cart order results st
  = (Raise e, st') ->
  exn_is_Exception e = false.
Proof.
  unfold process_order, try_except_Exception, bind, sleep, call, ret.
  destruct (add_to_cart _ _ _ _ st) as [[[b msg]|e1] s1].
  - destruct b;
      destruct (update_order_status _ _ _ s1) as [[u|e2] s2]; simpl;
      try (destruct (env_cancelled env (trace s2)); simpl;
           try discriminate; intros H; inversion H; reflexivity);
      destruct (exn_is_Exception e2) eqn:E2; try discriminate;
      intros H; inversion H; subst; exact E2.
  - destruct (exn_is_Exception e1) eqn:E1; [discriminate|].
    intros H; inversion H; subst; exact E1.
Qed.

Lemma process_orders_raises orders : forall results st e st',
  process_orders env update_order_status add_to_cart orders results st
  = (Raise e, st') ->
  exn_is_Exception e = false.
Proof.
  induction orders as [|o orders IH]; intros results st e st'.
  - discriminate.
  - cbn [process_orders]. unfold bind.
    destruct (process_order env update_order_status add_to_cart o results st)
      as [[r1|e1] s1] eqn:E.
    + apply IH.
    + intros H. inversion H. subst. eapply process_order_raises. exact E.
Qed.

End BatchCounts.

(** C9. Whatever the order store holds and however each call made inside the
    loop body ends (a success, a failure, or an exception raised by
    [add_product_to_cart] or by [update_order_status]), the dictionary that
    [process_pending_orders] returns, when it returns, satisfies
    success + failed = total with total the number of pending orders
    fetched: each of them adds one to exactly one of the two counters.  An empty backlog and an error at the
    top level both give three zeros. *)
Theorem batch_counts_add_up
    (get_all_orders : option string -> M DataFrame)
    (update_order_status : string -> string -> string -> M bool)
    (add_to_cart : string -> pyval -> pyval -> Z -> M (bool * string))
    env st results st' :
  process_pending_orders_with env get_all_orders update_order_status
    add_to_cart st
  = (Ret results, st') ->
  (r_success results + r_failed results = r_total results)%Z
  /\ (0 <= r_success results)%Z /\ (0 <= r_failed results)%Z
  /\ match fst (get_all_orders (Some "pending") st) with
     | Ret [] => results = no_results
     | Ret pending_orders =>
         r_total results = Z.of_nat (length pending_orders)
     | Raise _ => results = no_results
     end.
Proof.
  unfold process_pending_orders_with, try_except_Exception, bind.
  destruct (get_all_orders (Some "pending") st) as [[pending|e] s1];
    cbn [fst].
  - destruct pending as [|o os].
    + unfold ret. intros H. inversion H. subst. cbn. repeat split; lia.
    + destruct (process_orders env update_order_status add_to_cart (o :: os)
                  (mk_results 0 0 (Z.of_nat (length (o :: os)))) s1)
        as [[r|e] s2] eqn:E.
      * intros H. inversion H. subst.
        apply process_orders_counts in E.
        destruct E as (E1 & E2 & E3 & E4).
        cbn [r_success r_failed r_total] in *.
        repeat split; lia.
      * apply process_orders_raises in E. rewrite E. discriminate.
  - destruct (exn_is_Exception e); [|discriminate].
    unfold ret. intros H. inversion H. subst. cbn. repeat split; lia.
Qed.

Lemma batch_counts_add_up_witness :
  fst (process_pending_orders Fixture.shop Fixture.three_pending)
  = Ret (mk_results 2 1 3)
  /\ (2 + 1 = 3)%Z.
Proof.
  split; [vm_compute; reflexivity|].
  apply (batch_counts_add_up
           DataManager.get_all_orders
           (DataManager.update_order_status Fixture.shop)
           (add_product_to_cart Fixture.shop)
           Fixture.shop Fixture.three_pending (mk_results 2 1 3)
           (snd (process_pending_orders Fixture.shop Fixture.three_pending))).
  vm_compute. reflexivity.
Defined.

(** ** C8: the session cookies across two runs *)

(** C8. Saving the cookies of the browsing context and loading them in a
    later run hands to the new context exactly the list that was saved, entry
    by entry (so with the same name, value and domain), whether or not a
    cookie file existed before the save.  Loading when no cookie file exists
    adds no cookie and raises nothing. *)
Theorem session_round_trip env st cookies :
  has_context st = true ->
  env_context_cookies env (trace st) = Ret cookies ->
  let saved := snd (_save_cookies env st) in
  fst (_save_cookies env st) = Ret tt
  /\ cookies_file saved = Some (JsonCookies cookies)
  /\ (forall later,
        cookies_file later = cookies_file saved ->
        has_context later = true ->
        snd (_load_cookies env later) = add_event (EAddCookies cookies) later
        /\ (catchable (env_add_cookies env (trace later) cookies) ->
            fst (_load_cookies env later) = Ret tt))
  /\ (forall fresh,
        cookies_file fresh = None ->
        _load_cookies env fresh = (Ret tt, fresh)).
Proof.
  intros Hctx Hcookies saved.
  assert (Hsave : _save_cookies env st
                  = (Ret tt, set_cookies_file (JsonCookies cookies)
                               (add_event EContextCookies st))).
  { unfold _save_cookies, try_except_Exception, bind, context_cookies, call,
      json_dump_cookies.
    rewrite Hctx, Hcookies. reflexivity. }
  subst saved. rewrite Hsave. cbn [fst snd].
  split; [reflexivity|]. split; [reflexivity|]. split.
  - intros later Hfile Hlater. cbn in Hfile.
    unfold _load_cookies, try_except_Exception, bind, json_load_cookies,
      context_add_cookies, call, ret.
    rewrite Hfile, Hlater. cbn.
    destruct (env_add_cookies env (trace later) cookies) as [[]|e]; cbn.
    + split; reflexivity.
    + destruct (exn_is_Exception e) eqn:E; cbn.
      * split; reflexivity.
      * split; [reflexivity|]. intros H. discriminate.
  - intros fresh Hnone.
    unfold _load_cookies, try_except_Exception. rewrite Hnone. reflexivity.
Qed.

Lemma session_round_trip_witness :
  let saved := snd (_save_cookies Fixture.logged_in Fixture.first_run) in
  let later := mk_state [] None (cookies_file saved) true in
  cookies_file saved
  = Some (JsonCookies [Fixture.session_cookie; Fixture.locale_cookie])
  /\ _load_cookies Fixture.logged_in later
     = (Ret tt,
        add_event
          (EAddCookies [Fixture.session_cookie; Fixture.locale_cookie]) later)
  /\ _load_cookies Fixture.logged_in Fixture.first_run
     = (Ret tt, Fixture.first_run).
Proof.
  intros saved later.
  destruct (session_round_trip Fixture.logged_in Fixture.first_run
              [Fixture.session_cookie; Fixture.locale_cookie]
              eq_refl eq_refl)
    as (_ & Hfile & Hload & Hnone).
  split; [exact Hfile|]. split.
  - destruct (Hload later eq_refl eq_refl) as [Hs Hf].
    rewrite (surjective_pairing (_load_cookies Fixture.logged_in later)).
    rewrite Hs, (Hf I). reflexivity.
  - apply Hnone. reflexivity.
Defined.

(** ** The calls made by each step *)

Lemma mem_in s l : In s l -> mem s l = true.
Proof.
  intros H. unfold mem. apply existsb_exists. exists s. split; [exact H|].
  apply String.eqb_refl.
Qed.

Ltac only_adds_leaf :=
  cbv beta iota delta
    [validity_event size_event color_event set_quantity_event
     add_to_cart_event confirm_event];
  try match goal with
      | H : In _ _ |- _ =>
          first
            [ rewrite (mem_in _ _ H)
            | rewrite (mem_in _ _ (in_or_app _ _ _ (or_introl H)))
            | rewrite (mem_in _ _ (in_or_app _ _ _ (or_intror H))) ]
      end;
  reflexivity.

Ltac only_adds_tac :=
  repeat first
    [ match goal with
      | |- only_adds _ (for_return _ _) =>
          apply only_adds_for_return_in; intros ? ?
      end
    | only_adds_step ];
  try only_adds_leaf.

Section Frames.

Variable env : Env.

Lemma valid_page_events :
  only_adds validity_event (_is_valid_product_page env).
Proof. unfold _is_valid_product_page, probe. only_adds_tac. Qed.

Lemma select_size_events target_size :
  only_adds (size_event (py_str target_size)) (_select_size env target_size).
Proof.
  unfold _select_size, try_size_selector, try_size_element, str_upper.
  only_adds_tac.
Qed.

Lemma select_color_events target_color :
  only_adds (color_event (py_str target_color))
            (_select_color env target_color).
Proof.
  unfold _select_color, try_color_selector, try_color_element, str_lower.
  only_adds_tac.
Qed.

Lemma set_quantity_events quantity :
  only_adds set_quantity_event (_set_quantity env quantity).
Proof.
  unfold _set_quantity, try_qty_selector, try_plus_selector. only_adds_tac.
Qed.

Lemma click_add_to_cart_events :
  only_adds add_to_cart_event (_click_add_to_cart env).
Proof. unfold _click_add_to_cart, try_add_selector. only_adds_tac. Qed.

Lemma confirm_events : only_adds confirm_event (_confirm_cart_addition env).
Proof. unfold _confirm_cart_addition, probe. only_adds_tac. Qed.

End Frames.

(** ** Which steps can raise *)

Ltac total_tac :=
  cbv zeta;
  repeat first
    [ match goal with
      | |- total (for_return _ _) => apply total_for_return; intros ?
      end
    | apply total_ret
    | apply total_try_all
    | apply total_bind; [|intros ?]
    | match goal with
      | |- total (match ?x with _ => _ end) => destruct x
      end ].

Section Totality.

Variable env : Env.

Lemma select_color_total target_color : total (_select_color env target_color).
Proof.
  unfold _select_color. apply total_try_Exception.
  - apply safe_bind.
    + unfold str_lower. destruct target_color; intros st;
        first [exact I | reflexivity].
    + intros l. apply total_safe. unfold try_color_selector. total_tac.
  - intros e. apply total_ret.
Qed.

Lemma set_quantity_total quantity : total (_set_quantity env quantity).
Proof.
  unfold _set_quantity. apply total_try_Exception.
  - apply total_safe. unfold try_qty_selector, try_plus_selector. total_tac.
  - intros e. apply total_ret.
Qed.

Lemma click_add_to_cart_total : total (_click_add_to_cart env).
Proof.
  unfold _click_add_to_cart. apply total_try_Exception.
  - apply total_safe. unfold try_add_selector. total_tac.
  - intros e. apply total_ret.
Qed.

Hypothesis Henv : env_safe env.

Lemma confirm_total : total (_confirm_cart_addition env).
Proof.
  intros st. exists true. apply confirm_always_true, (safe_sleep env Henv).
Qed.

Lemma safe_page_url : safe (page_url env).
Proof. intros st. apply (safe_url env Henv). Qed.

Lemma valid_page_total : total (_is_valid_product_page env).
Proof.
  unfold _is_valid_product_page. apply total_try_Exception.
  - apply safe_bind; [apply total_safe, probe_chain_total|].
    intros [b|]; [apply safe_ret|].
    apply safe_bind; [apply safe_page_url|].
    intros u. destruct (_ || _); apply safe_ret.
  - intros e. apply total_ret.
Qed.

Lemma select_size_total target_size : total (_select_size env target_size).
Proof.
  unfold _select_size. apply total_try_Exception.
  - apply safe_bind.
    { apply total_safe. unfold try_size_selector. total_tac. }
    intros [b|]; [apply safe_ret|].
    apply safe_bind.
    { apply safe_call. intros tr. apply (safe_query env Henv). }
    intros l. apply total_safe. unfold try_size_element. total_tac.
  - intros e. apply total_ret.
Qed.

Lemma configure_and_commit_total color quantity :
  total (configure_and_commit env color quantity).
Proof.
  unfold configure_and_commit.
  apply total_bind.
  { destruct (truth color); [|apply total_ret].
    apply total_bind; [apply select_color_total | intros; apply total_ret]. }
  intros _. apply total_bind.
  { destruct (quantity >? 1)%Z; [|apply total_ret].
    apply total_bind; [apply set_quantity_total | intros; apply total_ret]. }
  intros _. apply total_bind; [apply click_add_to_cart_total|].
  intros b. destruct (negb b); [apply total_ret|].
  apply total_bind; [apply confirm_total|].
  intros c. destruct c; apply total_ret.
Qed.

Lemma add_product_to_cart_total url size color quantity :
  total (add_product_to_cart env url size color quantity).
Proof.
  unfold add_product_to_cart. apply total_try_Exception.
  - apply safe_bind.
    { apply safe_call. intros tr. apply (safe_goto env Henv). }
    intros _. apply total_safe.
    apply total_bind; [apply total_sleep, (safe_sleep env Henv)|]. intros _.
    apply total_bind; [apply valid_page_total|]. intros v.
    destruct (negb v); [apply total_ret|].
    destruct (truth size); [|apply configure_and_commit_total].
    apply total_bind; [apply select_size_total|]. intros b.
    destruct (negb b); [apply total_ret | apply configure_and_commit_total].
  - intros e. apply total_ret.
Qed.

End Totality.

(** ** The calls made for one order *)

Lemma only_adds_weaken {A} (P Q : event -> bool) (m : M A) :
  (forall ev, P ev = true -> Q ev = true) -> only_adds P m -> only_adds Q m.
Proof. intros H Hm st. eapply extends_weaken; [exact H | apply Hm]. Qed.

Section OrderFrames.

Variable env : Env.
Variable Q : event -> bool.

Lemma configure_and_commit_events color quantity :
  (truth color = true ->
   forall ev, color_event (py_str color) ev = true -> Q ev = true) ->
  ((quantity >? 1)%Z = true ->
   forall ev, set_quantity_event ev = true -> Q ev = true) ->
  (forall ev, add_to_cart_event ev = true -> Q ev = true) ->
  (forall ev, confirm_event ev = true -> Q ev = true) ->
  only_adds Q (configure_and_commit env color quantity).
Proof.
  intros Hc Hq Ha Hf. unfold configure_and_commit.
  apply only_adds_bind.
  { destruct (truth color); [|apply only_adds_ret].
    apply only_adds_bind; [|intros; apply only_adds_ret].
    eapply only_adds_weaken; [apply Hc; reflexivity|].
    apply select_color_events. }
  intros _. apply only_adds_bind.
  { destruct (quantity >? 1)%Z; [|apply only_adds_ret].
    apply only_adds_bind; [|intros; apply only_adds_ret].
    eapply only_adds_weaken; [apply Hq; reflexivity|].
    apply set_quantity_events. }
  intros _. apply only_adds_bind.
  { eapply only_adds_weaken; [exact Ha | apply click_add_to_cart_events]. }
  intros b. destruct (negb b); [apply only_adds_ret|].
  apply only_adds_bind.
  { eapply only_adds_weaken; [exact Hf | apply confirm_events]. }
  intros c. destruct c; apply only_adds_ret.
Qed.

(** What follows the navigation in [add_product_to_cart]. *)
Lemma after_goto_events size color quantity :
  Q (ESleep 2000) = true ->
  (forall ev, validity_event ev = true -> Q ev = true) ->
  (truth size = true ->
   forall ev, size_event (py_str size) ev = true -> Q ev = true) ->
  only_adds Q (configure_and_commit env color quantity) ->
  only_adds Q
    (sleep env 2000 ;;;
     valid <- _is_valid_product_page env ;;
     if negb valid
     then ret (false, "Page produit invalide ou produit non trouvé")
     else
       if truth size then
         size_selected <- _select_size env size ;;
         if negb size_selected
         then ret (false, "Taille '" ++ py_str size
                            ++ "' non trouvée ou non sélectionnable")
         else configure_and_commit env color quantity
       else configure_and_commit env color quantity).
Proof.
  intros Hs Hv Hz Hc.
  apply only_adds_bind; [apply only_adds_call; exact Hs|]. intros _.
  apply only_adds_bind.
  { eapply only_adds_weaken; [exact Hv | apply valid_page_events]. }
  intros v. destruct (negb v); [apply only_adds_ret|].
  destruct (truth size) eqn:Es; [|exact Hc].
  apply only_adds_bind.
  { eapply only_adds_weaken; [apply (Hz eq_refl)|].
    apply select_size_events. }
  intros b. destruct (negb b); [apply only_adds_ret | exact Hc].
Qed.

(** [add_product_to_cart] navigates first; all its other calls satisfy [Q]. *)
Lemma add_product_to_cart_events url size color quantity :
  Q (ESleep 2000) = true ->
  (forall ev, validity_event ev = true -> Q ev = true) ->
  (truth size = true ->
   forall ev, size_event (py_str size) ev = true -> Q ev = true) ->
  only_adds Q (configure_and_commit env color quantity) ->
  forall st, exists evs,
    forallb Q evs = true
    /\ snd (add_product_to_cart env url size color quantity st)
       = st_app st (EGoto url :: evs).
Proof.
  intros Hs Hv Hz Hc st.
  pose proof (after_goto_events size color quantity Hs Hv Hz Hc) as Hrest.
  unfold add_product_to_cart, try_except_Exception.
  unfold bind at 1. unfold goto at 1. unfold call at 1.
  destruct (env_goto env (trace st) url) as [[]|e].
  - match goal with
    | |- context [ let (_, _) := ?m (add_event _ st) in _ ] =>
        specialize (Hrest (add_event (EGoto url) st));
        destruct (m (add_event (EGoto url) st)) as [[a|e] s1]
    end; simpl in Hrest; destruct Hrest as (evs & Hevs & ->);
      exists evs; (split; [exact Hevs|]).
    + simpl. apply st_app_add_event.
    + destruct (exn_is_Exception e); simpl; apply st_app_add_event.
  - exists []. split; [reflexivity|].
    destruct (exn_is_Exception e); reflexivity.
Qed.

End OrderFrames.

Lemma page_event_of_validity ev : validity_event ev = true -> page_event ev = true.
Proof. destruct ev; simpl; congruence. Qed.

Lemma page_event_of_size s ev : size_event s ev = true -> page_event ev = true.
Proof. destruct ev; simpl; congruence. Qed.

Lemma page_event_of_color c ev : color_event c ev = true -> page_event ev = true.
Proof. destruct ev; simpl; congruence. Qed.

Lemma page_event_of_quantity ev :
  set_quantity_event ev = true -> page_event ev = true.
Proof. destruct ev; simpl; congruence. Qed.

Lemma page_event_of_add ev : add_to_cart_event ev = true -> page_event ev = true.
Proof. destruct ev; simpl; congruence. Qed.

Lemma page_event_of_confirm ev : confirm_event ev = true -> page_event ev = true.
Proof. destruct ev; simpl; congruence. Qed.

(** [add_product_to_cart] navigates once, then only works on the page. *)
Lemma add_product_to_cart_page_events env url size color quantity st :
  exists evs,
    forallb page_event evs = true
    /\ snd (add_product_to_cart env url size color quantity st)
       = st_app st (EGoto url :: evs).
Proof.
  apply add_product_to_cart_events.
  - reflexivity.
  - apply page_event_of_validity.
  - intros _. apply page_event_of_size.
  - apply configure_and_commit_events.
    + intros _. apply page_event_of_color.
    + intros _. apply page_event_of_quantity.
    + apply page_event_of_add.
    + apply page_event_of_confirm.
Qed.

(** ** What add_product_to_cart can answer *)

Ltac case_run :=
  match goal with
  | |- context [match ?x with pair _ _ => _ end] =>
      destruct x as [[?|?] ?] eqn:?
  end.

Lemma add_product_to_cart_on_page env url size color quantity :
  add_product_to_cart env url size color quantity
  = try_except_Exception
      (goto env url ;;; on_page env size color quantity)
      (fun e => ret (false, "Erreur ajout produit: " ++ exn_str e)).
Proof. reflexivity. Qed.

Lemma configure_and_commit_results env color quantity st r :
  fst (configure_and_commit env color quantity st) = Ret r ->
  r = (true, "Produit ajouté avec succès")
  \/ r = (false, "Échec ajout au panier - bouton non trouvé ou non cliquable").
Proof.
  unfold configure_and_commit.
  unfold bind at 1. case_run; [|discriminate].
  unfold bind at 1. case_run; [|discriminate].
  unfold bind at 1.
  match goal with
  | |- context [_click_add_to_cart env ?s] =>
      destruct (_click_add_to_cart env s) as [[b|e] s3]; [|discriminate]
  end.
  destruct b; cbn [negb].
  - unfold bind. pose proof (confirm_never_false env s3) as Hf.
    destruct (_confirm_cart_addition env s3) as [c s4]. cbn [fst] in Hf.
    destruct Hf as [-> | ->]; [|discriminate].
    cbn. intros H. inversion H. now left.
  - cbn. intros H. inversion H. now right.
Qed.

Lemma on_page_results env size color quantity st r :
  fst (on_page env size color quantity st) = Ret r -> page_answer size r.
Proof.
  unfold on_page, page_answer.
  unfold bind at 1. case_run; [|discriminate].
  unfold bind at 1. case_run; [|discriminate].
  match goal with b : bool |- _ => destruct b end; cbn [negb].
  2:{ intros Hr. inversion Hr. right. now left. }
  assert (Hrest : forall start,
             fst (configure_and_commit env color quantity start) = Ret r ->
             r = (true, "Produit ajouté avec succès")
             \/ r = (false,
                     "Échec ajout au panier - bouton non trouvé ou non cliquable"))
    by (intros start; apply configure_and_commit_results).
  destruct (truth size) eqn:Et.
  - unfold bind at 1. case_run; [|discriminate].
    match goal with b : bool |- _ => destruct b end; cbn [negb].
    + intros E. destruct (Hrest _ E) as [->| ->]; auto 8.
    + intros Hr. inversion Hr. right. right. left. split; reflexivity.
  - intros E. destruct (Hrest _ E) as [->| ->]; auto 8.
Qed.

(** The five answers of [add_product_to_cart]. *)
Lemma add_product_to_cart_cases env url size color quantity st r :
  fst (add_product_to_cart env url size color quantity st) = Ret r ->
  page_answer size r
  \/ exists e,
       exn_is_Exception e = true
       /\ r = (false, "Erreur ajout produit: " ++ exn_str e).
Proof.
  rewrite add_product_to_cart_on_page. unfold try_except_Exception.
  unfold bind at 1. unfold goto at 1. unfold call at 1.
  destruct (env_goto env (trace st) url) as [[]|e].
  - destruct (on_page env size color quantity (add_event (EGoto url) st))
      as [[a|e] s1] eqn:E.
    + cbn [fst]. intros H. inversion H; subst a. left.
      apply (on_page_results env size color quantity
               (add_event (EGoto url) st)). now rewrite E.
    + destruct (exn_is_Exception e) eqn:Ee; cbn [fst]; [|discriminate].
      intros H. inversion H. right. exists e. now split.
  - destruct (exn_is_Exception e) eqn:Ee; cbn [fst]; [|discriminate].
    intros H. inversion H. right. exists e. now split.
Qed.

Lemma page_answer_not_error size r e :
  page_answer size r -> r <> (false, "Erreur ajout produit: " ++ exn_str e).
Proof.
  intros [-> | [-> | [[_ ->] | ->]]] H; inversion H.
Qed.

Section AnswersOfSafeRuns.

Variable env : Env.
Hypothesis Henv : env_safe env.

Lemma on_page_total size color quantity : total (on_page env size color quantity).
Proof.
  unfold on_page.
  apply total_bind; [apply total_sleep, (safe_sleep env Henv)|]. intros _.
  apply total_bind; [apply valid_page_total, Henv|]. intros v.
  destruct (negb v); [apply total_ret|].
  destruct (truth size); [|apply configure_and_commit_total, Henv].
  apply total_bind; [apply select_size_total, Henv|]. intros b.
  destruct (negb b); [apply total_ret | apply configure_and_commit_total, Henv].
Qed.

(** Once the navigation has returned, no error reaches the handler of
    [add_product_to_cart]: every later call sits in a [try] of the step that
    makes it. *)
Lemma answer_after_navigation url size color quantity st :
  env_goto env (trace st) url = Ret tt ->
  exists r,
    fst (add_product_to_cart env url size color quantity st) = Ret r
    /\ page_answer size r.
Proof.
  intros Hgoto. rewrite add_product_to_cart_on_page.
  unfold try_except_Exception.
  unfold bind at 1. unfold goto at 1. unfold call at 1. rewrite Hgoto.
  destruct (on_page_total size color quantity (add_event (EGoto url) st))
    as [r Hr].
  pose proof (on_page_results env size color quantity
                (add_event (EGoto url) st) r Hr) as Hans.
  destruct (on_page env size color quantity (add_event (EGoto url) st))
    as [o s1]. cbn [fst] in Hr. subst o.
  exists r. split; [reflexivity | exact Hans].
Qed.

End AnswersOfSafeRuns.

(** ** One iteration of the batch loop *)

Lemma existsb_order_id oid (df : DataFrame) :
  In oid (map order_id df) ->
  existsb (fun r => String.eqb (order_id r) oid) df = true.
Proof.
  intros H. apply in_map_iff in H. destruct H as (r & <- & Hr).
  apply existsb_exists. exists r. split; [exact Hr | apply String.eqb_refl].
Qed.

Lemma status_of_kept b :
  DataManager.refused (status_of b) = false
  /\ DataManager.excel_text (status_of b) = status_of b
  /\ DataManager.plain (status_of b) = true.
Proof. destruct b; repeat split; reflexivity. Qed.

(** The sheet that the loop body leaves for an order: whatever the note,
    the status of the order is written and the other columns are kept. *)
Lemma sheet_after_order env oid b now n df :
  Forall2 (status_written oid (status_of b)) df
    (DataManager.sheet_after env oid (status_of b) n
       (map (DataManager.update_row oid (status_of b) now n) df)).
Proof.
  destruct (status_of_kept b) as (H1 & H2 & H3).
  now apply sheet_after_status.
Qed.

Lemma status_written_order_ids oid s df df' :
  Forall2 (status_written oid s) df df' -> map order_id df' = map order_id df.
Proof.
  induction 1 as [|r r' df df' [[Hid _] _] _ IH]; simpl; [reflexivity|].
  now rewrite Hid, IH.
Qed.

Lemma run_order_spec env o results st df out s1 :
  uninterrupted env ->
  orders_file s1 = Some df ->
  In (order_id o) (map order_id df) ->
  attempt env o st = (Ret out, s1) ->
  run_order env o results st
  = (Ret (if fst out then incr_success results else incr_failed results),
     after_order env o out df s1).
Proof.
  intros Hu Hdf Hin Hrun.
  unfold run_order, process_order, try_except_Exception.
  unfold bind at 1. unfold attempt in Hrun. rewrite Hrun.
  destruct out as [b msg]. cbn [fst snd].
  unfold after_order, note_of, status_of. cbn [fst snd].
  destruct b; unfold bind;
    rewrite (update_order_status_spec env _ _ _ s1 df Hdf);
    rewrite (existsb_order_id _ _ Hin);
    unfold ret; cbv beta iota;
    rewrite sleep_returns by exact Hu; reflexivity.
Qed.

(** An instance of [Exception] raised inside [add_product_to_cart], such as
    a closed browser, is turned into the result [(False, "Erreur ajout
    produit: ...")]. *)
Lemma add_product_to_cart_catches_goto env url size color quantity st e :
  env_goto env (trace st) url = Raise e ->
  exn_is_Exception e = true ->
  add_product_to_cart env url size color quantity st
  = (Ret (false, "Erreur ajout produit: " ++ exn_str e),
     add_event (EGoto url) st).
Proof.
  intros H He.
  unfold add_product_to_cart, try_except_Exception.
  unfold bind at 1. unfold goto at 1. unfold call at 1.
  rewrite H, He. reflexivity.
Qed.

(** ** The whole loop *)

Lemma filter_page_events evs :
  forallb page_event evs = true -> filter nav_or_write evs = [].
Proof.
  induction evs as [|ev evs IH]; simpl; [reflexivity|].
  intros H. apply andb_prop in H. destruct H as [H1 H2].
  destruct ev; simpl in *; try discriminate; auto.
Qed.

Lemma Forall2_trans3 {A} (R1 R2 R3 : A -> A -> Prop) l1 : forall l2 l3,
  (forall a b c, R1 a b -> R2 b c -> R3 a c) ->
  Forall2 R1 l1 l2 -> Forall2 R2 l2 l3 -> Forall2 R3 l1 l3.
Proof.
  induction l1 as [|a l1 IH]; intros l2 l3 H H1 H2.
  - inversion H1; subst. inversion H2; subst. constructor.
  - inversion H1; subst. inversion H2; subst. constructor; eauto.
Qed.

Lemma same_other_columns_refl r : same_other_columns r r.
Proof. unfold same_other_columns. repeat split; reflexivity. Qed.

Lemma same_other_columns_trans a b c :
  same_other_columns a b -> same_other_columns b c -> same_other_columns a c.
Proof.
  unfold same_other_columns. intros H1 H2.
  repeat match goal with H : _ /\ _ |- _ => destruct H end.
  repeat split; congruence.
Qed.

Lemma run_orders_spec env orders : forall results st df,
  uninterrupted env ->
  orders_file st = Some df ->
  (forall o, In o orders -> In (order_id o) (map order_id df)) ->
  (forall o, In o orders -> total (attempt env o)) ->
  exists outs st' evs df',
    run_orders env orders results st = (Ret (tally results outs), st')
    /\ Forall2 (fun o out => exists s, fst (attempt env o s) = Ret out)
               orders outs
    /\ trace st' = (trace st ++ evs)%list
    /\ filter nav_or_write evs = flat_map writes_of (combine orders outs)
    /\ orders_file st' = Some df'
    /\ Forall2 (fun r r' =>
                  same_other_columns r r'
                  /\ status r'
                     = last_status (order_id r) (combine orders outs)
                                   (status r))
               df df'.
Proof.
  induction orders as [|o orders IH]; intros results st df Hu Hdf Hin Htot.
  - exists [], st, [], df. cbn. repeat split.
    + constructor.
    + now rewrite app_nil_r.
    + exact Hdf.
    + clear Hdf Hin. induction df; constructor; auto.
      split; [apply same_other_columns_refl | reflexivity].
  - destruct (Htot o (or_introl eq_refl) st) as [out Hout].
    destruct (add_product_to_cart_page_events env (product_url o) (size o)
                (color o) (quantity o) st) as (evs1 & Hevs1 & Hs1).
    fold (attempt env o) in Hs1.
    destruct (attempt env o st) as [r1 s1] eqn:Hrun.
    cbn [fst snd] in Hout, Hs1. subst r1.
    assert (Hdf1 : orders_file s1 = Some df) by (subst s1; exact Hdf).
    pose proof (run_order_spec env o results st df out s1 Hu Hdf1
                  (Hin o (or_introl eq_refl)) Hrun) as Hbody.
    set (df1 := DataManager.sheet_after env (order_id o)
                  (status_of (fst out)) (note_of out)
                  (map (DataManager.update_row (order_id o)
                          (status_of (fst out))
                          (env_now env (trace s1)) (note_of out)) df)).
    assert (Hdf01 : Forall2 (status_written (order_id o)
                               (status_of (fst out))) df df1)
      by apply sheet_after_order.
    destruct (IH (if fst out then incr_success results
                  else incr_failed results)
                 (after_order env o out df s1) df1)
      as (outs & st' & evs & df' & Hrun' & Hf2 & Htr & Hfil & Hdf' & Hrows).
    + exact Hu.
    + reflexivity.
    + intros o' Ho'. rewrite (status_written_order_ids _ _ _ _ Hdf01).
      apply Hin. now right.
    + intros o' Ho'. apply Htot. now right.
    + exists (out :: outs), st',
        (EGoto (product_url o) :: evs1
           ++ [EUpdateStatus (order_id o) (status_of (fst out)) (note_of out);
               ESleep RATE_LIMIT_DELAY] ++ evs)%list, df'.
      split; [|split; [|split; [|split; [|split]]]].
      * unfold run_orders. cbn [process_orders]. unfold bind.
        fold (run_order env). rewrite Hbody. exact Hrun'.
      * constructor; [|exact Hf2]. exists st. now rewrite Hrun.
      * rewrite Htr. unfold after_order. cbn [trace add_event set_orders_file].
        subst s1. cbn [trace st_app].
        rewrite <- !app_assoc. reflexivity.
      * cbn [filter nav_or_write combine flat_map writes_of fst snd app].
        rewrite filter_app, (filter_page_events _ Hevs1).
        cbn. rewrite Hfil. reflexivity.
      * exact Hdf'.
      * eapply Forall2_trans3; [| |exact Hrows].
        2:{ exact Hdf01. }
        intros a b c [Hab Hsb] [Hbc Hsc]. split.
        -- eapply same_other_columns_trans; eauto.
        -- rewrite Hsc. cbn [combine last_status fold_left fst snd].
           destruct Hab as [Hid _]. rewrite Hid, Hsb.
           unfold last_status.
           rewrite (String.eqb_sym (order_id o) (order_id a)).
           reflexivity.
Qed.

(** ** The batch *)

Lemma get_pending_orders st :
  DataManager.get_all_orders (Some "pending") st = (Ret (pending_of st), st).
Proof.
  unfold DataManager.get_all_orders, try_except_Exception, bind,
    DataManager.read_excel, pending_of.
  destruct (orders_file st); reflexivity.
Qed.

Lemma pending_ids st df o :
  orders_file st = Some df -> In o (pending_of st) ->
  In (order_id o) (map order_id df).
Proof.
  intros Hdf. unfold pending_of. rewrite Hdf. intros H.
  apply filter_In in H. apply in_map. tauto.
Qed.

Lemma batch_spec env st :
  uninterrupted env ->
  (forall o, In o (pending_of st) -> total (attempt env o)) ->
  exists outs st' evs,
    process_pending_orders env st
    = (Ret (tally (mk_results 0 0 (Z.of_nat (length (pending_of st)))) outs),
       st')
    /\ Forall2 (fun o out => exists s, fst (attempt env o s) = Ret out)
               (pending_of st) outs
    /\ trace st' = (trace st ++ evs)%list
    /\ filter nav_or_write evs
       = flat_map writes_of (combine (pending_of st) outs)
    /\ forall df, orders_file st = Some df ->
       exists df',
         orders_file st' = Some df'
         /\ Forall2 (fun r r' =>
                       same_other_columns r r'
                       /\ status r'
                          = last_status (order_id r)
                              (combine (pending_of st) outs) (status r))
                    df df'.
Proof.
  intros Hu Htot.
  unfold process_pending_orders, process_pending_orders_with,
    try_except_Exception.
  unfold bind at 1. rewrite get_pending_orders.
  destruct (pending_of st) as [|o os] eqn:Hp.
  - exists [], st, []. cbn. repeat split.
    + constructor.
    + now rewrite app_nil_r.
    + intros df Hdf. exists df. split; [exact Hdf|].
      clear. induction df; constructor; auto.
      split; [apply same_other_columns_refl | reflexivity].
  - destruct (orders_file st) as [df|] eqn:Hdf.
    2:{ unfold pending_of in Hp. rewrite Hdf in Hp. discriminate. }
    destruct (run_orders_spec env (o :: os)
                (mk_results 0 0 (Z.of_nat (length (o :: os)))) st df Hu Hdf)
      as (outs & st' & evs & df' & Hrun & Hf2 & Htr & Hfil & Hdf' & Hrows).
    + intros o' Ho'. apply (pending_ids st df o' Hdf). now rewrite Hp.
    + exact Htot.
    + exists outs, st', evs. unfold run_orders in Hrun. rewrite Hrun.
      repeat split; try assumption.
      intros df0 E. inversion E; subst df0. now exists df'.
Qed.

(** ** C2 and C3: what the batch writes and what it lets through *)

Lemma static_env_safe pg : env_safe (Fixture.static_env pg).
Proof.
  constructor; intros; try intros ?; simpl; try exact I; try reflexivity.
  destruct (Fixture.pg_wait pg s); [exact I | reflexivity].
Qed.

Lemma crashed_safe : env_safe Fixture.crashed.
Proof. constructor; intros; try intros ?; reflexivity. Qed.

Lemma dies_after_safe n pg : env_safe (Fixture.dies_after n pg).
Proof.
  constructor; intros; try intros ?; simpl;
    try destruct (n <=? length tr)%nat;
    try destruct (Fixture.pg_wait pg s);
    first [exact I | reflexivity].
Qed.

Lemma attempts_total env (Henv : env_safe env) o : total (attempt env o).
Proof. apply add_product_to_cart_total. exact Henv. Qed.

(** The rows of an order after the loop body: the status is written
    whatever the note; the note is written when the sheet keeps its text. *)
Lemma after_order_rows env o out df s1 df' r' :
  orders_file (after_order env o out df s1) = Some df' ->
  In r' df' -> order_id r' = order_id o ->
  status r' = status_of (fst out)
  /\ (DataManager.keeps (note_of out) = true -> notes r' = note_of out).
Proof.
  unfold after_order. cbn [orders_file add_event set_orders_file].
  intros E Hin Hid. inversion E; subst df'; clear E. split.
  - pose proof (sheet_after_order env (order_id o) (fst out)
                  (env_now env (trace s1)) (note_of out) df) as H.
    revert Hin. generalize dependent
      (DataManager.sheet_after env (order_id o) (status_of (fst out))
         (note_of out)
         (map (DataManager.update_row (order_id o) (status_of (fst out))
                 (env_now env (trace s1)) (note_of out)) df)).
    intros df' H. induction H as [|r x df df' [[Hx _] Hs] _ IH];
      intros Hin; [destruct Hin|].
    destruct Hin as [-> | Hin]; [|now apply IH].
    rewrite Hs. rewrite <- Hx, Hid, String.eqb_refl. reflexivity.
  - intros Hk. revert Hin.
    rewrite sheet_after_kept.
    + intros Hin. apply in_map_iff in Hin. destruct Hin as (r & <- & _).
      revert Hid. unfold DataManager.update_row.
      destruct (String.eqb (order_id r) (order_id o)) eqn:E.
      * intros _. cbn [notes].
        assert (Ht : PyStr.truthy (note_of out) = true).
        { unfold note_of. destruct (fst out); reflexivity. }
        now rewrite Ht.
      * intros Hid. rewrite Hid, String.eqb_refl in E. discriminate.
    + destruct (status_of_kept (fst out)) as (H1 & H2 & H3).
      unfold DataManager.keeps. now rewrite H1, H2, H3, String.eqb_refl.
    + now right.
Qed.

Lemma written_statuses orders outs oid s n :
  In (EUpdateStatus oid s n) (flat_map writes_of (combine orders outs)) ->
  s = "completed" \/ s = "failed".
Proof.
  intros H. apply in_flat_map in H. destruct H as ([o [b msg]] & _ & H).
  simpl in H. destruct H as [H|[H|[]]]; [discriminate|].
  inversion H; subst. destruct b; auto.
Qed.

Lemma gotos_of_writes orders : forall outs,
  length outs = length orders ->
  filter is_goto (flat_map writes_of (combine orders outs))
  = map (fun o => EGoto (product_url o)) orders.
Proof.
  induction orders as [|o orders IH]; intros [|out outs] H;
    try discriminate; [reflexivity|].
  simpl. f_equal. apply IH. simpl in H. congruence.
Qed.

Lemma filter_goto_nav evs :
  filter is_goto (filter nav_or_write evs) = filter is_goto evs.
Proof.
  induction evs as [|ev evs IH]; [reflexivity|].
  destruct ev; simpl; rewrite ?IH; reflexivity.
Qed.

(** C2, as the code has it.  The batch never writes the status
    'processing'.  It navigates to the product page of each pending order
    once, in the order of the fetch, and each navigation is followed by one
    write to the store, for that order, of 'completed' or of 'failed'; these
    are its only navigations and its only writes, so an order goes from
    'pending' to its final status in one step and a failed order is not
    tried again in the same run. *)
Theorem status_written_once_after_navigation env st :
  env_safe env ->
  exists (outs : list (bool * string)) evs,
    length outs = length (pending_of st)
    /\ trace (snd (process_pending_orders env st)) = (trace st ++ evs)%list
    /\ filter nav_or_write evs
       = flat_map writes_of (combine (pending_of st) outs)
    /\ forall oid s n,
         In (EUpdateStatus oid s n) evs -> s = "completed" \/ s = "failed".
Proof.
  intros Henv.
  destruct (batch_spec env st (safe_sleep env Henv)
              (fun o _ => attempts_total env Henv o))
    as (outs & st' & evs & Hrun & Hf2 & Htr & Hfil & _).
  exists outs, evs. rewrite Hrun. cbn [snd].
  split; [symmetry; eapply Forall2_length; exact Hf2|].
  split; [exact Htr|]. split; [exact Hfil|].
  intros oid s n Hin.
  apply (written_statuses (pending_of st) outs oid s n).
  rewrite <- Hfil. apply filter_In. split; [exact Hin | reflexivity].
Qed.

Lemma status_written_once_after_navigation_witness :
  exists (outs : list (bool * string)) evs,
    length outs = 3%nat
    /\ trace (snd (process_pending_orders Fixture.shop Fixture.three_pending))
       = ([] ++ evs)%list
    /\ filter nav_or_write evs
       = flat_map writes_of
           (combine [Fixture.order_A1; Fixture.order_A2; Fixture.order_A3]
                    outs)
    /\ forall oid s n,
         In (EUpdateStatus oid s n) evs -> s = "completed" \/ s = "failed".
Proof.
  apply (status_written_once_after_navigation
           Fixture.shop Fixture.three_pending).
  apply static_env_safe.
Defined.

(** C2 as stated fails: in a run over three pending orders no order is set
    to 'processing' before its page is opened; the first call of the run is
    the navigation to the first order's page. *)
Lemma no_processing_status_counterexample :
  let tr :=
    trace (snd (process_pending_orders Fixture.shop Fixture.three_pending)) in
  hd_error tr = Some (EGoto (product_url Fixture.order_A1))
  /\ ~ sets_processing_before_navigation tr Fixture.order_A1
  /\ ~ sets_processing_before_navigation tr Fixture.order_A2
  /\ ~ sets_processing_before_navigation tr Fixture.order_A3.
Proof.
  intros tr.
  assert (Hno : forall oid n, ~ In (EUpdateStatus oid "processing" n) tr).
  { intros oid n H. vm_compute in H.
    repeat (destruct H as [H|H]; [discriminate H|]). exact H. }
  split; [vm_compute; reflexivity|].
  repeat split; intros (before & after & n & E & _); eapply Hno;
    rewrite E; apply in_elt.
Qed.

(** C3, as the code has it.  No error that derives from [Exception] leaves
    the batch run, a dead browser included: [process_pending_orders] returns
    its counters, and it still navigates to the page of every pending order,
    in order.  Where such an error is caught depends on the call that raised
    it.  An error raised by the navigation of an order is caught at the
    boundary of [add_product_to_cart]: the order is counted as failed, its
    row gets the status 'failed' and, when the sheet keeps the text, the note
    "Erreur: Erreur ajout produit: " followed by the text of the error.  An
    error raised by a later call on the page never reaches that boundary: the
    step that made the call takes its candidate for absent, and the order
    ends as the steps decide, with one of the four answers that are not an
    error text; in particular the confirmation always answers [True], so an
    order whose add-to-cart click went through is reported as added whatever
    the browser does afterwards. *)
Theorem exceptions_become_failed_orders env st :
  env_safe env ->
  (exists results, fst (process_pending_orders env st) = Ret results)
  /\ (exists evs,
        trace (snd (process_pending_orders env st)) = (trace st ++ evs)%list
        /\ filter is_goto evs
           = map (fun o => EGoto (product_url o)) (pending_of st))
  /\ (forall o results s df e,
        orders_file s = Some df ->
        In (order_id o) (map order_id df) ->
        env_goto env (trace s) (product_url o) = Raise e ->
        let note := "Erreur: Erreur ajout produit: " ++ exn_str e in
        exists s' df',
          run_order env o results s = (Ret (incr_failed results), s')
          /\ In (EUpdateStatus (order_id o) "failed" note) (trace s')
          /\ orders_file s' = Some df'
          /\ forall r', In r' df' -> order_id r' = order_id o ->
               status r' = "failed"
               /\ (DataManager.keeps note = true -> notes r' = note))
  /\ (forall url size color quantity s,
        env_goto env (trace s) url = Ret tt ->
        exists r,
          fst (add_product_to_cart env url size color quantity s) = Ret r
          /\ page_answer size r)
  /\ (forall s, fst (_confirm_cart_addition env s) = Ret true).
Proof.
  intros Henv.
  destruct (batch_spec env st (safe_sleep env Henv)
              (fun o _ => attempts_total env Henv o))
    as (outs & st' & evs & Hrun & Hf2 & Htr & Hfil & _).
  rewrite Hrun. cbn [fst snd]. split; [eexists; reflexivity|]. split.
  { exists evs. split; [exact Htr|].
    rewrite <- filter_goto_nav, Hfil. apply gotos_of_writes.
    symmetry. eapply Forall2_length. exact Hf2. }
  split.
  { intros o results s df e Hdf Hin Hgoto. cbv zeta.
    assert (He : exn_is_Exception e = true).
    { pose proof (safe_goto env Henv (trace s) (product_url o)) as H.
      rewrite Hgoto in H. exact H. }
    pose proof (add_product_to_cart_catches_goto env (product_url o) (size o)
                  (color o) (quantity o) s e Hgoto He) as Hcatch.
    pose proof (run_order_spec env o results s df
                  (false, "Erreur ajout produit: " ++ exn_str e)
                  (add_event (EGoto (product_url o)) s)
                  (safe_sleep env Henv) Hdf Hin Hcatch) as Hrun1.
    cbn [fst] in Hrun1.
    destruct (orders_file
                (after_order env o
                   (false, "Erreur ajout produit: " ++ exn_str e) df
                   (add_event (EGoto (product_url o)) s)))
      as [df'|] eqn:Hdf'; [|discriminate Hdf'].
    eexists. exists df'. split; [exact Hrun1|]. split.
    - unfold after_order. cbn [trace add_event set_orders_file].
      apply in_or_app. left. apply in_or_app. right. left. reflexivity.
    - split; [exact Hdf'|]. intros r' Hr' Hid.
      apply (after_order_rows env o
               (false, "Erreur ajout produit: " ++ exn_str e) df
               (add_event (EGoto (product_url o)) s) df' r' Hdf' Hr' Hid). }
  split.
  { intros url size color quantity s Hgoto.
    now apply answer_after_navigation. }
  intros s. apply confirm_always_true, (safe_sleep env Henv).
Qed.

Lemma exceptions_become_failed_orders_witness :
  (exists results,
     fst (process_pending_orders Fixture.crashed Fixture.three_pending)
     = Ret results)
  /\ (exists s' df',
        run_order Fixture.crashed Fixture.order_A1 no_results
                  Fixture.three_pending
        = (Ret (incr_failed no_results), s')
        /\ In (EUpdateStatus (order_id Fixture.order_A1) "failed"
                 ("Erreur: Erreur ajout produit: "
                    ++ exn_str Fixture.target_closed))
              (trace s')
        /\ orders_file s' = Some df'
        /\ forall r', In r' df' -> order_id r' = order_id Fixture.order_A1 ->
             status r' = "failed"
             /\ notes r' = VStr ("Erreur: Erreur ajout produit: "
                                   ++ exn_str Fixture.target_closed))
  /\ (exists r,
        fst (attempt (Fixture.dies_after 5 Fixture.shop_page)
               Fixture.order_A1 Fixture.three_pending) = Ret r
        /\ page_answer (size Fixture.order_A1) r
        /\ r = (false, "Taille 'M' non trouvée ou non sélectionnable"))
  /\ (exists r,
        fst (attempt (Fixture.dies_after 20 Fixture.shop_page)
               Fixture.order_A1 Fixture.three_pending) = Ret r
        /\ page_answer (size Fixture.order_A1) r
        /\ r = (true, "Produit ajouté avec succès")).
Proof.
  destruct (exceptions_become_failed_orders
              Fixture.crashed Fixture.three_pending crashed_safe)
    as (Hret & _ & Hcrash & _).
  split; [exact Hret|]. split.
  { destruct (Hcrash Fixture.order_A1 no_results Fixture.three_pending
                [Fixture.order_A0; Fixture.order_A1; Fixture.order_A2;
                 Fixture.order_A3] Fixture.target_closed)
      as (s' & df' & H1 & H2 & H3 & H4).
    - reflexivity.
    - simpl. auto.
    - reflexivity.
    - exists s', df'. repeat split; try assumption.
      + now apply H4.
      + apply H4; [assumption | assumption | reflexivity]. }
  split.
  - destruct (exceptions_become_failed_orders
                (Fixture.dies_after 5 Fixture.shop_page)
                Fixture.three_pending (dies_after_safe _ _))
      as (_ & _ & _ & Hpage & _).
    destruct (Hpage (product_url Fixture.order_A1) (size Fixture.order_A1)
                (color Fixture.order_A1) (quantity Fixture.order_A1)
                Fixture.three_pending eq_refl) as (r & Hr & Hans).
    exists r. split; [exact Hr|]. split; [exact Hans|].
    unfold attempt in Hr. vm_compute in Hr. now inversion Hr.
  - destruct (exceptions_become_failed_orders
                (Fixture.dies_after 20 Fixture.shop_page)
                Fixture.three_pending (dies_after_safe _ _))
      as (_ & _ & _ & Hpage & _).
    destruct (Hpage (product_url Fixture.order_A1) (size Fixture.order_A1)
                (color Fixture.order_A1) (quantity Fixture.order_A1)
                Fixture.three_pending eq_refl) as (r & Hr & Hans).
    exists r. split; [exact Hr|]. split; [exact Hans|].
    unfold attempt in Hr. vm_compute in Hr. now inversion Hr.
Defined.

(** C3 as stated fails: with a browser that is dead from the first call on,
    the batch run raises nothing; it returns its counters, marks the three
    pending orders 'failed', and has tried to open the page of each. *)
Lemma browser_crash_is_swallowed_counterexample :
  let out := process_pending_orders Fixture.crashed Fixture.three_pending in
  fst out = Ret (mk_results 0 3 3)
  /\ (forall e, fst out <> Raise e)
  /\ filter nav_or_write (trace (snd out))
     = flat_map
         (fun o =>
            [EGoto (product_url o);
             EUpdateStatus (order_id o) "failed"
               "Erreur: Erreur ajout produit: Target page, context or browser has been closed"])
         [Fixture.order_A1; Fixture.order_A2; Fixture.order_A3]
  /\ option_map (map status) (orders_file (snd out))
     = Some (map VStr ["completed"; "failed"; "failed"; "failed"]).
Proof.
  intros out. split; [vm_compute; reflexivity|]. split.
  - intros e. vm_compute. discriminate.
  - split; vm_compute; reflexivity.
Qed.

(** ** C1: one failing order in a batch *)











(** ** Fallback chains and scans *)

(** Candidates that fall through, one after the other. *)
Lemma chain_falls_through {X R} (body : X -> M (option R))
    (P : X -> list event -> Prop) pre :
  (forall x, In x pre -> forall st, exists evs,
      body x st = (Ret None, st_app st evs) /\ P x evs) ->
  forall rest st, exists evss,
    for_return body (pre ++ rest) st
    = for_return body rest (st_app st (concat evss))
    /\ Forall2 P pre evss.
Proof.
  induction pre as [|x pre IH]; intros H rest st.
  - exists []. cbn. rewrite st_app_nil. split; [reflexivity | constructor].
  - destruct (H x (or_introl eq_refl) st) as (evs1 & Hx & HP).
    destruct (IH (fun y Hy => H y (or_intror Hy)) rest (st_app st evs1))
      as (evss & Hrest & HF).
    exists (evs1 :: evss). split; [|constructor; assumption].
    cbn [app for_return]. unfold bind. rewrite Hx, Hrest.
    cbn [concat]. now rewrite st_app_app.
Qed.

Lemma filter_concat {A} (p : A -> bool) (ls : list (list A)) :
  filter p (concat ls) = concat (map (filter p) ls).
Proof.
  induction ls as [|l ls IH]; [reflexivity|].
  cbn. now rewrite filter_app, IH.
Qed.


Lemma no_clicks_in {A} evss (hs : list A) :
  Forall2 (fun (_ : A) evs => filter is_click evs = []) hs evss ->
  filter is_click (concat evss) = [].
Proof.
  induction 1 as [|h evs hs evss Hc _ IH]; [reflexivity|].
  cbn [concat]. now rewrite filter_app, Hc, IH.
Qed.

Lemma waits_no_click t sels : filter is_click (waits t sels) = [].
Proof. induction sels as [|x l IH]; [reflexivity | exact IH]. Qed.

Section Chains.

Variable env : Env.


Lemma try_size_selector_misses s st :
  absent env 3000 s ->
  try_size_selector env s st
  = (Ret None, st_app st [EWaitForSelector s 3000]).
Proof.
  intros Habs. specialize (Habs (trace st)). unfold hit in Habs.
  unfold try_size_selector, try_except_all, bind, wait_for_selector, call,
    ret.
  destruct (env_wait_for_selector env (trace st) s 3000) as [[h|]|e];
    try discriminate; reflexivity.
Qed.

Lemma size_chain_misses sels : forall st,
  Forall (absent env 3000) sels ->
  for_return (try_size_selector env) sels st
  = (Ret None, st_app st (waits 3000 sels)).
Proof.
  induction sels as [|s sels IH]; intros st H.
  - cbn. unfold ret. now rewrite st_app_nil.
  - inversion H; subst. cbn [for_return]. unfold bind.
    rewrite try_size_selector_misses by assumption.
    rewrite IH by assumption. now rewrite st_app_app.
Qed.

(** An element that the scan of [_select_size] passes over: its text is
    read, and its two attributes when the text holds the size. *)
Lemma try_size_element_rejects target_size h st :
  scan_rejects env target_size h ->
  exists evs,
    try_size_element env target_size h st = (Ret None, st_app st evs)
    /\ filter is_click evs = []
    /\ filter is_wait evs = [].
Proof.
  intros (text & dis & cls & (Ht & Hd & Hc) & Hno).
  unfold try_size_element, try_except_all.
  unfold bind at 1. unfold text_content at 1. unfold call at 1. rewrite Ht.
  unfold size_scan_accepts in Hno.
  destruct (PyStr.truthy_opt text) eqn:E0.
  2:{ exists [ETextContent h]. unfold bind, ret. repeat split; reflexivity. }
  destruct target_size as [| |s| |];
    try (exists [ETextContent h]; unfold bind, str_upper, raise;
         repeat split; reflexivity).
  unfold bind at 1. unfold bind at 1. unfold str_upper, ret at 1.
  unfold ret at 1.
  destruct (PyStr.contains (env_upper env s)
              (env_upper env (PyStr.or_empty text))) eqn:E1.
  - cbn [andb] in Hno.
    unfold bind at 1. unfold get_attribute at 1. unfold call at 1.
    rewrite Hd.
    unfold bind at 1. unfold get_attribute at 1. unfold call at 1.
    rewrite Hc. rewrite Hno.
    exists [ETextContent h; EGetAttribute h "disabled";
            EGetAttribute h "class"].
    split; [|split; reflexivity].
    unfold ret. rewrite !add_event_st_app, !st_app_app. reflexivity.
  - exists [ETextContent h]. repeat split; reflexivity.
Qed.

Hypothesis Hu : uninterrupted env.






Lemma try_size_element_accepts target_size h st :
  scan_accepts env target_size h -> clickable env h ->
  try_size_element env target_size h st
  = (Ret (Some true),
     st_app st [ETextContent h; EGetAttribute h "disabled";
                EGetAttribute h "class"; EClick h; ESleep 1000]).
Proof.
  intros (text & dis & cls & (Ht & Hd & Hc) & Hyes) Hclick.
  unfold size_scan_accepts in Hyes.
  destruct target_size as [| |s| |]; try discriminate.
  apply andb_prop in Hyes. destruct Hyes as [Hyes H4].
  apply andb_prop in Hyes. destruct Hyes as [H12 H3].
  apply andb_prop in H12. destruct H12 as [H1 H2].
  unfold try_size_element, try_except_all.
  unfold bind at 1. unfold text_content at 1. unfold call at 1. rewrite Ht.
  rewrite H1.
  unfold bind at 1. unfold bind at 1. unfold str_upper, ret at 1.
  unfold ret at 1. rewrite H2.
  unfold bind at 1. unfold get_attribute at 1. unfold call at 1. rewrite Hd.
  unfold bind at 1. unfold get_attribute at 1. unfold call at 1. rewrite Hc.
  rewrite H3, H4. cbn [andb].
  unfold bind, click, sleep, call, ret. cbn [trace add_event].
  rewrite Hclick, Hu.
  rewrite !add_event_st_app, !st_app_app. reflexivity.
Qed.

(** The scan of [_select_size], when no selector resolves: the first
    element that passes the test is clicked, and no other. *)
Lemma select_size_scan_hit target_size pre h post st :
  Forall (absent env 3000) (size_selectors (py_str target_size)) ->
  query_gives env all_size_elements_selector (pre ++ h :: post) ->
  Forall (scan_rejects env target_size) pre ->
  scan_accepts env target_size h -> clickable env h ->
  exists evs,
    _select_size env target_size st = (Ret true, st_app st evs)
    /\ filter is_click evs = [EClick h].
Proof.
  intros Hno Hq Hpre Hacc Hclick.
  destruct (chain_falls_through (try_size_element env target_size)
              (fun (_ : handle) evs => filter is_click evs = []) pre)
    with (rest := h :: post)
         (st := st_app st (waits 3000 (size_selectors (py_str target_size))
                             ++ [EQuerySelectorAll
                                   all_size_elements_selector]))
    as (evss & Hrun & HF).
  { intros x Hx st0.
    destruct (try_size_element_rejects target_size x st0)
      as (evs & H1 & H2 & _).
    - rewrite Forall_forall in Hpre. now apply Hpre.
    - now exists evs. }
  eexists. split.
  - unfold _select_size, try_except_Exception.
    unfold bind at 1. rewrite (size_chain_misses _ st Hno).
    unfold bind at 1. unfold query_selector_all at 1. unfold call at 1.
    rewrite Hq. rewrite add_event_st_app, st_app_app.
    unfold bind at 1. rewrite Hrun. cbn [for_return]. unfold bind at 1.
    rewrite (try_size_element_accepts target_size h _ Hacc Hclick).
    unfold ret. rewrite !st_app_app. reflexivity.
  - rewrite !filter_app, waits_no_click, (no_clicks_in evss pre HF).
    reflexivity.
Qed.

End Chains.

(** The scan of [_select_size], when no selector resolves and no element
    passes the test: the answer is [False], after the waits on the six
    selectors, the query and the reading of every element, without a click
    and without a sleep. *)
Lemma select_size_scan_miss env target_size hs st :
  Forall (absent env 3000) (size_selectors (py_str target_size)) ->
  query_gives env all_size_elements_selector hs ->
  Forall (scan_rejects env target_size) hs ->
  exists evs,
    _select_size env target_size st = (Ret false, st_app st evs)
    /\ filter is_click evs = []
    /\ filter is_wait evs = waits 3000 (size_selectors (py_str target_size)).
Proof.
  intros Hno Hq Hall.
  destruct (chain_falls_through (try_size_element env target_size)
              (fun (h : handle) evs =>
                 filter is_click evs = [] /\ filter is_wait evs = []) hs)
    with (rest := @nil handle)
         (st := st_app st (waits 3000 (size_selectors (py_str target_size))
                             ++ [EQuerySelectorAll
                                   all_size_elements_selector]))
    as (evss & Hrun & HF).
  { intros x Hx st0.
    assert (Hrej : scan_rejects env target_size x)
      by (rewrite Forall_forall in Hall; now apply Hall).
    destruct (try_size_element_rejects env target_size x st0 Hrej)
      as (evs & H1 & H2 & H3).
    now exists evs. }
  rewrite app_nil_r in Hrun.
  assert (Hc : filter is_click (concat evss) = []
               /\ filter is_wait (concat evss) = []).
  { clear Hrun Hq Hall. induction HF as [|h evs hs' evss' [H1 H2] _ IH];
      [split; reflexivity|].
    cbn [concat]. rewrite !filter_app, H1, H2.
    destruct IH as [IH1 IH2]. now rewrite IH1, IH2. }
  destruct Hc as [Hc1 Hc2].
  eexists. split; [|split].
  - unfold _select_size, try_except_Exception.
    unfold bind at 1. rewrite (size_chain_misses env _ st Hno).
    unfold bind at 1. unfold query_selector_all at 1. unfold call at 1.
    rewrite Hq. rewrite add_event_st_app, st_app_app.
    unfold bind at 1. rewrite Hrun. cbn [for_return].
    unfold ret. rewrite !st_app_app. reflexivity.
  - rewrite !filter_app, waits_no_click, Hc1. reflexivity.
  - rewrite !filter_app, Hc2. cbn [filter is_wait]. rewrite !app_nil_r.
    unfold waits. clear. induction (size_selectors (py_str target_size));
      [reflexivity | cbn; now f_equal].
Qed.

(** *** The scan of _select_color *)

Section ColorScan.

Variable env : Env.
Variable target_color : string.

Lemma try_color_element_lacks h st :
  lacks_color env target_color h ->
  try_color_element env (env_lower env target_color) h st
  = (Ret None,
     st_app st [EGetAttribute h "title"; EGetAttribute h "alt";
                ETextContent h]).
Proof.
  intros (title & alt & text & (Ht & Ha & Hx) & Hno).
  unfold color_test in Hno.
  unfold try_color_element.
  unfold bind at 1. unfold get_attribute at 1. unfold call at 1. rewrite Ht.
  unfold bind at 1. unfold get_attribute at 1. unfold call at 1. rewrite Ha.
  unfold bind at 1. unfold text_content at 1. unfold call at 1. rewrite Hx.
  rewrite Hno. unfold ret.
  rewrite !add_event_st_app, !st_app_app. reflexivity.
Qed.

Lemma color_elements_all_lack hs : forall st,
  Forall (lacks_color env target_color) hs ->
  exists evs,
    for_return (try_color_element env (env_lower env target_color)) hs st
    = (Ret None, st_app st evs)
    /\ filter is_click evs = []
    /\ filter is_query evs = [].
Proof.
  induction hs as [|h hs IH]; intros st H.
  - exists []. cbn. unfold ret. rewrite st_app_nil. repeat split.
  - inversion H; subst. cbn [for_return]. unfold bind.
    rewrite try_color_element_lacks by assumption.
    destruct (IH (st_app st [EGetAttribute h "title"; EGetAttribute h "alt";
                             ETextContent h])) as (evs & -> & Hc & Hq);
      [assumption|].
    eexists. split; [rewrite st_app_app; reflexivity|].
    rewrite !filter_app, Hc, Hq. split; reflexivity.
Qed.

Lemma try_color_selector_barren s st :
  barren env target_color s ->
  exists evs,
    try_color_selector env (env_lower env target_color) s st
    = (Ret None, st_app st evs)
    /\ filter is_click evs = []
    /\ filter is_query evs = [EQuerySelectorAll s].
Proof.
  intros (hs & Hq & Hall).
  unfold try_color_selector, try_except_all.
  unfold bind at 1. unfold query_selector_all at 1. unfold call at 1.
  rewrite Hq.
  destruct (color_elements_all_lack hs
              (add_event (EQuerySelectorAll s) st) Hall)
    as (evs & -> & Hc & Hqq).
  eexists. split; [rewrite st_app_add_event; reflexivity|].
  cbn [filter is_click is_query]. rewrite Hqq. split; [exact Hc | reflexivity].
Qed.

(** When no element of any selector names the colour, [_select_color]
    answers [False] after one query per selector and no click. *)
Lemma select_color_barren st :
  Forall (barren env target_color) (color_selectors target_color) ->
  exists evs,
    _select_color env (VStr target_color) st = (Ret false, st_app st evs)
    /\ filter is_click evs = []
    /\ filter is_query evs = queries (color_selectors target_color).
Proof.
  intros Hall.
  destruct (chain_falls_through
              (try_color_selector env (env_lower env target_color))
              (fun (s : string) evs =>
                 filter is_click evs = []
                 /\ filter is_query evs = [EQuerySelectorAll s])
              (color_selectors target_color))
    with (rest := @nil string) (st := st) as (evss & Hrun & HF).
  { intros x Hx st0. apply try_color_selector_barren.
    rewrite Forall_forall in Hall. now apply Hall. }
  rewrite app_nil_r in Hrun.
  exists (concat evss). split; [|split].
  - unfold _select_color, try_except_Exception, str_lower.
    unfold bind at 1. unfold ret at 1. cbn [py_str].
    unfold bind at 1. rewrite Hrun. reflexivity.
  - clear Hrun. induction HF as [|s evs l evss' [H1 _] _ IH];
      [reflexivity|].
    cbn [concat]. rewrite filter_app, H1. apply IH.
    now inversion Hall.
  - clear Hrun. unfold queries.
    induction HF as [|s evs l evss' [_ H2] _ IH]; [reflexivity|].
    cbn [concat map]. rewrite filter_app, H2. cbn [app]. f_equal. apply IH.
    now inversion Hall.
Qed.

Hypothesis Hu : uninterrupted env.

Lemma try_color_element_names h st :
  names_color env target_color h -> clickable env h ->
  try_color_element env (env_lower env target_color) h st
  = (Ret (Some true),
     st_app st [EGetAttribute h "title"; EGetAttribute h "alt";
                ETextContent h; EClick h; ESleep 1000]).
Proof.
  intros (title & alt & text & (Ht & Ha & Hx) & Hyes) Hclick.
  unfold color_test in Hyes.
  unfold try_color_element.
  unfold bind at 1. unfold get_attribute at 1. unfold call at 1. rewrite Ht.
  unfold bind at 1. unfold get_attribute at 1. unfold call at 1. rewrite Ha.
  unfold bind at 1. unfold text_content at 1. unfold call at 1. rewrite Hx.
  rewrite Hyes.
  unfold bind, click, sleep, call, ret. cbn [trace add_event].
  rewrite Hclick, Hu.
  rewrite !add_event_st_app, !st_app_app. reflexivity.
Qed.

(** The first element that names the colour is clicked, and no other. *)
Lemma select_color_names pre s post hpre h hpost st :
  color_selectors target_color = (pre ++ s :: post)%list ->
  Forall (barren env target_color) pre ->
  query_gives env s (hpre ++ h :: hpost) ->
  Forall (lacks_color env target_color) hpre ->
  names_color env target_color h -> clickable env h ->
  exists evs,
    _select_color env (VStr target_color) st = (Ret true, st_app st evs)
    /\ filter is_click evs = [EClick h].
Proof.
  intros E Hpre Hq Hlack Hname Hclick.
  destruct (chain_falls_through
              (try_color_selector env (env_lower env target_color))
              (fun (_ : string) evs => filter is_click evs = []) pre)
    with (rest := s :: post) (st := st) as (evss & Hrun & HF).
  { intros x Hx st0.
    destruct (try_color_selector_barren x st0) as (evs & H1 & H2 & _).
    - rewrite Forall_forall in Hpre. now apply Hpre.
    - now exists evs. }
  assert (Hquiet : filter is_click (concat evss) = []).
  { apply (no_clicks_in evss pre HF). }
  destruct (chain_falls_through
              (try_color_element env (env_lower env target_color))
              (fun (_ : handle) evs => filter is_click evs = []) hpre)
    with (rest := h :: hpost)
         (st := st_app st (concat evss ++ [EQuerySelectorAll s]))
    as (evss2 & Hrun2 & HF2).
  { intros x Hx st0. eexists.
    rewrite try_color_element_lacks
      by (rewrite Forall_forall in Hlack; now apply Hlack).
    split; reflexivity. }
  eexists. split.
  - unfold _select_color, try_except_Exception, str_lower.
    unfold bind at 1. unfold ret at 1. cbn [py_str].
    unfold bind at 1. rewrite E, Hrun. cbn [for_return].
    unfold bind at 1. unfold try_color_selector at 1, try_except_all.
    unfold bind at 1. unfold query_selector_all at 1. unfold call at 1.
    rewrite Hq. rewrite add_event_st_app, st_app_app.
    rewrite Hrun2. cbn [for_return]. unfold bind at 1.
    rewrite (try_color_element_names h _ Hname Hclick).
    unfold ret. rewrite !st_app_app. reflexivity.
  - rewrite !filter_app, Hquiet, (no_clicks_in evss2 hpre HF2).
    reflexivity.
Qed.

End ColorScan.


(** ** The steps of an attempt *)













(** *** The first call of a computation *)






Section Steps.

Variable env : Env.



End Steps.




(** ** C4: the fallback chains *)







(** ** C6: the quantity *)

Lemma chain_miss_generic {R} (body : string -> M (option R)) t sels :
  (forall x, In x sels -> forall st,
      body x st = (Ret None, st_app st [EWaitForSelector x t])) ->
  forall st, for_return body sels st = (Ret None, st_app st (waits t sels)).
Proof.
  induction sels as [|x sels IH]; intros H st.
  - cbn. unfold ret. now rewrite st_app_nil.
  - cbn [for_return]. unfold bind. rewrite (H x (or_introl eq_refl)).
    rewrite IH by (intros y Hy; apply H; now right).
    now rewrite st_app_app.
Qed.



Section Quantity.

Variable env : Env.

Lemma try_qty_selector_gives_up quantity s evs st :
  input_gives_up env quantity s evs ->
  try_qty_selector env quantity s st = (Ret None, st_app st evs).
Proof.
  intros [[Habs ->] | (h & Hh & Hfail)].
  - specialize (Habs (trace st)). unfold hit in Habs.
    unfold try_qty_selector, try_except_all, bind, wait_for_selector, call,
      ret.
    destruct (env_wait_for_selector env (trace st) s 3000) as [[h|]|e];
      try discriminate; reflexivity.
  - unfold try_qty_selector, try_except_all.
    unfold bind at 1. unfold wait_for_selector at 1. unfold call at 1.
    rewrite Hh.
    destruct Hfail as [[Hc ->] | [(Hc & Hf & ->) | (Hc & Hf & Ht & ->)]].
    + unfold bind, click, call.
      destruct (Hc (trace (add_event (EWaitForSelector s 3000) st)))
        as [e ->].
      unfold ret. rewrite !add_event_st_app, !st_app_app. reflexivity.
    + unfold bind at 1. unfold click at 1. unfold call at 1. rewrite Hc.
      unfold bind, fill, call.
      match goal with
      | |- context [env_fill env ?tr h EmptyString] =>
          destruct (Hf tr) as [e ->]
      end.
      unfold ret. rewrite !add_event_st_app, !st_app_app. reflexivity.
    + unfold bind at 1. unfold click at 1. unfold call at 1. rewrite Hc.
      unfold bind at 1. unfold fill at 1. unfold call at 1. rewrite Hf.
      unfold bind, type_text, call.
      match goal with
      | |- context [env_type env ?tr h ?t] => destruct (Ht tr) as [e ->]
      end.
      unfold ret. rewrite !add_event_st_app, !st_app_app. reflexivity.
Qed.



Lemma try_plus_selector_misses quantity s st :
  absent env 3000 s ->
  try_plus_selector env quantity s st
  = (Ret None, st_app st [EWaitForSelector s 3000]).
Proof.
  intros Habs. specialize (Habs (trace st)). unfold hit in Habs.
  unfold try_plus_selector, try_except_all, bind, wait_for_selector, call,
    ret.
  destruct (env_wait_for_selector env (trace st) s 3000) as [[h|]|e];
    try discriminate; reflexivity.
Qed.

Hypothesis Hu : uninterrupted env.




End Quantity.




(** ** C5: size is required, colour is not *)

Section HardAndSoft.

Variable env : Env.
Hypothesis Hu : uninterrupted env.








End HardAndSoft.






(** * Further properties of the code *)

(** ** The batch, run after run *)

Lemma batch_empty env st :
  pending_of st = [] ->
  process_pending_orders env st = (Ret no_results, st).
Proof.
  intros H.
  unfold process_pending_orders, process_pending_orders_with,
    try_except_Exception.
  unfold bind at 1. rewrite get_pending_orders, H. reflexivity.
Qed.








(** ** The shape of a batch trace *)

Lemma run_orders_trace env orders : forall results st df,
  uninterrupted env ->
  orders_file st = Some df ->
  (forall o, In o orders -> In (order_id o) (map order_id df)) ->
  (forall o, In o orders -> total (attempt env o)) ->
  exists outs segs,
    length outs = length orders
    /\ length segs = length orders
    /\ Forall (fun seg => forallb page_event seg = true) segs
    /\ trace (snd (run_orders env orders results st))
       = (trace st
            ++ flat_map order_segment (combine (combine orders outs) segs))%list.
Proof.
  induction orders as [|o orders IH]; intros results st df Hu Hdf Hin Htot.
  - exists [], []. cbn. repeat split; [constructor | now rewrite app_nil_r].
  - destruct (Htot o (or_introl eq_refl) st) as [out Hout].
    destruct (add_product_to_cart_page_events env (product_url o) (size o)
                (color o) (quantity o) st) as (evs1 & Hevs1 & Hs1).
    fold (attempt env o) in Hs1.
    destruct (attempt env o st) as [r1 s1] eqn:Hrun.
    cbn [fst snd] in Hout, Hs1. subst r1.
    assert (Hdf1 : orders_file s1 = Some df) by (subst s1; exact Hdf).
    pose proof (run_order_spec env o results st df out s1 Hu Hdf1
                  (Hin o (or_introl eq_refl)) Hrun) as Hbody.
    set (df1 := DataManager.sheet_after env (order_id o)
                  (status_of (fst out)) (note_of out)
                  (map (DataManager.update_row (order_id o)
                          (status_of (fst out))
                          (env_now env (trace s1)) (note_of out)) df)).
    assert (Hdf01 : Forall2 (status_written (order_id o)
                               (status_of (fst out))) df df1)
      by apply sheet_after_order.
    destruct (IH (if fst out then incr_success results
                  else incr_failed results)
                 (after_order env o out df s1) df1)
      as (outs & segs & Hlo & Hls & Hpage & Htr).
    + exact Hu.
    + reflexivity.
    + intros o' Ho'. rewrite (status_written_order_ids _ _ _ _ Hdf01).
      apply Hin. now right.
    + intros o' Ho'. apply Htot. now right.
    + exists (out :: outs), (evs1 :: segs).
      split; [cbn; congruence|]. split; [cbn; congruence|].
      split; [constructor; assumption|].
      unfold run_orders. cbn [process_orders]. unfold bind.
      fold (run_order env). rewrite Hbody.
      fold (run_orders env). rewrite Htr.
      unfold after_order. cbn [trace add_event set_orders_file].
      subst s1. cbn [trace st_app combine flat_map order_segment].
      rewrite <- ?app_assoc. cbn [app]. rewrite <- ?app_assoc. cbn [app].
      reflexivity.
Qed.

(** X2. The trace of a batch is, for each pending order in the order of the
    fetch: the navigation to its page, calls on that page, the write of its
    final status, and a pause of [RATE_LIMIT_DELAY]; nothing comes between a
    status write and its pause, and the pause follows the last order too. *)
Theorem batch_trace_is_paced env st :
  env_safe env ->
  exists outs segs,
    length outs = length (pending_of st)
    /\ length segs = length (pending_of st)
    /\ Forall (fun seg => forallb page_event seg = true) segs
    /\ trace (snd (process_pending_orders env st))
       = (trace st
            ++ flat_map order_segment
                 (combine (combine (pending_of st) outs) segs))%list.
Proof.
  intros Henv.
  destruct (pending_of st) as [|o os] eqn:Hp.
  - exists [], []. rewrite (batch_empty env st Hp). cbn.
    repeat split; [constructor | now rewrite app_nil_r].
  - destruct (orders_file st) as [df|] eqn:Hdf.
    2:{ unfold pending_of in Hp. rewrite Hdf in Hp. discriminate. }
    destruct (run_orders_trace env (o :: os)
                (mk_results 0 0 (Z.of_nat (length (o :: os)))) st df
                (safe_sleep env Henv) Hdf)
      as (outs & segs & Hlo & Hls & Hpage & Htr).
    + intros o' Ho'. apply (pending_ids st df o' Hdf). now rewrite Hp.
    + intros o' _. now apply attempts_total.
    + exists outs, segs. repeat split; try assumption.
      destruct (batch_spec env st (safe_sleep env Henv)
                  (fun o _ => attempts_total env Henv o))
        as (outs' & s' & evs & Hrun & _).
      unfold process_pending_orders, process_pending_orders_with,
        try_except_Exception in *.
      unfold bind at 1 in Hrun. unfold bind at 1.
      rewrite get_pending_orders, Hp in *.
      unfold run_orders in Htr.
      destruct (process_orders env (DataManager.update_order_status env)
                  (add_product_to_cart env) (o :: os)
                  (mk_results 0 0 (Z.of_nat (length (o :: os)))) st)
        as [[r|e] s2]; cbn [snd] in *.
      * exact Htr.
      * destruct (exn_is_Exception e); exact Htr.
Qed.

Lemma batch_trace_is_paced_witness :
  exists outs segs,
    length outs = 3%nat
    /\ length segs = 3%nat
    /\ Forall (fun seg => forallb page_event seg = true) segs
    /\ trace (snd (process_pending_orders Fixture.shop Fixture.three_pending))
       = ([] ++ flat_map order_segment
                  (combine
                     (combine [Fixture.order_A1; Fixture.order_A2;
                               Fixture.order_A3] outs)
                     segs))%list.
Proof.
  apply (batch_trace_is_paced Fixture.shop Fixture.three_pending).
  apply static_env_safe.
Defined.
(** ** What add_product_to_cart can answer, case by case *)

(** Whatever the colour and the quantity steps did, the add-to-cart click
    alone decides the answer of [configure_and_commit]. *)
Lemma configure_and_commit_follows_click env color quantity st b :
  uninterrupted env ->
  (forall s, fst (_click_add_to_cart env s) = Ret b) ->
  fst (configure_and_commit env color quantity st)
  = Ret (if b then (true, "Produit ajouté avec succès")
         else (false,
               "Échec ajout au panier - bouton non trouvé ou non cliquable")).
Proof.
  intros Hu Hadd. unfold configure_and_commit.
  unfold bind at 1.
  assert (Hc : exists s1,
             (if truth color
              then color_selected <- _select_color env color ;; ret tt
              else ret tt) st = (Ret tt, s1)).
  { destruct (truth color); [|eexists; reflexivity].
    unfold bind.
    destruct (select_color_total env color st) as [c Hc].
    destruct (_select_color env color st) as [r s1].
    cbn [fst] in Hc. subst r. eexists; reflexivity. }
  destruct Hc as (s1 & ->).
  unfold bind at 1.
  assert (Hq : exists s2,
             (if (quantity >? 1)%Z
              then quantity_set <- _set_quantity env quantity ;; ret tt
              else ret tt) s1 = (Ret tt, s2)).
  { destruct (quantity >? 1)%Z; [|eexists; reflexivity].
    unfold bind. destruct (set_quantity_total env quantity s1) as [c Hc].
    destruct (_set_quantity env quantity s1) as [r s2]. cbn [fst] in Hc.
    subst r. eexists; reflexivity. }
  destruct Hq as (s2 & ->).
  unfold bind at 1. pose proof (Hadd s2) as Ha.
  destruct (_click_add_to_cart env s2) as [r s3]. cbn [fst] in Ha.
  subst r. destruct b; cbn [negb]; [|reflexivity].
  unfold bind. pose proof (confirm_always_true env s3 Hu) as Hf.
  destruct (_confirm_cart_addition env s3) as [r s4]. cbn [fst] in Hf.
  subst r. reflexivity.
Qed.

(** X3. [add_product_to_cart] has five answers and no other: success; an
    invalid product page; a size that could not be selected; an add-to-cart
    button that could not be clicked; an error, with its text.  The answer
    "Ajout au panier non confirmé" of the source is never given. *)
Theorem add_product_to_cart_answers env url size color quantity st r :
  fst (add_product_to_cart env url size color quantity st) = Ret r ->
  (r = (true, "Produit ajouté avec succès")
   \/ r = (false, "Page produit invalide ou produit non trouvé")
   \/ (truth size = true
       /\ r = (false, "Taille '" ++ py_str size
                        ++ "' non trouvée ou non sélectionnable"))
   \/ r = (false, "Échec ajout au panier - bouton non trouvé ou non cliquable")
   \/ exists e,
        exn_is_Exception e = true
        /\ r = (false, "Erreur ajout produit: " ++ exn_str e))
  /\ r <> (false, "Ajout au panier non confirmé").
Proof.
  intros H.
  destruct (add_product_to_cart_cases env url size color quantity st r H)
    as [[-> | [-> | [[Ht ->] | ->]]] | (e & He & ->)].
  - split; [auto|]. intros E; inversion E.
  - split; [auto|]. intros E; inversion E.
  - split; [auto 6|]. intros E; inversion E.
  - split; [auto 6|]. intros E; inversion E.
  - split; [|intros E; inversion E].
    right. right. right. right. now exists e.
Qed.

Lemma add_product_to_cart_answers_witness :
  let r := (false, "Taille 'XXL' non trouvée ou non sélectionnable") in
  fst (attempt Fixture.shop Fixture.order_A2 Fixture.three_pending) = Ret r
  /\ r <> (false, "Ajout au panier non confirmé").
Proof.
  intros r. split; [reflexivity|].
  apply (add_product_to_cart_answers Fixture.shop
           (product_url Fixture.order_A2) (size Fixture.order_A2)
           (color Fixture.order_A2) (quantity Fixture.order_A2)
           Fixture.three_pending r).
  reflexivity.
Defined.

(** X4. When the page loads but is not a valid product page,
    [add_product_to_cart] answers "Page produit invalide ou produit non
    trouvé" after the navigation, the two-second pause and waits on the
    product indicators only: no size, colour, quantity or add-to-cart call is
    made. *)
Theorem invalid_page_stops_the_attempt env url size color quantity st :
  uninterrupted env ->
  env_goto env (trace st) url = Ret tt ->
  (forall s, fst (_is_valid_product_page env s) = Ret false) ->
  exists evs,
    add_product_to_cart env url size color quantity st
    = (Ret (false, "Page produit invalide ou produit non trouvé"),
       st_app st (EGoto url :: ESleep 2000 :: evs))
    /\ forallb validity_event evs = true.
Proof.
  intros Hu Hgoto Hinvalid.
  unfold add_product_to_cart, try_except_Exception.
  unfold bind at 1. unfold goto at 1. unfold call at 1. rewrite Hgoto.
  unfold bind at 1. rewrite (sleep_returns env 2000 _ Hu).
  unfold bind at 1.
  set (s0 := add_event (ESleep 2000) (add_event (EGoto url) st)).
  pose proof (valid_page_events env s0) as Hv.
  pose proof (Hinvalid s0) as Hr.
  destruct (_is_valid_product_page env s0) as [r s1].
  cbn [fst snd] in Hv, Hr. subst r. cbn [negb].
  destruct Hv as (evs & Hevs & ->). exists evs. split; [|exact Hevs].
  unfold ret. subst s0. rewrite !add_event_st_app, !st_app_app. reflexivity.
Qed.

Lemma invalid_page_stops_the_attempt_witness :
  exists evs,
    add_product_to_cart (Fixture.static_env Fixture.error_page)
      "https://www.shein.com/fr/404" "M" "Rouge" 2
      Fixture.empty_state
    = (Ret (false, "Page produit invalide ou produit non trouvé"),
       st_app Fixture.empty_state
         (EGoto "https://www.shein.com/fr/404" :: ESleep 2000 :: evs))
    /\ forallb validity_event evs = true.
Proof.
  apply (invalid_page_stops_the_attempt
           (Fixture.static_env Fixture.error_page)).
  - intros tr. reflexivity.
  - reflexivity.
  - intros s. reflexivity.
Defined.

(** X5. Only the size is a hard requirement.  On a valid page, once the size
    (when one is named) is selected, the answer of [add_product_to_cart] is
    decided by the add-to-cart click alone: a colour that was not found and a
    quantity that could not be set do not fail the order.  In particular, on
    a page with no quantity input and no [+] button, [_set_quantity] waits
    for its nine selectors, clicks and types nothing and returns [False], and
    an order for several items is still reported as added. *)
Theorem only_the_click_decides env o st :
  uninterrupted env ->
  env_goto env (trace st) (product_url o) = Ret tt ->
  (forall s, fst (_is_valid_product_page env s) = Ret true) ->
  (truth (size o) = true ->
   forall s, fst (_select_size env (size o) s) = Ret true) ->
  (forall b,
     (forall s, fst (_click_add_to_cart env s) = Ret b) ->
     fst (attempt env o st)
     = Ret (if b then (true, "Produit ajouté avec succès")
            else (false,
                  "Échec ajout au panier - bouton non trouvé ou non cliquable")))
  /\ (Forall (absent env 3000) (qty_selectors ++ plus_button_selectors) ->
      forall s,
        _set_quantity env (quantity o) s
        = (Ret false,
           st_app s (waits 3000 (qty_selectors ++ plus_button_selectors)))).
Proof.
  intros Hu Hgoto Hvalid Hsize. split.
  - intros b Hadd.
    unfold attempt, add_product_to_cart, try_except_Exception.
    unfold bind at 1. unfold goto at 1. unfold call at 1. rewrite Hgoto.
    unfold bind at 1. rewrite (sleep_returns env 2000 _ Hu).
    unfold bind at 1.
    pose proof (Hvalid (add_event (ESleep 2000)
                          (add_event (EGoto (product_url o)) st))) as Hr.
    destruct (_is_valid_product_page env
                (add_event (ESleep 2000)
                   (add_event (EGoto (product_url o)) st))) as [r s1].
    cbn [fst] in Hr. subst r. cbn [negb].
    assert (Hrest : forall start,
               exists finish,
                 configure_and_commit env (color o) (quantity o) start
                 = (Ret (if b then (true, "Produit ajouté avec succès")
                         else (false,
                               "Échec ajout au panier - bouton non trouvé ou non cliquable")),
                    finish)).
    { intros start.
      pose proof (configure_and_commit_follows_click env (color o)
                    (quantity o) start b Hu Hadd) as H.
      destruct (configure_and_commit env (color o) (quantity o) start)
        as [r finish]. cbn [fst] in H. subst r. now exists finish. }
    destruct (truth (size o)) eqn:Et.
    + unfold bind at 1.
      pose proof (Hsize eq_refl s1) as H.
      destruct (_select_size env (size o) s1) as [r s2].
      cbn [fst] in H. subst r. cbn [negb].
      destruct (Hrest s2) as (finish & ->). reflexivity.
    + destruct (Hrest s1) as (finish & ->). reflexivity.
  - intros Hno s. apply Forall_app in Hno. destruct Hno as [Hq Hp].
    unfold _set_quantity, try_except_Exception, bind.
    rewrite (chain_miss_generic (try_qty_selector env (quantity o)) 3000).
    2:{ intros x Hx st0.
        apply (try_qty_selector_gives_up env (quantity o) x
                 [EWaitForSelector x 3000] st0).
        left. split; [|reflexivity].
        rewrite Forall_forall in Hq. now apply Hq. }
    rewrite (chain_miss_generic (try_plus_selector env (quantity o)) 3000).
    2:{ intros x Hx st0. apply try_plus_selector_misses.
        rewrite Forall_forall in Hp. now apply Hp. }
    unfold ret, waits. rewrite st_app_app, map_app. reflexivity.
Qed.

Lemma only_the_click_decides_witness :
  fst (attempt Fixture.shop Fixture.bulk_order Fixture.empty_state)
  = Ret (true, "Produit ajouté avec succès")
  /\ _set_quantity Fixture.shop 3 Fixture.empty_state
     = (Ret false,
        st_app Fixture.empty_state
          (waits 3000 (qty_selectors ++ plus_button_selectors))).
Proof.
  destruct (only_the_click_decides Fixture.shop Fixture.bulk_order
              Fixture.empty_state (fun tr => eq_refl) eq_refl
              (fun s => eq_refl))
    as [Hclick Hqty].
  - intros _ s. reflexivity.
  - split.
    + apply (Hclick true). intros s. reflexivity.
    + apply Hqty.
      repeat (apply Forall_cons; [intros tr; reflexivity|]). apply Forall_nil.
Defined.

(** X6. When none of the product indicators is present, the URL decides
    whether the page is a product page: it is one exactly when the URL
    contains "/item" or "/product".  So a page that shows no product at all
    is accepted as long as its address names an item.  If the URL cannot be
    read, the page is not valid. *)
Theorem url_decides_without_indicators env st :
  Forall (absent env 5000) product_indicators ->
  let st' := st_app st (waits 5000 product_indicators) in
  (forall u,
     env_url env (trace st') = Ret u ->
     _is_valid_product_page env st
     = (Ret (PyStr.contains "/item" u || PyStr.contains "/product" u), st'))
  /\ (forall e,
        env_url env (trace st') = Raise e ->
        exn_is_Exception e = true ->
        _is_valid_product_page env st = (Ret false, st')).
Proof.
  intros Hno st'. split.
  - intros u Hu.
    unfold _is_valid_product_page, try_except_Exception, bind.
    rewrite (probe_chain_miss env 5000 _ st Hno).
    unfold page_url. fold st'. rewrite Hu.
    destruct (PyStr.contains "/item" u || PyStr.contains "/product" u);
      reflexivity.
  - intros e Hu He.
    unfold _is_valid_product_page, try_except_Exception, bind.
    rewrite (probe_chain_miss env 5000 _ st Hno).
    unfold page_url. fold st'. rewrite Hu, He. reflexivity.
Qed.

Lemma url_decides_without_indicators_witness :
  _is_valid_product_page (Fixture.static_env Fixture.blank_item_page)
    Fixture.empty_state
  = (Ret true, st_app Fixture.empty_state (waits 5000 product_indicators))
  /\ _is_valid_product_page (Fixture.static_env Fixture.error_page)
       Fixture.empty_state
     = (Ret false, st_app Fixture.empty_state (waits 5000 product_indicators)).
Proof.
  split.
  - apply (proj1 (url_decides_without_indicators
                    (Fixture.static_env Fixture.blank_item_page)
                    Fixture.empty_state
                    ltac:(repeat (apply Forall_cons;
                                  [intros tr; reflexivity|]);
                          apply Forall_nil))
             "https://www.shein.com/fr/item12345").
    reflexivity.
  - apply (proj1 (url_decides_without_indicators
                    (Fixture.static_env Fixture.error_page)
                    Fixture.empty_state
                    ltac:(repeat (apply Forall_cons;
                                  [intros tr; reflexivity|]);
                          apply Forall_nil))
             "https://www.shein.com/fr/404").
    reflexivity.
Defined.

(** ** Login check, session file, configuration *)

Lemma probe_chain_found env t sels : forall st v,
  fst (for_return (probe env t) sels st) = Ret (Some v) ->
  exists s tr, In s sels /\ hit env tr s t = true.
Proof.
  induction sels as [|x sels IH]; intros st v; cbn [for_return].
  - discriminate.
  - unfold bind. rewrite probe_spec.
    destruct (hit env (trace st) x t) eqn:E.
    + intros _. exists x, (trace st). split; [now left | exact E].
    + intros H. destruct (IH _ _ H) as (s & tr & Hs & Hh).
      exists s, tr. split; [now right | exact Hh].
Qed.

(** X7. [check_login_status] answers [True] only when one of the five
    login indicators was found on the home page; the URL it reads afterwards
    never makes the answer [True].  With the indicators absent the answer is
    [False], and with the first indicator present the check stops there. *)
Theorem login_is_never_assumed env st :
  (fst (check_login_status env st) = Ret true ->
   exists s tr, In s login_indicators /\ hit env tr s 5000 = true)
  /\ (env_safe env ->
      Forall (absent env 5000) login_indicators ->
      fst (check_login_status env st) = Ret false)
  /\ (forall pre s post,
        uninterrupted env ->
        login_indicators = (pre ++ s :: post)%list ->
        env_goto env (trace st) SHEIN_BASE_URL = Ret tt ->
        Forall (absent env 5000) pre -> present env 5000 s ->
        check_login_status env st
        = (Ret true,
           st_app st (EGoto SHEIN_BASE_URL :: ESleep 3000
                        :: waits 5000 (pre ++ [s])))).
Proof.
  split; [|split].
  - unfold check_login_status, try_except_Exception.
    unfold bind at 1. unfold goto at 1. unfold call at 1.
    destruct (env_goto env (trace st) SHEIN_BASE_URL) as [[]|e].
    2:{ destruct (exn_is_Exception e); discriminate. }
    unfold bind at 1. unfold sleep at 1. unfold call at 1.
    destruct (env_cancelled env (trace (add_event (EGoto SHEIN_BASE_URL) st)));
      [discriminate|].
    unfold bind at 1.
    set (s0 := add_event (ESleep 3000) (add_event (EGoto SHEIN_BASE_URL) st)).
    pose proof (probe_chain_found env 5000 login_indicators s0) as Hfound.
    pose proof (probe_returns_true env 5000 login_indicators s0) as Htrue.
    destruct (for_return (probe env 5000) login_indicators s0)
      as [[[v|]|e] s1]; cbn [fst] in *.
    + intros _. apply (Hfound v eq_refl).
    + unfold bind, page_url.
      destruct (env_url env (trace s1)) as [u|e].
      * destruct (PyStr.contains "login" (env_lower env u)); discriminate.
      * destruct (exn_is_Exception e); discriminate.
    + destruct (exn_is_Exception e); discriminate.
  - intros Henv Hno.
    unfold check_login_status, try_except_Exception.
    unfold bind at 1. unfold goto at 1. unfold call at 1.
    pose proof (safe_goto env Henv (trace st) SHEIN_BASE_URL) as Hg.
    destruct (env_goto env (trace st) SHEIN_BASE_URL) as [[]|e].
    2:{ cbn in Hg. rewrite Hg. reflexivity. }
    unfold bind at 1. rewrite (sleep_returns env 3000 _ (safe_sleep env Henv)).
    unfold bind at 1. rewrite (probe_chain_miss env 5000 _ _ Hno).
    unfold bind, page_url.
    match goal with
    | |- context [env_url env ?tr] =>
        pose proof (safe_url env Henv tr) as Hu;
        destruct (env_url env tr) as [u|e]
    end.
    + destruct (PyStr.contains "login" (env_lower env u)); reflexivity.
    + cbn in Hu. rewrite Hu. reflexivity.
  - intros pre s post Hu E Hgoto Hpre Hs.
    unfold check_login_status, try_except_Exception.
    unfold bind at 1. unfold goto at 1. unfold call at 1. rewrite Hgoto.
    unfold bind at 1. rewrite (sleep_returns env 3000 _ Hu).
    unfold bind at 1. rewrite E.
    rewrite (probe_chain_hit env 5000 pre s post _ Hpre Hs).
    unfold ret. rewrite !add_event_st_app, !st_app_app. reflexivity.
Qed.

Lemma login_is_never_assumed_witness :
  fst (check_login_status (Fixture.static_env Fixture.login_form_page)
         Fixture.empty_state) = Ret false
  /\ check_login_status (Fixture.static_env Fixture.account_page)
       Fixture.empty_state
     = (Ret true,
        st_app Fixture.empty_state
          (EGoto SHEIN_BASE_URL :: ESleep 3000
             :: waits 5000 (firstn 2 login_indicators))).
Proof.
  split.
  - destruct (login_is_never_assumed
                (Fixture.static_env Fixture.login_form_page)
                Fixture.empty_state) as (_ & H & _).
    apply H; [apply static_env_safe|].
    repeat (apply Forall_cons; [intros tr; reflexivity|]). apply Forall_nil.
  - destruct (login_is_never_assumed
                (Fixture.static_env Fixture.account_page)
                Fixture.empty_state) as (_ & _ & H).
    apply (H (firstn 1 login_indicators) ".user-info"
             (skipn 2 login_indicators)).
    + intros tr. reflexivity.
    + reflexivity.
    + reflexivity.
    + repeat (apply Forall_cons; [intros tr; reflexivity|]). apply Forall_nil.
    + intros tr. reflexivity.
Defined.

(** X8. The session file survives every failure.  [_save_cookies] leaves
    the file as it is when there is no browsing context and when the context
    cannot list its cookies; [_load_cookies] never writes the file, and on a
    file that is not JSON it adds no cookie and raises nothing. *)
Theorem session_file_survives_failures env st :
  (has_context st = false -> _save_cookies env st = (Ret tt, st))
  /\ (forall e,
        has_context st = true ->
        env_context_cookies env (trace st) = Raise e ->
        cookies_file (snd (_save_cookies env st)) = cookies_file st)
  /\ cookies_file (snd (_load_cookies env st)) = cookies_file st
  /\ (cookies_file st = Some NotJson ->
      _load_cookies env st = (Ret tt, st)).
Proof.
  split; [|split; [|split]].
  - intros H. unfold _save_cookies, try_except_Exception. rewrite H.
    reflexivity.
  - intros e Hctx He.
    unfold _save_cookies, try_except_Exception, bind, context_cookies, call.
    rewrite Hctx, He. destruct (exn_is_Exception e); reflexivity.
  - unfold _load_cookies, try_except_Exception, bind, json_load_cookies,
      context_add_cookies, call, ret, raise.
    destruct (cookies_file st) as [[|cookies]|] eqn:E; cbn.
    + exact E.
    + destruct (has_context st).
      * destruct (env_add_cookies env (trace st) cookies) as [[]|e]; cbn;
          try destruct (exn_is_Exception e); exact E.
      * cbn. exact E.
    + exact E.
  - intros H. unfold _load_cookies, try_except_Exception. rewrite H.
    reflexivity.
Qed.

Lemma session_file_survives_failures_witness :
  cookies_file (snd (_save_cookies Fixture.no_cookie_access
                       Fixture.saved_session))
  = Some (JsonCookies [Fixture.session_cookie])
  /\ _load_cookies Fixture.logged_in
       (mk_state [] None (Some NotJson) true)
     = (Ret tt, mk_state [] None (Some NotJson) true).
Proof.
  split.
  - destruct (session_file_survives_failures Fixture.no_cookie_access
                Fixture.saved_session) as (_ & H & _).
    apply (H Fixture.target_closed); reflexivity.
  - destruct (session_file_survives_failures Fixture.logged_in
                (mk_state [] None (Some NotJson) true)) as (_ & _ & _ & H).
    apply H. reflexivity.
Defined.

(** X9. [validate_config] never answers [False]: it answers [True] exactly
    when the three required keys are all non-empty, and otherwise raises an
    error that names the empty keys, in the order of the declaration,
    separated by ", ". *)
Theorem validate_config_never_false cfg :
  Config.validate_config cfg <> Ret false
  /\ (Config.validate_config cfg = Ret true <->
      PyStr.truthy (Config.OPENAI_API_KEY cfg) = true
      /\ PyStr.truthy (Config.TWILIO_ACCOUNT_SID cfg) = true
      /\ PyStr.truthy (Config.TWILIO_AUTH_TOKEN cfg) = true)
  /\ (forall e,
        Config.validate_config cfg = Raise e ->
        exn_is_Exception e = true
        /\ Config.missing_keys cfg <> []
        /\ exn_str e
           = "Clés de configuration manquantes: "
               ++ String.concat ", " (Config.missing_keys cfg)).
Proof.
  destruct cfg as [k1 k2 k3].
  unfold Config.validate_config, Config.missing_keys, Config.required_keys.
  cbn [Config.OPENAI_API_KEY Config.TWILIO_ACCOUNT_SID
       Config.TWILIO_AUTH_TOKEN filter map fst snd].
  destruct (PyStr.truthy k1), (PyStr.truthy k2), (PyStr.truthy k3);
    cbn [negb filter map fst snd];
    (split; [discriminate|]);
    (split; [split; [try discriminate; auto | intros (A & B & C);
                                               try discriminate; reflexivity]|]);
    intros e H; inversion H; subst e; cbn [exn_is_Exception exn_str py_error];
    repeat split; discriminate.
Qed.

Lemma validate_config_never_false_witness :
  Config.validate_config Fixture.partial_keys
  = Raise (py_error "Clés de configuration manquantes: TWILIO_AUTH_TOKEN")
  /\ exn_str (py_error "Clés de configuration manquantes: TWILIO_AUTH_TOKEN")
     = "Clés de configuration manquantes: "
         ++ String.concat ", " (Config.missing_keys Fixture.partial_keys).
Proof.
  split; [reflexivity|].
  destruct (validate_config_never_false Fixture.partial_keys) as (_ & _ & H).
  apply (H (py_error "Clés de configuration manquantes: TWILIO_AUTH_TOKEN")).
  reflexivity.
Defined.

(** ** The scans of _select_size and _select_color *)

(** X10. When no size selector matches, [_select_size] scans the elements
    that [query_selector_all] returns, in that order, and clicks the first
    one whose text contains the requested size, both put in upper case by
    Python, whose [disabled] attribute is absent or empty and whose class,
    put in lower case, does not contain "disabled"; it clicks no other
    element.  The test is a substring test: an element that reads "xs" is
    taken for the size "S".  When the scan rejects every element,
    [_select_size] returns [False] and has clicked nothing; this is the case
    of every size that is not a text, which has no [upper()]. *)
Theorem size_scan_takes_first_enabled_match env target_size st :
  Forall (absent env 3000) (size_selectors (py_str target_size)) ->
  (uninterrupted env ->
   forall pre h post,
     query_gives env all_size_elements_selector (pre ++ h :: post) ->
     Forall (scan_rejects env target_size) pre ->
     scan_accepts env target_size h -> clickable env h ->
     exists evs,
       _select_size env target_size st = (Ret true, st_app st evs)
       /\ filter is_click evs = [EClick h])
  /\ (forall hs,
        query_gives env all_size_elements_selector hs ->
        Forall (scan_rejects env target_size) hs ->
        exists evs,
          _select_size env target_size st = (Ret false, st_app st evs)
          /\ filter is_click evs = [])
  /\ ((forall s, target_size <> VStr s) ->
      forall h text disabled class,
        element_shows env h text disabled class ->
        scan_rejects env target_size h).
Proof.
  intros Hno. split; [|split].
  - intros Hu pre h post Hq Hpre Hacc Hclick.
    now apply (select_size_scan_hit env Hu target_size pre h post).
  - intros hs Hq Hall.
    destruct (select_size_scan_miss env target_size hs st Hno Hq Hall)
      as (evs & H1 & H2 & _).
    now exists evs.
  - intros Hnot h text disabled class Hshows.
    exists text, disabled, class. split; [exact Hshows|].
    destruct target_size; try reflexivity.
    exfalso. now apply (Hnot s).
Qed.

Lemma size_scan_takes_first_enabled_match_witness :
  (exists evs,
     _select_size (Fixture.static_env Fixture.scanned_page) "S"
                  Fixture.empty_state
     = (Ret true, st_app Fixture.empty_state evs)
     /\ filter is_click evs = [EClick 51%nat])
  /\ (exists evs,
        _select_size (Fixture.static_env Fixture.scanned_page) VNaN
                     Fixture.empty_state
        = (Ret false, st_app Fixture.empty_state evs)
        /\ filter is_click evs = []).
Proof.
  split.
  - destruct (size_scan_takes_first_enabled_match
                (Fixture.static_env Fixture.scanned_page) "S"
                Fixture.empty_state) as [H _].
    + repeat (apply Forall_cons; [intros tr; reflexivity|]). apply Forall_nil.
    + apply (H (fun tr => eq_refl) [50%nat] 51%nat [52%nat]).
      * intros tr. reflexivity.
      * apply Forall_cons; [|apply Forall_nil].
        exists (Some "XS"), None, (Some "sz sz-disabled").
        split; [repeat split; intros tr; reflexivity | reflexivity].
      * exists (Some "xs"), None, None.
        split; [repeat split; intros tr; reflexivity | reflexivity].
      * intros tr. reflexivity.
  - destruct (size_scan_takes_first_enabled_match
                (Fixture.static_env Fixture.scanned_page) VNaN
                Fixture.empty_state) as (_ & H & Hnot).
    + repeat (apply Forall_cons; [intros tr; reflexivity|]). apply Forall_nil.
    + apply (H [50; 51; 52]%nat).
      * intros tr. reflexivity.
      * assert (Hn : forall s, VNaN <> VStr s) by (intros s E; discriminate E).
        repeat (apply Forall_cons;
                [eapply (Hnot Hn); repeat split; intros tr; reflexivity|]).
        apply Forall_nil.
Defined.

(** X11. [_select_color] goes through its selectors in order and, for each,
    through the elements that [query_selector_all] returns, in order; it
    clicks the first element whose title, alt or text, put in lower case by
    Python, contains the requested colour put in lower case, and no other
    element.  When no element of any selector names the colour, it returns
    [False] and has clicked nothing. *)
Theorem color_scan_takes_first_match env (target_color : string) st :
  (uninterrupted env ->
   forall pre s post hpre h hpost,
     color_selectors target_color = (pre ++ s :: post)%list ->
     Forall (barren env target_color) pre ->
     query_gives env s (hpre ++ h :: hpost) ->
     Forall (lacks_color env target_color) hpre ->
     names_color env target_color h -> clickable env h ->
     exists evs,
       _select_color env target_color st = (Ret true, st_app st evs)
       /\ filter is_click evs = [EClick h])
  /\ (Forall (barren env target_color) (color_selectors target_color) ->
      exists evs,
        _select_color env target_color st = (Ret false, st_app st evs)
        /\ filter is_click evs = []).
Proof.
  split.
  - intros Hu pre s post hpre h hpost E Hpre Hq Hlack Hname Hclick.
    now apply (select_color_names env target_color Hu pre s post hpre h
                 hpost).
  - intros Hall.
    destruct (select_color_barren env target_color st Hall)
      as (evs & H1 & H2 & _).
    now exists evs.
Qed.

Lemma color_scan_takes_first_match_witness :
  (exists evs,
     _select_color (Fixture.static_env Fixture.swatch_page) "Rouge"
                   Fixture.empty_state
     = (Ret true, st_app Fixture.empty_state evs)
     /\ filter is_click evs = [EClick 61%nat])
  /\ exists evs,
       _select_color Fixture.shop "Rouge" Fixture.empty_state
       = (Ret false, st_app Fixture.empty_state evs)
       /\ filter is_click evs = [].
Proof.
  split.
  - destruct (color_scan_takes_first_match
                (Fixture.static_env Fixture.swatch_page) "Rouge"
                Fixture.empty_state) as [H _].
    apply (H (fun tr => eq_refl) (firstn 4 (color_selectors "Rouge"))
             (last (color_selectors "Rouge") EmptyString) []
             [60%nat] 61%nat []).
    + reflexivity.
    + repeat (apply Forall_cons;
              [exists []; split; [intros tr; reflexivity | apply Forall_nil]|]).
      apply Forall_nil.
    + intros tr. reflexivity.
    + apply Forall_cons; [|apply Forall_nil].
      exists (Some "Bleu marine"), None, None.
      split; [repeat split; intros tr; reflexivity | reflexivity].
    + exists (Some "ROUGE vif"), None, None.
      split; [repeat split; intros tr; reflexivity | reflexivity].
    + intros tr. reflexivity.
  - destruct (color_scan_takes_first_match Fixture.shop "Rouge"
                Fixture.empty_state) as [_ H].
    apply H.
    repeat (apply Forall_cons;
            [exists []; split; [intros tr; reflexivity | apply Forall_nil]|]).
    apply Forall_nil.
Defined.

(** ** The order store *)





(** X18. With a status and notes that the sheet keeps as they are (texts
    without a control character that a cell refuses, no longer than a cell
    holds, which are read back as the same texts),
    [update_order_status(order_id, status, notes)] rewrites only the rows
    whose [order_id] is the given one; in those rows it writes [status] and
    [processed_at], and [notes] only when the given notes are not empty;
    every other column and every other row is kept, and the answer is
    [True].  When no row matches, or the workbook cannot be read, it returns
    [False] and nothing changes. *)
Theorem kept_texts_update_only_their_order env oid new_status new_notes st :
  DataManager.keeps new_status = true ->
  (new_notes = EmptyString \/ DataManager.keeps new_notes = true) ->
  let out := DataManager.update_order_status env oid new_status new_notes st in
  match orders_file st with
  | None => out = (Ret false, st)
  | Some df =>
      if existsb (fun r => String.eqb (order_id r) oid) df then
        fst out = Ret true
        /\ exists df',
            snd out
            = mk_state (trace st ++ [EUpdateStatus oid new_status new_notes])%list
                       (Some df') (cookies_file st) (has_context st)
            /\ Forall2 (row_updated oid new_status (env_now env (trace st))
                                    new_notes) df df'
      else out = (Ret false, st)
  end.
Proof.
  intros Hks Hkn out. subst out. destruct (orders_file st) as [df|] eqn:E.
  - rewrite (update_order_status_spec env oid new_status new_notes st df E).
    destruct (existsb (fun r => String.eqb (order_id r) oid) df);
      [|reflexivity].
    rewrite (write_fails_kept _ _ Hks Hkn).
    rewrite (sheet_after_kept env oid new_status (env_now env (trace st))
               new_notes df Hks Hkn).
    split; [reflexivity|]. eexists. split; [reflexivity|].
    apply Forall2_map_r. intros r. apply update_row_updated.
  - now apply update_order_status_unreadable.
Qed.

Lemma kept_texts_update_only_their_order_witness :
  let out :=
    DataManager.update_order_status Fixture.shop
      (order_id Fixture.order_B1) "completed"
      "Ajouté automatiquement au panier" Fixture.two_orders in
  fst out = Ret true
  /\ exists df',
       snd out
       = mk_state [EUpdateStatus (order_id Fixture.order_B1) "completed"
                     "Ajouté automatiquement au panier"]
                  (Some df') None true
       /\ Forall2 (row_updated (order_id Fixture.order_B1) "completed"
                     "2024-05-01T10:00:00" "Ajouté automatiquement au panier")
                  [Fixture.order_B1; Fixture.order_A0] df'.
Proof.
  apply (kept_texts_update_only_their_order Fixture.shop
           (order_id Fixture.order_B1) "completed"
           "Ajouté automatiquement au panier" Fixture.two_orders).
  - vm_compute. reflexivity.
  - right. vm_compute. reflexivity.
Defined.

Lemma string_length_append a b :
  String.length (a ++ b) = (String.length a + String.length b)%nat.
Proof. induction a as [|c a IH]; cbn; [reflexivity | now rewrite IH]. Qed.

Lemma substring_whole s : forall m,
  (String.length s <= m)%nat -> substring 0 m s = s.
Proof.
  induction s as [|c s IH]; intros m H; destruct m; cbn in *;
    try reflexivity; try lia.
  rewrite IH by lia. reflexivity.
Qed.

Lemma substring_tail n : forall s m,
  (n <= String.length s)%nat -> (String.length s - n <= m)%nat ->
  exists pre, s = pre ++ substring n m s /\ String.length pre = n.
Proof.
  induction n as [|n IH]; intros s m Hn Hm.
  - exists EmptyString. rewrite substring_whole by lia. split; reflexivity.
  - destruct s as [|c s]; cbn in Hn; [lia|].
    destruct (IH s m) as (pre & Hs & Hl); [lia | cbn in Hm; lia|].
    exists (String c pre). cbn. split; [now rewrite <- Hs | now rewrite Hl].
Qed.

Lemma find_unique_key {V} (l : list (string * V)) k v :
  NoDup (map fst l) -> In (k, v) l ->
  find (fun p => String.eqb (fst p) k) l = Some (k, v).
Proof.
  induction l as [|[k' v'] l IH]; intros Hnd Hin; [destruct Hin|].
  inversion Hnd; subst. cbn [find fst].
  destruct Hin as [E|Hin].
  - inversion E; subst. now rewrite String.eqb_refl.
  - destruct (String.eqb k' k) eqn:Ek.
    + apply String.eqb_eq in Ek. subst k'. exfalso. apply H1.
      apply in_map_iff. exists (k, v). split; [reflexivity | exact Hin].
    + now apply IH.
Qed.

Lemma find_absent_key {V} (l : list (string * V)) k :
  ~ In k (map fst l) -> find (fun p => String.eqb (fst p) k) l = None.
Proof.
  induction l as [|[k' v'] l IH]; intros H; [reflexivity|].
  cbn [find fst]. destruct (String.eqb k' k) eqn:Ek.
  - apply String.eqb_eq in Ek. subst. exfalso. apply H. now left.
  - apply IH. intros Hin. apply H. now right.
Qed.

(** X14. [_get_user_name] answers the name under which the phone number is
    registered in the users file.  For a number that is not registered, or
    that is registered without a name, it answers "Utilisateur_" followed by
    the last four characters of the number (the whole number when it has
    fewer than four), so the default name never shows more of the number.
    When the users file cannot be read it answers the same default, and
    "Utilisateur_Unknown" for an empty number. *)
Theorem user_name_default_shows_last_four users_file phone :
  (exists hidden,
     phone = hidden ++ DataManager.last4 phone
     /\ String.length (DataManager.last4 phone)
        = Nat.min 4 (String.length phone))
  /\ (forall users name,
        users_file = Some (DataManager.mk_users_json (Some users)) ->
        NoDup (map fst users) -> In (phone, Some name) users ->
        DataManager._get_user_name users_file phone = name)
  /\ (forall users,
        users_file = Some (DataManager.mk_users_json (Some users)) ->
        NoDup (map fst users) ->
        (~ In phone (map fst users) \/ In (phone, None) users) ->
        DataManager._get_user_name users_file phone
        = "Utilisateur_" ++ DataManager.last4 phone)
  /\ (users_file = Some (DataManager.mk_users_json None) ->
      DataManager._get_user_name users_file phone
      = "Utilisateur_" ++ DataManager.last4 phone)
  /\ (users_file = None ->
      DataManager._get_user_name users_file phone
      = if String.eqb phone EmptyString then "Utilisateur_Unknown"
        else "Utilisateur_" ++ DataManager.last4 phone).
Proof.
  split; [|split; [|split; [|split]]].
  - unfold DataManager.last4.
    destruct (substring_tail (String.length phone - 4) phone 4)
      as (pre & Hs & Hl); try lia.
    exists pre. split; [exact Hs|].
    assert (Hlen : String.length phone
                   = (String.length pre
                      + String.length
                          (substring (String.length phone - 4) 4 phone))%nat).
    { rewrite <- string_length_append, <- Hs. reflexivity. }
    lia.
  - intros users name -> Hnd Hin. unfold DataManager._get_user_name.
    cbn [DataManager.uj_users].
    now rewrite (find_unique_key users phone (Some name) Hnd Hin).
  - intros users -> Hnd [Hno|Hin]; unfold DataManager._get_user_name;
      cbn [DataManager.uj_users].
    + now rewrite (find_absent_key users phone Hno).
    + now rewrite (find_unique_key users phone None Hnd Hin).
  - intros ->. reflexivity.
  - intros ->. unfold DataManager._get_user_name.
    destruct phone; reflexivity.
Qed.

Lemma user_name_default_shows_last_four_witness :
  DataManager._get_user_name (Some Fixture.one_user) "+221770000000" = "Awa"
  /\ DataManager._get_user_name (Some Fixture.one_user) "+221701234567"
     = "Utilisateur_" ++ DataManager.last4 "+221701234567"
  /\ DataManager._get_user_name None EmptyString = "Utilisateur_Unknown".
Proof.
  split; [|split].
  - destruct (user_name_default_shows_last_four (Some Fixture.one_user)
                "+221770000000") as (_ & H & _).
    apply (H [ ("+221770000000", Some "Awa") ]).
    + reflexivity.
    + repeat constructor. intros [].
    + left. reflexivity.
  - destruct (user_name_default_shows_last_four (Some Fixture.one_user)
                "+221701234567") as (_ & _ & H & _).
    apply (H [ ("+221770000000", Some "Awa") ]).
    + reflexivity.
    + repeat constructor. intros [].
    + left. simpl. intuition discriminate.
  - destruct (user_name_default_shows_last_four None EmptyString)
      as (_ & _ & _ & _ & H).
    apply (H eq_refl).
Defined.

(** ** What is touched and what is let through *)

(** X15. [add_product_to_cart] navigates once, as its first call, and then
    only works on the page: it makes no second navigation and no call on the
    browsing context, it writes nothing to the order workbook and nothing to
    the cookie file, whatever the browser answers. *)
Theorem add_product_to_cart_touches_only_the_page
    env url size color quantity st :
  exists evs,
    snd (add_product_to_cart env url size color quantity st)
    = mk_state (trace st ++ EGoto url :: evs)%list (orders_file st)
               (cookies_file st) (has_context st)
    /\ forallb page_event evs = true.
Proof.
  destruct (add_product_to_cart_page_events env url size color quantity st)
    as (evs & Hevs & Hst).
  exists evs. split; [exact Hst | exact Hevs].
Qed.

(** X16. [_select_color], [_set_quantity] and [_click_add_to_cart] never
    raise, whatever the browser raises and whichever sleep is cancelled:
    every call and every sleep they make sits inside a bare [except:].
    [_confirm_cart_addition] makes its probes inside a bare [except:] too,
    but its last sleep sits outside: it raises nothing but the cancellation
    of that sleep, and raises it when no indicator and no modal is present
    and the task is cancelled then.  [_select_size] and
    [_is_valid_product_page] let through an error that is not an instance of
    [Exception], raised by the query of all elements or by the reading of
    the URL once the selectors have found nothing. *)
Theorem which_steps_can_raise env st :
  (forall target_color,
     exists b, fst (_select_color env target_color st) = Ret b)
  /\ (forall quantity, exists b, fst (_set_quantity env quantity st) = Ret b)
  /\ (exists b, fst (_click_add_to_cart env st) = Ret b)
  /\ (fst (_confirm_cart_addition env st) = Ret true
      \/ fst (_confirm_cart_addition env st) = Raise cancelled_error)
  /\ (Forall (absent env 5000) success_indicators ->
      Forall (absent env 3000) modal_selectors ->
      env_cancelled env
        (trace st ++ waits 5000 success_indicators
           ++ waits 3000 modal_selectors)%list = true ->
      fst (_confirm_cart_addition env st) = Raise cancelled_error)
  /\ (forall target_size e,
        Forall (absent env 3000) (size_selectors (py_str target_size)) ->
        env_query_selector_all env
          (trace st ++ waits 3000 (size_selectors (py_str target_size)))%list
          all_size_elements_selector = Raise e ->
        exn_is_Exception e = false ->
        fst (_select_size env target_size st) = Raise e)
  /\ (forall e,
        Forall (absent env 5000) product_indicators ->
        env_url env (trace st ++ waits 5000 product_indicators)%list
        = Raise e ->
        exn_is_Exception e = false ->
        fst (_is_valid_product_page env st) = Raise e).
Proof.
  split; [|split; [|split; [|split; [|split; [|split]]]]].
  - intros c. apply select_color_total.
  - intros q. apply set_quantity_total.
  - apply click_add_to_cart_total.
  - apply confirm_never_false.
  - intros Hs Hm Hc.
    unfold _confirm_cart_addition, try_except_Exception, bind.
    rewrite (probe_chain_miss env 5000 _ st Hs).
    rewrite (probe_chain_miss env 3000 _ _ Hm).
    unfold sleep, call. rewrite !st_app_app. cbn [st_app trace].
    rewrite Hc. reflexivity.
  - intros target_size e Hno Hq He.
    unfold _select_size, try_except_Exception.
    unfold bind at 1. rewrite (size_chain_misses env _ st Hno).
    unfold bind at 1. unfold query_selector_all at 1. unfold call at 1.
    cbn [trace st_app]. rewrite Hq, He. reflexivity.
  - intros e Hno Hu He.
    unfold _is_valid_product_page, try_except_Exception, bind.
    rewrite (probe_chain_miss env 5000 _ st Hno).
    unfold page_url. cbn [trace st_app]. rewrite Hu, He. reflexivity.
Qed.

Lemma which_steps_can_raise_witness :
  fst (_click_add_to_cart Fixture.interrupted Fixture.empty_state)
  = Ret false
  /\ fst (_confirm_cart_addition Fixture.interrupted Fixture.empty_state)
     = Raise cancelled_error
  /\ fst (_select_size Fixture.interrupted "M" Fixture.empty_state)
     = Raise cancelled_error
  /\ fst (_is_valid_product_page Fixture.interrupted Fixture.empty_state)
     = Raise cancelled_error.
Proof.
  destruct (which_steps_can_raise Fixture.interrupted Fixture.empty_state)
    as (_ & _ & _ & _ & Hconfirm & Hsize & Hvalid).
  split; [reflexivity|]. split; [|split].
  - apply Hconfirm; [| |reflexivity];
      repeat (apply Forall_cons; [intros tr; reflexivity|]); apply Forall_nil.
  - apply (Hsize (VStr "M")); [|reflexivity|reflexivity].
    repeat (apply Forall_cons; [intros tr; reflexivity|]). apply Forall_nil.
  - apply Hvalid; [|reflexivity|reflexivity].
    repeat (apply Forall_cons; [intros tr; reflexivity|]). apply Forall_nil.
Defined.

(** X17. An error that is not an instance of [Exception] (a cancellation, a
    keyboard interrupt) raised by the navigation to an order's page leaves
    the batch at once: [process_pending_orders] raises it to its caller, the
    order keeps the status 'pending', and no later order is attempted. *)
Theorem interruption_leaves_the_batch env st o others e :
  pending_of st = o :: others ->
  env_goto env (trace st) (product_url o) = Raise e ->
  exn_is_Exception e = false ->
  process_pending_orders env st
  = (Raise e, add_event (EGoto (product_url o)) st).
Proof.
  intros Hp Hgoto He.
  unfold process_pending_orders, process_pending_orders_with,
    try_except_Exception.
  unfold bind at 1. rewrite get_pending_orders, Hp.
  cbn [process_orders]. unfold bind at 1.
  unfold process_order at 1, try_except_Exception.
  unfold bind at 1.
  unfold add_product_to_cart at 1, try_except_Exception.
  unfold bind at 1. unfold goto at 1. unfold call at 1.
  rewrite Hgoto. repeat (rewrite He; cbv beta iota). reflexivity.
Qed.

Lemma interruption_leaves_the_batch_witness :
  let out := process_pending_orders Fixture.interrupted Fixture.three_pending
  in
  fst out = Raise cancelled_error
  /\ trace (snd out) = [EGoto (product_url Fixture.order_A1)]
  /\ pending_of (snd out)
     = [Fixture.order_A1; Fixture.order_A2; Fixture.order_A3].
Proof.
  intros out. subst out.
  rewrite (interruption_leaves_the_batch Fixture.interrupted
             Fixture.three_pending Fixture.order_A1
             [Fixture.order_A2; Fixture.order_A3] cancelled_error
             eq_refl eq_refl eq_refl).
  repeat split.
Defined.
